(** * FlashPaper: storage backends, identifiers and delete tokens

    A shallow embedding of the Go packages [internal/util], [internal/model],
    [internal/storage] (filesystem and relational backend) and of the paste
    handlers of [internal/handler], followed by the properties the design
    document states about them.

    Conventions.
    - A Go [string] is a sequence of bytes: [string] of the Standard Library
      (one [ascii] per byte).  A [[]byte] used for arithmetic is a [list Z]
      with entries in [0, 256).
    - [int] and [int64] are [Z]; no operation of the modelled code overflows.
    - [time.Now().Unix()] is an explicit argument [now].
    - A Go [error] is a value of [Model.error]; [nil] is [None].
    - Functions that mutate a backend return the new backend state. *)

From Stdlib Require Import ZArith List String Ascii Bool Lia.
From stdpp Require Import base option list gmap strings sorting.

Import ListNotations.
Local Open Scope string_scope.

(** ** Go's [strings] and [path/filepath] helpers used by the code *)

Module GoStrings.

(** [strings.HasPrefix(s, p)] *)
Definition HasPrefix (s p : string) : bool := String.prefix p s.

(** [strings.Contains(s, sub)] *)
Fixpoint Contains (s sub : string) : bool :=
  if String.prefix sub s then true
  else match s with
       | EmptyString => false
       | String _ s' => Contains s' sub
       end.

(** [strings.HasSuffix(s, suf)] *)
Definition HasSuffix (s suf : string) : bool :=
  let n := String.length s in
  let k := String.length suf in
  (k <=? n)%nat && String.eqb (substring (n - k) k s) suf.

(** [s[i:j]] for [i <= j <= len(s)] *)
Definition slice (s : string) (i j : nat) : string := substring i (j - i) s.

(** [s] cut at its last ['/'], or [None] when [s] has none. *)
Fixpoint split_last_slash (s : string) : option (string * string) :=
  match s with
  | EmptyString => None
  | String c s' =>
      match split_last_slash s' with
      | Some (d, b) => Some (String c d, b)
      | None => if Ascii.eqb c "/" then Some ("", s') else None
      end
  end.

(** [filepath.Base(path)] on a path that does not end in a separator. *)
Definition Base (path : string) : string :=
  match split_last_slash path with
  | Some (_, b) => b
  | None => if String.eqb path "" then "." else path
  end.

(** [filepath.Dir(path)] on a clean path. *)
Definition Dir (path : string) : string :=
  match split_last_slash path with
  | Some (d, _) => if String.eqb d "" then "/" else d
  | None => "."
  end.

(** [strings.TrimSuffix(s, suf)] *)
Definition TrimSuffix (s suf : string) : string :=
  if HasSuffix s suf then substring 0 (String.length s - String.length suf) s else s.

(** [strings.Split(s, sep)] for a separator of one byte. *)
Fixpoint Split (s : string) (sep : ascii) : list string :=
  match s with
  | EmptyString => [""]
  | String c s' =>
      if Ascii.eqb c sep then "" :: Split s' sep
      else match Split s' sep with
           | part :: parts => String c part :: parts
           | [] => [String c ""]
           end
  end.

(** [filepath.Join(elems...)]: empty elements are dropped and the others
    are joined by the separator.  [Join] also calls [Clean]; the backends
    only join a clean base directory with names made of identifier
    characters and literal suffixes, on which [Clean] changes nothing. *)
Fixpoint Join (elems : list string) : string :=
  match elems with
  | [] => ""
  | e :: rest =>
      if String.eqb e "" then Join rest
      else let r := Join rest in
           if String.eqb r "" then e else e ++ "/" ++ r
  end.

(** [[]byte(s)] *)
Definition bytes_of_string (s : string) : list Z :=
  map (fun c => Z.of_N (N_of_ascii c)) (list_ascii_of_string s).

End GoStrings.

(** ** The fragment of Go's [regexp] that [idPattern] is written in *)

Module Regexp.

Inductive regexp : Type :=
| BeginText                                  (* ^ *)
| EndText                                    (* $, without the m flag *)
| CharClass (ranges : list (ascii * ascii))  (* [a-f0-9] *)
| Repeat (r : regexp) (n : nat)              (* r{n} *)
| Concat (r1 r2 : regexp).

Definition in_range (c : ascii) (rg : ascii * ascii) : bool :=
  (N_of_ascii (fst rg) <=? N_of_ascii c)%N && (N_of_ascii c <=? N_of_ascii (snd rg))%N.

(** A matching position: whether it is the start of the text, and the text
    that is left. *)
Definition pos : Type := bool * string.

Fixpoint iter_match (step : pos -> list pos) (n : nat) (p : pos) : list pos :=
  match n with
  | O => [p]
  | S n' => flat_map (iter_match step n') (step p)
  end.

(** All positions at which a match of [r] that starts at [p] can end. *)
Fixpoint run (r : regexp) (p : pos) : list pos :=
  match r with
  | BeginText => if fst p then [p] else []
  | EndText => match snd p with EmptyString => [p] | _ => [] end
  | CharClass ranges =>
      match snd p with
      | String c rest => if existsb (in_range c) ranges then [(false, rest)] else []
      | EmptyString => []
      end
  | Repeat r' n => iter_match (run r') n p
  | Concat r1 r2 => flat_map (run r2) (run r1 p)
  end.

(** Every suffix of the text, the first one flagged as the start. *)
Fixpoint starts (at_start : bool) (s : string) : list pos :=
  (at_start, s) ::
  match s with
  | EmptyString => []
  | String _ s' => starts false s'
  end.

(** [Regexp.MatchString]: is there a match anywhere in [s]? *)
Definition MatchString (r : regexp) (s : string) : bool :=
  existsb (fun p => match run r p with [] => false | _ => true end) (starts true s).

End Regexp.

(** ** Go errors ([model/errors.go]) *)

Module Errors.

(** A Go [error]: one of the sentinels that [model/errors.go] creates with
    [errors.New] (the code compares them by identity), or an error built by
    [fmt.Errorf] with a context and the text of the OS, driver or decoder
    error it wraps at the verb w. *)
Inductive error : Type :=
| ErrPasteNotFound
| ErrPasteExpired
| ErrPasteExists
| ErrCommentNotFound
| ErrCommentExists
| ErrDiscussionDisabled
| ErrDiscussionClosed
| ErrInvalidDeleteToken
| ErrInvalidPasteID
| ErrInvalidCommentID
| ErrPasteTooLarge
| ErrRateLimited
| ErrInvalidExpiration
| ErrInvalidFormatter
| ErrStorageFailure
| ErrBurnAfterReadingWithDiscussion
| Errorf (context cause : string).

(** A Go result pair [(value, error)] of which exactly one side is set. *)
Inductive result (A : Type) : Type :=
| Ok (a : A)
| Err (e : error).
Arguments Ok {A} a.
Arguments Err {A} e.

Definition IsNotFound (e : error) : bool :=
  match e with ErrPasteNotFound | ErrCommentNotFound => true | _ => false end.

Definition IsConflict (e : error) : bool :=
  match e with ErrPasteExists | ErrCommentExists => true | _ => false end.

End Errors.

(** ** Package [util]: identifiers ([id.go]) and tokens ([crypto.go]) *)


Module Util.
Import GoStrings Regexp.

Definition IDLength : nat := 16.

(** [regexp.MustCompile(`^[a-f0-9]{16}$`)] *)
Definition idPattern : regexp :=
  Concat BeginText
    (Concat (Repeat (CharClass [("a", "f"); ("0", "9")]%char) 16) EndText).

Definition ValidateID (id : string) : bool := MatchString idPattern id.

(** *** [encoding/base64], [StdEncoding] *)
Local Open Scope Z_scope.

Definition encodeStd : string :=
  "ABCDEFGHIJKLMNOPQRSTUVWXYZabcdefghijklmnopqrstuvwxyz0123456789+/".

Fixpoint index_of (c : ascii) (alphabet : string) (i : Z) : option Z :=
  match alphabet with
  | EmptyString => None
  | String a rest => if Ascii.eqb a c then Some i else index_of c rest (i + 1)
  end.

(** [enc.decodeMap[c]], with [None] for the entry 0xff *)
Definition decodeMap (c : ascii) : option Z := index_of c encodeStd 0.

Definition is_newline (c : ascii) : bool :=
  Ascii.eqb c "010" || Ascii.eqb c "013".

Definition padChar : ascii := "="%char.

Fixpoint skip_newlines (src : list ascii) : list ascii :=
  match src with
  | c :: rest => if is_newline c then skip_newlines rest else src
  | [] => []
  end.

(** The bytes of a quantum of [dlen] six-bit values ([dlen - 1] bytes);
    the encoding is not strict, so left-over low bits are dropped. *)
Definition quantum_bytes (dbuf : list Z) : list Z :=
  let val := Z.lor (Z.lor (Z.shiftl (nth 0 dbuf 0) 18) (Z.shiftl (nth 1 dbuf 0) 12))
                   (Z.lor (Z.shiftl (nth 2 dbuf 0) 6) (nth 3 dbuf 0)) in
  firstn (length dbuf - 1)
    [Z.land (Z.shiftr val 16) 255; Z.land (Z.shiftr val 8) 255; Z.land val 255].

(** [Decode] with [decodeQuantum]: [dbuf] holds the values of the quantum
    read so far; [None] is a [CorruptInputError]. *)
Fixpoint decode_from (src : list ascii) (dbuf : list Z) : option (list Z) :=
  match src with
  | [] =>
      match dbuf with
      | [] => Some []
      | _ => None                 (* input ends inside a quantum, padding required *)
      end
  | c :: rest =>
      match decodeMap c with
      | Some out =>
          let dbuf' := (dbuf ++ [out])%list in
          if (length dbuf' =? 4)%nat
          then option_map (app (quantum_bytes dbuf')) (decode_from rest [])
          else decode_from rest dbuf'
      | None =>
          if is_newline c then decode_from rest dbuf
          else if negb (Ascii.eqb c padChar) then None
          else
            match length dbuf with
            | 0%nat | 1%nat => None                       (* incorrect padding *)
            | 2%nat =>
                match skip_newlines rest with
                | c2 :: rest2 =>
                    if Ascii.eqb c2 padChar
                    then match skip_newlines rest2 with
                         | [] => Some (quantum_bytes dbuf)
                         | _ => None                      (* trailing garbage *)
                         end
                    else None
                | [] => None                              (* not enough padding *)
                end
            | _ =>
                match skip_newlines rest with
                | [] => Some (quantum_bytes dbuf)
                | _ => None
                end
            end
      end
  end.

(** [base64.StdEncoding.DecodeString] *)
Definition DecodeString (s : string) : option (list Z) :=
  decode_from (list_ascii_of_string s) [].

Definition encode_char (v : Z) : ascii :=
  match String.get (Z.to_nat v) encodeStd with Some c => c | None => padChar end.

(** [base64.StdEncoding.EncodeToString] *)
Fixpoint EncodeToString (src : list Z) : string :=
  match src with
  | [] => ""
  | [b0] =>
      String (encode_char (Z.shiftr b0 2))
        (String (encode_char (Z.land (Z.shiftl b0 4) 63)) "==")
  | [b0; b1] =>
      String (encode_char (Z.shiftr b0 2))
        (String (encode_char (Z.land (Z.lor (Z.shiftl b0 4) (Z.shiftr b1 4)) 63))
           (String (encode_char (Z.land (Z.shiftl b1 2) 63)) "="))
  | b0 :: b1 :: b2 :: rest =>
      String (encode_char (Z.shiftr b0 2))
        (String (encode_char (Z.land (Z.lor (Z.shiftl b0 4) (Z.shiftr b1 4)) 63))
           (String (encode_char (Z.land (Z.lor (Z.shiftl b1 2) (Z.shiftr b2 6)) 63))
              (String (encode_char (Z.land b2 63)) (EncodeToString rest))))
  end.

(** *** [encoding/hex] *)
Definition hextable : string := "0123456789abcdef".

Definition hex_digit (v : Z) : ascii :=
  match String.get (Z.to_nat v) hextable with Some c => c | None => "0"%char end.

(** [hex.EncodeToString] *)
Fixpoint hex_EncodeToString (src : list Z) : string :=
  match src with
  | [] => ""
  | b :: rest =>
      String (hex_digit (Z.shiftr b 4)) (String (hex_digit (Z.land b 15)) (hex_EncodeToString rest))
  end.

(** *** [crypto/sha256] (FIPS 180-4) on 32-bit words *)
Definition w32 (x : Z) : Z := x mod 2 ^ 32.
Definition add32 (x y : Z) : Z := w32 (x + y).
Definition rotr (n x : Z) : Z := Z.lor (Z.shiftr x n) (w32 (Z.shiftl x (32 - n))).
Definition not32 (x : Z) : Z := Z.lxor x 0xffffffff.

Definition Ch (x y z : Z) : Z := Z.lxor (Z.land x y) (Z.land (not32 x) z).
Definition Maj (x y z : Z) : Z := Z.lxor (Z.lxor (Z.land x y) (Z.land x z)) (Z.land y z).
Definition bsig0 (x : Z) : Z := Z.lxor (Z.lxor (rotr 2 x) (rotr 13 x)) (rotr 22 x).
Definition bsig1 (x : Z) : Z := Z.lxor (Z.lxor (rotr 6 x) (rotr 11 x)) (rotr 25 x).
Definition ssig0 (x : Z) : Z := Z.lxor (Z.lxor (rotr 7 x) (rotr 18 x)) (Z.shiftr x 3).
Definition ssig1 (x : Z) : Z := Z.lxor (Z.lxor (rotr 17 x) (rotr 19 x)) (Z.shiftr x 10).

(** The round constants: the first 32 bits of the fractional parts of the
    cube roots of the first 64 primes, here in decimal. *)
Definition sha256_K : list Z :=
  [
   1116352408; 1899447441; 3049323471; 3921009573;
   961987163; 1508970993; 2453635748; 2870763221;
   3624381080; 310598401; 607225278; 1426881987;
   1925078388; 2162078206; 2614888103; 3248222580;
   3835390401; 4022224774; 264347078; 604807628;
   770255983; 1249150122; 1555081692; 1996064986;
   2554220882; 2821834349; 2952996808; 3210313671;
   3336571891; 3584528711; 113926993; 338241895;
   666307205; 773529912; 1294757372; 1396182291;
   1695183700; 1986661051; 2177026350; 2456956037;
   2730485921; 2820302411; 3259730800; 3345764771;
   3516065817; 3600352804; 4094571909; 275423344;
   430227734; 506948616; 659060556; 883997877;
   958139571; 1322822218; 1537002063; 1747873779;
   1955562222; 2024104815; 2227730452; 2361852424;
   2428436474; 2756734187; 3204031479; 3329325298].

Definition sha256_init : list Z :=
  [0x6a09e667; 0xbb67ae85; 0x3c6ef372; 0xa54ff53a;
   0x510e527f; 0x9b05688c; 0x1f83d9ab; 0x5be0cd19].

(** The big-endian bytes of [x], [n] of them. *)
Fixpoint be_bytes (n : nat) (x : Z) : list Z :=
  match n with
  | O => []
  | S n' => (be_bytes n' (Z.shiftr x 8) ++ [Z.land x 255])%list
  end.

Fixpoint be_word (bs : list Z) (acc : Z) : Z :=
  match bs with
  | [] => acc
  | b :: rest => be_word rest (Z.lor (Z.shiftl acc 8) b)
  end.

(** Padding: the bit 1, zeros up to 56 mod 64, the length in bits. *)
Definition sha256_pad (msg : list Z) : list Z :=
  let len := Z.of_nat (length msg) in
  let zeros := Z.to_nat ((55 - len) mod 64) in
  (msg ++ [128] ++ repeat 0 zeros ++ be_bytes 8 (len * 8))%list.

Fixpoint words_of (n : nat) (bs : list Z) : list Z :=
  match n with
  | O => []
  | S n' => be_word (firstn 4 bs) 0 :: words_of n' (skipn 4 bs)
  end.

(** The message schedule, newest word first: [rev_w] holds W[t-1], W[t-2], ... *)
Fixpoint schedule (n : nat) (rev_w : list Z) : list Z :=
  match n with
  | O => rev_w
  | S n' =>
      let w := add32 (add32 (ssig1 (nth 1 rev_w 0)) (nth 6 rev_w 0))
                     (add32 (ssig0 (nth 14 rev_w 0)) (nth 15 rev_w 0)) in
      schedule n' (w :: rev_w)
  end.

Definition sha256_round (st : list Z) (kw : Z * Z) : list Z :=
  match st with
  | [a; b; c; d; e; f; g; h] =>
      let t1 := add32 (add32 (add32 h (bsig1 e)) (add32 (Ch e f g) (fst kw))) (snd kw) in
      let t2 := add32 (bsig0 a) (Maj a b c) in
      [add32 t1 t2; a; b; c; add32 d t1; e; f; g]
  | _ => st
  end.

Definition sha256_block (st : list Z) (block : list Z) : list Z :=
  let w := rev (schedule 48 (rev (words_of 16 block))) in
  let st' := fold_left sha256_round (combine sha256_K w) st in
  map (fun p => add32 (fst p) (snd p)) (combine st st').

Fixpoint sha256_blocks (n : nat) (st : list Z) (bs : list Z) : list Z :=
  match n with
  | O => st
  | S n' => sha256_blocks n' (sha256_block st (firstn 64 bs)) (skipn 64 bs)
  end.

(** [sha256.Sum256] as a list of 32 bytes *)
Definition sha256 (msg : list Z) : list Z :=
  let padded := sha256_pad msg in
  flat_map (be_bytes 4) (sha256_blocks (length padded / 64) sha256_init padded).

(** *** [crypto/hmac] (RFC 2104) with SHA-256, block size 64 *)
Definition hmac_key (key : list Z) : list Z :=
  let k := if (64 <? Z.of_nat (length key)) then sha256 key else key in
  (k ++ repeat 0 (64 - length k))%list.

Definition hmac_sha256 (key msg : list Z) : list Z :=
  let k := hmac_key key in
  let ipad := map (fun b => Z.lxor b 0x36) k in
  let opad := map (fun b => Z.lxor b 0x5c) k in
  sha256 (opad ++ sha256 (ipad ++ msg)).

(** *** [crypto/subtle] *)

(** [ConstantTimeByteEq(x, y)]: [int((uint32(x^y) - 1) >> 31)] *)
Definition ConstantTimeByteEq (x y : Z) : Z :=
  Z.shiftr (w32 (Z.lxor x y - 1)) 31.

(** [ConstantTimeCompare(x, y)] *)
Definition ConstantTimeCompare (x y : list Z) : Z :=
  if negb (length x =? length y)%nat then 0
  else
    let v := fold_left (fun v xy => Z.lor v (Z.lxor (fst xy) (snd xy))) (combine x y) 0 in
    ConstantTimeByteEq v 0.

(** *** [crypto.go] *)
Import Errors.

Definition SaltSize : nat := 32.

(** [GenerateSalt]; [random] is what [rand.Read] delivers for a buffer of
    [SaltSize] bytes, [None] when the system source fails. *)
Definition GenerateSalt (random : option (list Z)) : result string :=
  match random with
  | None => Err (Errorf "generating random salt" "rand.Read")
  | Some salt => Ok (EncodeToString salt)
  end.

Definition GenerateDeleteToken (pasteID salt : string) : result string :=
  match DecodeString salt with
  | None => Err (Errorf "decoding salt" "illegal base64 data")
  | Some saltBytes =>
      let token := hmac_sha256 saltBytes (bytes_of_string pasteID) in
      Ok (hex_EncodeToString token)
  end.

Definition ValidateDeleteToken (providedToken pasteID salt : string) : bool :=
  match GenerateDeleteToken pasteID salt with
  | Err _ => false
  | Ok expectedToken =>
      ConstantTimeCompare (bytes_of_string providedToken) (bytes_of_string expectedToken) =? 1
  end.


(** [RandomBytes(n)]; [random] is what [rand.Read] puts into the buffer of
    [n] bytes, [None] when the system source fails. *)
Definition RandomBytes (n : nat) (random : option (list Z)) : result (list Z) :=
  match random with
  | None => Err (Errorf "generating random bytes" "rand.Read")
  | Some b => Ok (firstn n (b ++ repeat 0 n))
  end.

(** [RandomHex(n)] *)
Definition RandomHex (n : nat) (random : option (list Z)) : result string :=
  match RandomBytes n random with
  | Err err => Err err
  | Ok b => Ok (hex_EncodeToString b)
  end.

(** *** [id.go], continued *)

(** [GenerateID]: [RandomHex(IDLength / 2)] *)
Definition GenerateID (random : option (list Z)) : result string :=
  RandomHex (IDLength / 2) random.

(** [ValidateIDOrError] *)
Definition ValidateIDOrError (id : string) : option error :=
  if negb (ValidateID id)
  then Some (Errorf "invalid ID format" "must be 16 hexadecimal characters")
  else None.

End Util.

(** ** [encoding/json] documents

    The backends persist Go structs with [json.Marshal] and read them back
    with [json.Unmarshal].  A persisted document is modelled as the JSON
    tree the struct tags describe; its rendering as text is left out.  A
    [json.RawMessage] is embedded verbatim: the handlers produce it with
    [json.Marshal], so it is already compact, valid JSON. *)

Module Json.

#[local] Unset Elimination Schemes.
Inductive json : Type :=
| JBool (b : bool)
| JNumber (n : Z)
| JString (s : string)
| JRawMessage (raw : string)
| JObject (fields : list (string * json)).
#[local] Set Elimination Schemes.

Fixpoint assoc (key : string) (fields : list (string * json)) : option json :=
  match fields with
  | [] => None
  | (k, v) :: rest => if String.eqb k key then Some v else assoc key rest
  end.

(** Encoding of one struct field; with [omitempty] the zero value is
    left out of the object. *)
Definition enc_string (omitempty : bool) (key s : string) : list (string * json) :=
  if omitempty && String.eqb s "" then [] else [(key, JString s)].
Definition enc_int (omitempty : bool) (key : string) (n : Z) : list (string * json) :=
  if omitempty && (n =? 0)%Z then [] else [(key, JNumber n)].
Definition enc_bool (omitempty : bool) (key : string) (b : bool) : list (string * json) :=
  if omitempty && negb b then [] else [(key, JBool b)].
Definition enc_raw (key raw : string) : list (string * json) :=
  if String.eqb raw "" then [] else [(key, JRawMessage raw)].   (* always omitempty here *)

(** Decoding of one struct field: an absent key leaves the zero value, a
    value of the wrong kind is an [UnmarshalTypeError] ([None]). *)
Definition dec_string (key : string) (fields : list (string * json)) : option string :=
  match assoc key fields with
  | None => Some ""
  | Some (JString s) => Some s
  | Some _ => None
  end.
Definition dec_int (key : string) (fields : list (string * json)) : option Z :=
  match assoc key fields with
  | None => Some 0%Z
  | Some (JNumber n) => Some n
  | Some _ => None
  end.
Definition dec_bool (key : string) (fields : list (string * json)) : option bool :=
  match assoc key fields with
  | None => Some false
  | Some (JBool b) => Some b
  | Some _ => None
  end.
Definition dec_raw (key : string) (fields : list (string * json)) : option string :=
  match assoc key fields with
  | None => Some ""
  | Some (JRawMessage raw) => Some raw
  | Some _ => None
  end.
Definition dec_object (key : string) (fields : list (string * json))
  : option (list (string * json)) :=
  match assoc key fields with
  | None => Some []
  | Some (JObject fs) => Some fs
  | Some _ => None
  end.

End Json.

(** ** Package [model]: pastes and comments *)

Module Model.
Import Errors.
Local Open Scope Z_scope.

Definition FormatterPlainText : string := "plaintext".
Definition FormatterSyntaxHighlight : string := "syntaxhighlighting".
Definition FormatterMarkdown : string := "markdown".

Record CommentMeta : Type := {
  cm_PostDate : Z;
  cm_Icon : string;
  cm_Nickname : string
}.

Record Comment : Type := {
  c_ID : string;
  c_PasteID : string;
  c_ParentID : string;
  c_Data : string;
  c_Meta : CommentMeta;
  c_AData : string;          (* json.RawMessage *)
  c_Version : Z;
  c_Vizhash : string
}.

Record PasteMeta : Type := {
  PostDate : Z;
  ExpireDate : Z;            (* 0 = never *)
  Expire : string;
  BurnAfterReading : bool;
  OpenDiscussion : bool;
  Formatter : string;
  Salt : string;             (* tagged "-": never serialised *)
  TimeToLive : Z
}.

Record Paste : Type := {
  ID : string;
  Data : string;
  AttachmentName : string;
  Attachment : string;
  Meta : PasteMeta;
  AData : string;            (* json.RawMessage *)
  Version : Z;
  DeleteToken : string;
  URL : string;
  Comments : list Comment;
  CommentCount : Z;
  CommentOffset : Z
}.

Definition zero_PasteMeta : PasteMeta :=
  {| PostDate := 0; ExpireDate := 0; Expire := ""; BurnAfterReading := false;
     OpenDiscussion := false; Formatter := ""; Salt := ""; TimeToLive := 0 |}.

Definition set_ExpireDate (m : PasteMeta) (e : Z) : PasteMeta :=
  {| PostDate := PostDate m; ExpireDate := e; Expire := Expire m;
     BurnAfterReading := BurnAfterReading m; OpenDiscussion := OpenDiscussion m;
     Formatter := Formatter m; Salt := Salt m; TimeToLive := TimeToLive m |}.

(** [NewPaste] *)
Definition NewPaste (now : Z) : Paste :=
  {| ID := ""; Data := ""; AttachmentName := ""; Attachment := "";
     Meta := {| PostDate := now; ExpireDate := 0; Expire := ""; BurnAfterReading := false;
                OpenDiscussion := false; Formatter := FormatterPlainText; Salt := "";
                TimeToLive := 0 |};
     AData := ""; Version := 2; DeleteToken := ""; URL := ""; Comments := [];
     CommentCount := 0; CommentOffset := 0 |}.

(** [time.Time.Unix()] of an instant given in nanoseconds since the epoch:
    the whole seconds elapsed. *)
Definition Unix (t : Z) : Z := t / 1000000000.

(** [SetExpiration(d)]: [now] is [time.Now()] in nanoseconds since the
    epoch, [d] a [time.Duration], which counts nanoseconds. *)
Definition SetExpiration (now d : Z) (p : Paste) : Paste :=
  {| ID := ID p; Data := Data p; AttachmentName := AttachmentName p;
     Attachment := Attachment p;
     Meta := set_ExpireDate (Meta p) (if d =? 0 then 0 else Unix (now + d));
     AData := AData p; Version := Version p; DeleteToken := DeleteToken p; URL := URL p;
     Comments := Comments p; CommentCount := CommentCount p;
     CommentOffset := CommentOffset p |}.

(** [IsExpired]: pastes with [ExpireDate] 0 never expire. *)
Definition IsExpired (now : Z) (p : Paste) : bool :=
  if ExpireDate (Meta p) =? 0 then false
  else now >? ExpireDate (Meta p).

Definition IsBurnAfterReading (p : Paste) : bool := BurnAfterReading (Meta p).

Definition HasDiscussion (p : Paste) : bool := OpenDiscussion (Meta p).

(** [Validate] *)
Definition Validate (p : Paste) : option error :=
  if String.eqb (Data p) "" then Some ErrPasteTooLarge
  else if negb (String.eqb (Formatter (Meta p)) "")
          && negb (String.eqb (Formatter (Meta p)) FormatterPlainText
                   || String.eqb (Formatter (Meta p)) FormatterSyntaxHighlight
                   || String.eqb (Formatter (Meta p)) FormatterMarkdown)
  then Some ErrInvalidFormatter
  else if BurnAfterReading (Meta p) && OpenDiscussion (Meta p)
  then Some ErrBurnAfterReadingWithDiscussion
  else None.

(** *** JSON form of [PasteMeta], from its struct tags *)
Import Json.

Definition PasteMeta_fields (m : PasteMeta) : list (string * json) :=
  enc_int true "postdate" (PostDate m)
  ++ enc_int true "expire_date" (ExpireDate m)
  ++ enc_string true "expire" (Expire m)
  ++ enc_bool true "burnafterreading" (BurnAfterReading m)
  ++ enc_bool true "opendiscussion" (OpenDiscussion m)
  ++ enc_string true "formatter" (Formatter m)
  ++ enc_int true "time_to_live" (TimeToLive m).

Definition marshal_PasteMeta (m : PasteMeta) : json := JObject (PasteMeta_fields m).

Definition unmarshal_PasteMeta (fields : list (string * json)) : option PasteMeta :=
  postdate ← dec_int "postdate" fields;
  expire_date ← dec_int "expire_date" fields;
  expire ← dec_string "expire" fields;
  burn ← dec_bool "burnafterreading" fields;
  discussion ← dec_bool "opendiscussion" fields;
  formatter ← dec_string "formatter" fields;
  ttl ← dec_int "time_to_live" fields;
  Some {| PostDate := postdate; ExpireDate := expire_date; Expire := expire;
          BurnAfterReading := burn; OpenDiscussion := discussion;
          Formatter := formatter; Salt := ""; TimeToLive := ttl |}.

End Model.

(** ** Finite maps with string keys, listed in key order *)

Module Table.

Definition key_le {A : Type} (a b : string * A) : Prop := String.leb a.1 b.1 = true.

#[global] Instance key_le_dec {A : Type} : RelDecision (@key_le A).
Proof. intros a b. unfold key_le. apply _. Defined.

Definition entries {A : Type} (m : gmap string A) : list (string * A) :=
  merge_sort key_le (map_to_list m).

End Table.

(** ** Package [storage]: the filesystem backend

    The data directory is a finite map from paths to files; directories are
    implicit (a directory exists when [os.MkdirAll] is asked for it, and
    [os.MkdirAll] is the only way the code creates one).  [denied] lists the
    paths on which the operating system refuses to create, write, rename or
    remove (permissions, read-only mount, I/O error): it is what makes the
    error branches of the code reachable.  The read/write mutex is not
    modelled: operations run one at a time. *)

Module Filesystem.
Import Errors GoStrings Json Model Table.
Local Open Scope Z_scope.

Inductive file : Type :=
| JSONFile (doc : json)       (* written by json.Marshal *)
| RawFile (content : string). (* written as plain bytes *)

Record t : Type := {
  baseDir : string;
  files : gmap string file;
  denied : gset string
}.

Definition with_files (f : t) (m : gmap string file) : t :=
  {| baseDir := baseDir f; files := m; denied := denied f |}.

(** *** The [os] calls the backend makes; [Some msg] is a non-nil error *)

Definition ENOENT : string := "no such file or directory".
Definition EACCES : string := "permission denied".

(** [os.Stat(path)]: [true] when [err == nil]; the only error is [ENOENT]. *)
Definition os_Stat (path : string) (f : t) : bool :=
  match files f !! path with Some _ => true | None => false end.

Definition os_MkdirAll (path : string) (f : t) : option string :=
  if decide (path ∈ denied f) then Some EACCES else None.

Definition os_WriteFile (path : string) (data : file) (f : t) : option string * t :=
  if decide (path ∈ denied f) then (Some EACCES, f)
  else (None, with_files f (<[path := data]> (files f))).

Definition os_Rename (oldpath newpath : string) (f : t) : option string * t :=
  if decide (oldpath ∈ denied f) then (Some EACCES, f)
  else if decide (newpath ∈ denied f) then (Some EACCES, f)
  else match files f !! oldpath with
       | None => (Some ENOENT, f)
       | Some data => (None, with_files f (<[newpath := data]> (delete oldpath (files f))))
       end.

Definition os_Remove (path : string) (f : t) : option string * t :=
  if decide (path ∈ denied f) then (Some EACCES, f)
  else match files f !! path with
       | None => (Some ENOENT, f)
       | Some _ => (None, with_files f (delete path (files f)))
       end.

(** Is [path] the directory [dir] itself or something below it? *)
Definition under (dir path : string) : bool :=
  String.eqb path dir || HasPrefix path (dir ++ "/").

(** [os.RemoveAll(path)]: removes [path] and everything below it; a path
    that does not exist is not an error. *)
Definition os_RemoveAll (path : string) (f : t) : option string * t :=
  if decide (path ∈ denied f) then (Some EACCES, f)
  else (None, with_files f (filter (fun kv => negb (under path kv.1) = true) (files f))).

(** [os.ReadFile(path)]; the only error is [ENOENT]. *)
Definition os_ReadFile (path : string) (f : t) : option file := files f !! path.

(** Every file of the tree in lexical order of the paths, the order in
    which [filepath.WalkDir] meets the paste files. *)
Definition all_files (f : t) : list (string * file) := entries (files f).

(** [os.ReadDir(dir)] restricted to regular files: name and content of
    every file directly in [dir], sorted by name; a missing directory
    gives no entries. *)
Definition os_ReadDir (dir : string) (f : t) : list (string * file) :=
  flat_map (fun kv =>
              if HasPrefix kv.1 (dir ++ "/")
              then let name := substring (String.length dir + 1)
                                         (String.length kv.1 - (String.length dir + 1)) kv.1 in
                   if Contains name "/" then [] else [(name, kv.2)]
              else [])
           (all_files f).

(** *** Paths *)

Definition pastePath (f : t) (id : string) : string :=
  if (String.length id <? 4)%nat then Join [baseDir f; id]
  else Join [baseDir f; slice id 0 2; slice id 2 4; id].

Definition discussionDir (f : t) (id : string) : string :=
  pastePath f id ++ ".discussion".

Definition commentPath (f : t) (pasteID parentID commentID : string) : string :=
  let filename := commentID ++ "." ++ parentID ++ ".json" in
  Join [discussionDir f pasteID; filename].

Definition configPath (f : t) (namespace key : string) : string :=
  Join [baseDir f; "_config"; namespace ++ "_" ++ key].

(** *** Pastes *)

Record pasteStorageData : Type := {
  sd_Data : string;
  sd_AttachmentName : string;
  sd_Attachment : string;
  sd_AData : string;
  sd_Version : Z;
  sd_Meta : PasteMeta
}.

Definition marshal_paste (d : pasteStorageData) : json :=
  JObject (enc_string false "data" (sd_Data d)
           ++ enc_string true "attachmentname" (sd_AttachmentName d)
           ++ enc_string true "attachment" (sd_Attachment d)
           ++ enc_raw "adata" (sd_AData d)
           ++ enc_int false "v" (sd_Version d)
           ++ [("meta", marshal_PasteMeta (sd_Meta d))]).

Definition unmarshal_paste (data : file) : option pasteStorageData :=
  match data with
  | JSONFile (JObject fields) =>
      d ← dec_string "data" fields;
      an ← dec_string "attachmentname" fields;
      a ← dec_string "attachment" fields;
      adata ← dec_raw "adata" fields;
      v ← dec_int "v" fields;
      mf ← dec_object "meta" fields;
      meta ← unmarshal_PasteMeta mf;
      Some {| sd_Data := d; sd_AttachmentName := an; sd_Attachment := a;
              sd_AData := adata; sd_Version := v; sd_Meta := meta |}
  | _ => None
  end.

Definition CreatePaste (id : string) (paste : Paste) (f : t) : option error * t :=
  let path := pastePath f id in
  if os_Stat path f then (Some ErrPasteExists, f)
  else
    match os_MkdirAll (Dir path) f with
    | Some e => (Some (Errorf "creating paste directory" e), f)
    | None =>
        let storageData :=
          {| sd_Data := Data paste; sd_AttachmentName := AttachmentName paste;
             sd_Attachment := Attachment paste; sd_AData := AData paste;
             sd_Version := Version paste; sd_Meta := Meta paste |} in
        let data := JSONFile (marshal_paste storageData) in
        let tmpPath := path ++ ".tmp" in
        match os_WriteFile tmpPath data f with
        | (Some e, f1) => (Some (Errorf "writing paste file" e), f1)
        | (None, f1) =>
            match os_Rename tmpPath path f1 with
            | (Some e, f2) => (Some (Errorf "renaming paste file" e), snd (os_Remove tmpPath f2))
            | (None, f2) => (None, f2)
            end
        end
    end.

Definition DeletePaste (id : string) (f : t) : option error * t :=
  let path := pastePath f id in
  let discussionPath := discussionDir f id in
  if negb (os_Stat path f) then (Some ErrPasteNotFound, f)
  else
    match os_RemoveAll discussionPath f with
    | (Some e, f1) => (Some (Errorf "deleting discussion directory" e), f1)
    | (None, f1) =>
        match os_Remove path f1 with
        | (Some e, f2) => (Some (Errorf "deleting paste file" e), f2)
        | (None, f2) => (None, f2)
        end
    end.

Definition ReadPaste (now : Z) (id : string) (f : t) : result Paste * t :=
  let path := pastePath f id in
  match os_ReadFile path f with
  | None => (Err ErrPasteNotFound, f)
  | Some data =>
      match unmarshal_paste data with
      | None => (Err (Errorf "deserializing paste" "invalid JSON"), f)
      | Some storageData =>
          let paste :=
            {| ID := id; Data := sd_Data storageData;
               AttachmentName := sd_AttachmentName storageData;
               Attachment := sd_Attachment storageData;
               Meta := sd_Meta storageData;
               AData := sd_AData storageData; Version := sd_Version storageData;
               DeleteToken := ""; URL := ""; Comments := [];
               CommentCount := 0; CommentOffset := 0 |} in
          if IsExpired now paste
          then (Err ErrPasteExpired, snd (DeletePaste id f))   (* the error of the delete is dropped *)
          else (Ok paste, f)
      end
  end.

Definition PasteExists (id : string) (f : t) : bool := os_Stat (pastePath f id) f.

(** *** Comments *)

Record commentStorageData : Type := {
  csd_Data : string;
  csd_AData : string;
  csd_Version : Z;
  csd_Vizhash : string;
  csd_PostDate : Z
}.

Definition marshal_comment (d : commentStorageData) : json :=
  JObject (enc_string false "data" (csd_Data d)
           ++ enc_raw "adata" (csd_AData d)
           ++ enc_int false "v" (csd_Version d)
           ++ enc_string true "vizhash" (csd_Vizhash d)
           ++ enc_int false "postdate" (csd_PostDate d)).

Definition unmarshal_comment (data : file) : option commentStorageData :=
  match data with
  | JSONFile (JObject fields) =>
      d ← dec_string "data" fields;
      adata ← dec_raw "adata" fields;
      v ← dec_int "v" fields;
      viz ← dec_string "vizhash" fields;
      pd ← dec_int "postdate" fields;
      Some {| csd_Data := d; csd_AData := adata; csd_Version := v;
              csd_Vizhash := viz; csd_PostDate := pd |}
  | _ => None
  end.

Definition CreateComment (pasteID parentID commentID : string) (comment : Comment) (f : t)
  : option error * t :=
  if negb (os_Stat (pastePath f pasteID) f) then (Some ErrPasteNotFound, f)
  else
    let discussionPath := discussionDir f pasteID in
    match os_MkdirAll discussionPath f with
    | Some e => (Some (Errorf "creating discussion directory" e), f)
    | None =>
        let commentPath := commentPath f pasteID parentID commentID in
        if os_Stat commentPath f then (Some ErrCommentExists, f)
        else
          let storageData :=
            {| csd_Data := c_Data comment; csd_AData := c_AData comment;
               csd_Version := c_Version comment; csd_Vizhash := c_Vizhash comment;
               csd_PostDate := cm_PostDate (c_Meta comment) |} in
          let data := JSONFile (marshal_comment storageData) in
          let tmpPath := commentPath ++ ".tmp" in
          match os_WriteFile tmpPath data f with
          | (Some e, f1) => (Some (Errorf "writing comment file" e), f1)
          | (None, f1) =>
              match os_Rename tmpPath commentPath f1 with
              | (Some e, f2) =>
                  (Some (Errorf "renaming comment file" e), snd (os_Remove tmpPath f2))
              | (None, f2) => (None, f2)
              end
          end
    end.

(** Insertion of [c] after the comments that are not newer; [sort.Slice]
    by [PostDate]. *)
Fixpoint insert_by_date (c : Comment) (l : list Comment) : list Comment :=
  match l with
  | [] => [c]
  | c' :: rest =>
      if cm_PostDate (c_Meta c) <? cm_PostDate (c_Meta c') then c :: l
      else c' :: insert_by_date c rest
  end.

Definition sort_by_date (l : list Comment) : list Comment :=
  fold_left (fun acc c => insert_by_date c acc) l [].

Definition ReadComments (pasteID : string) (f : t) : result (list Comment) :=
  let discussionPath := discussionDir f pasteID in
  let entries := os_ReadDir discussionPath f in
  let comments :=
    flat_map (fun entry =>
                if negb (HasSuffix entry.1 ".json") then []
                else
                  match Split (TrimSuffix entry.1 ".json") "." with
                  | [commentID; parentID] =>
                      match unmarshal_comment entry.2 with
                      | None => []                        (* skip invalid files *)
                      | Some storageData =>
                          [ {| c_ID := commentID; c_PasteID := pasteID;
                               c_ParentID := parentID;
                               c_Data := csd_Data storageData;
                               c_Meta := {| cm_PostDate := csd_PostDate storageData;
                                            cm_Icon := ""; cm_Nickname := "" |};
                               c_AData := csd_AData storageData;
                               c_Version := csd_Version storageData;
                               c_Vizhash := csd_Vizhash storageData |} ]
                      end
                  | _ => []
                  end)
             entries in
  Ok (sort_by_date comments).

Definition CommentExists (pasteID parentID commentID : string) (f : t) : bool :=
  os_Stat (commentPath f pasteID parentID commentID) f.

(** *** Key-value store *)

Definition SetValue (namespace key value : string) (f : t) : option error * t :=
  let path := configPath f namespace key in
  let tmpPath := path ++ ".tmp" in
  match os_WriteFile tmpPath (RawFile value) f with
  | (Some e, f1) => (Some (Errorf "writing config file" e), f1)
  | (None, f1) =>
      match os_Rename tmpPath path f1 with
      | (Some e, f2) => (Some (Errorf "renaming config file" e), snd (os_Remove tmpPath f2))
      | (None, f2) => (None, f2)
      end
  end.

(** A config value is read back as the bytes of the file; a JSON file
    there cannot arise from [SetValue]. *)
Definition GetValue (namespace key : string) (f : t) : result string :=
  match os_ReadFile (configPath f namespace key) f with
  | None => Ok ""
  | Some (RawFile value) => Ok value
  | Some (JSONFile _) => Err (Errorf "reading config file" "not a config value")
  end.

(** *** Expiry scan and purge *)

(** The callback of [filepath.WalkDir] over the files still to visit;
    [expired] is the slice collected so far, and returning it without
    visiting the rest is [filepath.SkipAll]. *)
Fixpoint walk (now batchSize : Z) (entries : list (string * file)) (expired : list string)
  : list string :=
  match entries with
  | [] => expired
  | (path, data) :: rest =>
      if Contains path "_config" then walk now batchSize rest expired
      else if Contains path ".discussion" || HasSuffix path ".json"
      then walk now batchSize rest expired
      else
        match unmarshal_paste data with
        | None => walk now batchSize rest expired
        | Some storageData =>
            if (ExpireDate (sd_Meta storageData) >? 0)
               && (ExpireDate (sd_Meta storageData) <? now)
            then
              let id := Base path in
              let expired' := (expired ++ [id])%list in
              if Z.of_nat (length expired') >=? batchSize then expired'
              else walk now batchSize rest expired'
            else walk now batchSize rest expired
        end
  end.

Definition GetExpiredPastes (now batchSize : Z) (f : t) : result (list string) :=
  Ok (walk now batchSize (all_files f) []).

(** The loop of [Purge] over the ids still to delete. *)
Fixpoint purge_loop (ids : list string) (count : Z) (f : t) : (Z * option error) * t :=
  match ids with
  | [] => ((count, None), f)
  | id :: rest =>
      match DeletePaste id f with
      | (None, f') | (Some ErrPasteNotFound, f') => purge_loop rest (count + 1) f'
      | (Some err, f') => ((count, Some err), f')
      end
  end.

Definition Purge (now batchSize : Z) (f : t) : (Z * option error) * t :=
  match GetExpiredPastes now batchSize f with
  | Err err => ((0, Some err), f)
  | Ok ids => purge_loop ids 0 f
  end.


End Filesystem.

(** ** Package [storage]: the relational backend ([database.go])

    A table with a primary key is a finite map from the key to the rest of
    the row.  [health] is the state of the connection to the engine: it is
    what makes the error branches of the code reachable.  The order in
    which a SELECT without ORDER BY returns rows is left open by SQL; the
    model lists rows in key order.  The read/write mutex is not modelled. *)

Module Database.
Import Errors GoStrings Json Model Table.
Local Open Scope Z_scope.

Inductive driver : Type := sqlite3 | postgres | mysql.

Inductive health : Type :=
| Healthy
| ReadOnly     (* the engine rejects INSERT and DELETE *)
| Offline.     (* every statement fails *)

(** [paste (dataid PRIMARY KEY, data, expiredate, meta)] *)
Record paste_row : Type := {
  pr_data : json;
  pr_expiredate : option Z;      (* BIGINT, may be NULL *)
  pr_meta : json
}.

(** [comment (dataid PRIMARY KEY, pasteid, parentid, data, vizhash, postdate)] *)
Record comment_row : Type := {
  cr_pasteid : string;
  cr_parentid : string;
  cr_data : json;
  cr_vizhash : string;
  cr_postdate : Z
}.

Record t : Type := {
  drv : driver;
  paste : gmap string paste_row;
  comment : gmap string comment_row;
  config : gmap string string;
  conn : health
}.

Definition with_paste (d : t) (m : gmap string paste_row) : t :=
  {| drv := drv d; paste := m; comment := comment d; config := config d; conn := conn d |}.
Definition with_comment (d : t) (m : gmap string comment_row) : t :=
  {| drv := drv d; paste := paste d; comment := m; config := config d; conn := conn d |}.
Definition with_config (d : t) (m : gmap string string) : t :=
  {| drv := drv d; paste := paste d; comment := comment d; config := m; conn := conn d |}.

(** *** What the drivers report *)

Definition read_error (d : t) : option string :=
  match conn d with
  | Offline => Some "driver: bad connection"
  | _ => None
  end.

Definition write_error (d : t) : option string :=
  match conn d with
  | Offline => Some "driver: bad connection"
  | ReadOnly => Some "attempt to write a readonly database"
  | Healthy => None
  end.

(** The text of a primary-key violation, per driver. *)
Definition unique_violation (d : t) : string :=
  match drv d with
  | sqlite3 => "UNIQUE constraint failed"
  | postgres => "pq: duplicate key value violates unique constraint"
  | mysql => "Error 1062 (23000): Duplicate entry for key PRIMARY"
  end.

(** [INSERT INTO table (key, ...) VALUES (...)] on a table with primary key *)
Definition sql_insert {A : Type} (d : t) (table : gmap string A) (key : string) (row : A)
  : option string * gmap string A :=
  match write_error d with
  | Some e => (Some e, table)
  | None =>
      match table !! key with
      | Some _ => (Some (unique_violation d), table)
      | None => (None, <[key := row]> table)
      end
  end.

(** *** Pastes *)

Record storageData : Type := {
  sd_Data : string;
  sd_AttachmentName : string;
  sd_Attachment : string;
  sd_AData : string;
  sd_Version : Z
}.

Definition marshal_data (sd : storageData) : json :=
  JObject (enc_string false "data" (sd_Data sd)
           ++ enc_string true "attachmentname" (sd_AttachmentName sd)
           ++ enc_string true "attachment" (sd_Attachment sd)
           ++ enc_raw "adata" (sd_AData sd)
           ++ enc_int false "v" (sd_Version sd)).

Definition unmarshal_data (doc : json) : option storageData :=
  match doc with
  | JObject fields =>
      dt ← dec_string "data" fields;
      an ← dec_string "attachmentname" fields;
      a ← dec_string "attachment" fields;
      adata ← dec_raw "adata" fields;
      v ← dec_int "v" fields;
      Some {| sd_Data := dt; sd_AttachmentName := an; sd_Attachment := a;
              sd_AData := adata; sd_Version := v |}
  | _ => None
  end.

Definition unmarshal_meta (doc : json) : option PasteMeta :=
  match doc with
  | JObject fields => unmarshal_PasteMeta fields
  | _ => None
  end.

Definition is_duplicate (msg : string) : bool :=
  Contains msg "UNIQUE" || Contains msg "duplicate" || Contains msg "Duplicate".

Definition CreatePaste (id : string) (p : Paste) (d : t) : option error * t :=
  let metaJSON := marshal_PasteMeta (Meta p) in
  let dataJSON :=
    marshal_data {| sd_Data := Data p; sd_AttachmentName := AttachmentName p;
                    sd_Attachment := Attachment p; sd_AData := AData p;
                    sd_Version := Version p |} in
  let row := {| pr_data := dataJSON; pr_expiredate := Some (ExpireDate (Meta p));
                pr_meta := metaJSON |} in
  match sql_insert d (paste d) id row with
  | (Some e, _) =>
      if is_duplicate e then (Some ErrPasteExists, d)
      else (Some (Errorf "inserting paste" e), d)
  | (None, table) => (None, with_paste d table)
  end.

Definition DeletePaste (id : string) (d : t) : option error * t :=
  match read_error d with                               (* d.db.Begin() *)
  | Some e => (Some (Errorf "starting transaction" e), d)
  | None =>
      match write_error d with                          (* DELETE FROM comment WHERE pasteid = id *)
      | Some e => (Some (Errorf "deleting comments" e), d)
      | None =>
          let comments := filter (fun kv => cr_pasteid kv.2 ≠ id) (comment d) in
          (* DELETE FROM paste WHERE dataid = id *)
          let rowsAffected := match paste d !! id with Some _ => 1 | None => 0 end in
          let pastes := delete id (paste d) in
          if rowsAffected =? 0 then (Some ErrPasteNotFound, d)      (* deferred Rollback *)
          else (None, with_paste (with_comment d comments) pastes)  (* Commit *)
      end
  end.

Definition ReadPaste (now : Z) (id : string) (d : t) : result Paste * t :=
  match read_error d with
  | Some e => (Err (Errorf "querying paste" e), d)
  | None =>
      match paste d !! id with
      | None => (Err ErrPasteNotFound, d)               (* sql.ErrNoRows *)
      | Some row =>
          match unmarshal_data (pr_data row) with
          | None => (Err (Errorf "deserializing paste data" "invalid JSON"), d)
          | Some sd =>
              match unmarshal_meta (pr_meta row) with
              | None => (Err (Errorf "deserializing paste meta" "invalid JSON"), d)
              | Some meta0 =>
                  let meta := match pr_expiredate row with
                              | Some e => set_ExpireDate meta0 e
                              | None => meta0
                              end in
                  let p :=
                    {| ID := id; Data := sd_Data sd; AttachmentName := sd_AttachmentName sd;
                       Attachment := sd_Attachment sd; Meta := meta; AData := sd_AData sd;
                       Version := sd_Version sd; DeleteToken := ""; URL := "";
                       Comments := []; CommentCount := 0; CommentOffset := 0 |} in
                  if IsExpired now p
                  then (Err ErrPasteExpired, snd (DeletePaste id d))
                  else (Ok p, d)
              end
          end
      end
  end.

Definition pasteExistsUnsafe (id : string) (d : t) : bool :=
  match read_error d with
  | Some _ => false
  | None => match paste d !! id with Some _ => true | None => false end
  end.

Definition PasteExists (id : string) (d : t) : bool := pasteExistsUnsafe id d.

(** *** Comments *)

Record commentData : Type := {
  cd_Data : string;
  cd_AData : string;
  cd_Version : Z
}.

Definition marshal_comment (c : commentData) : json :=
  JObject (enc_string false "data" (cd_Data c)
           ++ enc_raw "adata" (cd_AData c)
           ++ enc_int false "v" (cd_Version c)).

Definition unmarshal_comment (doc : json) : option commentData :=
  match doc with
  | JObject fields =>
      dt ← dec_string "data" fields;
      adata ← dec_raw "adata" fields;
      v ← dec_int "v" fields;
      Some {| cd_Data := dt; cd_AData := adata; cd_Version := v |}
  | _ => None
  end.

Definition CreateComment (pasteID parentID commentID : string) (c : Comment) (d : t)
  : option error * t :=
  if negb (pasteExistsUnsafe pasteID d) then (Some ErrPasteNotFound, d)
  else
    let dataJSON :=
      marshal_comment {| cd_Data := c_Data c; cd_AData := c_AData c;
                         cd_Version := c_Version c |} in
    let row := {| cr_pasteid := pasteID; cr_parentid := parentID; cr_data := dataJSON;
                  cr_vizhash := c_Vizhash c; cr_postdate := cm_PostDate (c_Meta c) |} in
    match sql_insert d (comment d) commentID row with
    | (Some e, _) =>
        if is_duplicate e then (Some ErrCommentExists, d)
        else (Some (Errorf "inserting comment" e), d)
    | (None, table) => (None, with_comment d table)
    end.

(** [ORDER BY postdate ASC] over the rows in key order. *)
Fixpoint insert_by_postdate (r : string * comment_row) (l : list (string * comment_row))
  : list (string * comment_row) :=
  match l with
  | [] => [r]
  | r' :: rest =>
      if cr_postdate r.2 <? cr_postdate r'.2 then r :: l
      else r' :: insert_by_postdate r rest
  end.

Definition order_by_postdate (l : list (string * comment_row)) : list (string * comment_row) :=
  fold_left (fun acc r => insert_by_postdate r acc) l [].

(** The loop over [rows.Next()]; a row that does not decode ends the
    call with an error. *)
Fixpoint scan_comments (pasteID : string) (rows : list (string * comment_row))
  : result (list Comment) :=
  match rows with
  | [] => Ok []
  | (id, row) :: rest =>
      match unmarshal_comment (cr_data row) with
      | None => Err (Errorf "deserializing comment" "invalid JSON")
      | Some data =>
          match scan_comments pasteID rest with
          | Err e => Err e
          | Ok comments =>
              Ok ({| c_ID := id; c_PasteID := pasteID; c_ParentID := cr_parentid row;
                     c_Data := cd_Data data;
                     c_Meta := {| cm_PostDate := cr_postdate row; cm_Icon := "";
                                  cm_Nickname := "" |};
                     c_AData := cd_AData data; c_Version := cd_Version data;
                     c_Vizhash := cr_vizhash row |} :: comments)
          end
      end
  end.

Definition ReadComments (pasteID : string) (d : t) : result (list Comment) :=
  match read_error d with
  | Some e => Err (Errorf "querying comments" e)
  | None =>
      scan_comments pasteID
        (order_by_postdate
           (List.filter (fun kv => String.eqb (cr_pasteid kv.2) pasteID) (entries (comment d))))
  end.

(** The parent id takes no part in the query. *)
Definition CommentExists (pasteID parentID commentID : string) (d : t) : bool :=
  match read_error d with
  | Some _ => false
  | None =>
      match comment d !! commentID with
      | Some row => String.eqb (cr_pasteid row) pasteID
      | None => false
      end
  end.

(** *** Key-value store: table [config (id PRIMARY KEY, value)] *)

Definition SetValue (namespace key value : string) (d : t) : option error * t :=
  let id := namespace ++ "_" ++ key in
  match write_error d with                        (* the upsert of the driver *)
  | Some e => (Some (Errorf "setting value" e), d)
  | None => (None, with_config d (<[id := value]> (config d)))
  end.

Definition GetValue (namespace key : string) (d : t) : result string :=
  let id := namespace ++ "_" ++ key in
  match read_error d with
  | Some e => Err (Errorf "getting value" e)
  | None =>
      match config d !! id with
      | None => Ok ""
      | Some value => Ok value
      end
  end.

(** *** Expiry scan and purge *)

(** [LIMIT n]: SQLite reads a negative limit as no limit, PostgreSQL and
    MySQL reject it. *)
Definition sql_limit {A : Type} (d : t) (n : Z) (rows : list A) : string + list A :=
  if n <? 0 then
    match drv d with
    | sqlite3 => inr rows
    | postgres => inl "pq: LIMIT must not be negative"
    | mysql => inl "Error 1064 (42000): You have an error in your SQL syntax"
    end
  else inr (firstn (Z.to_nat n) rows).

Definition row_expired (now : Z) (row : paste_row) : bool :=
  match pr_expiredate row with
  | Some e => (e >? 0) && (e <? now)
  | None => false
  end.

Definition GetExpiredPastes (now batchSize : Z) (d : t) : result (list string) :=
  match read_error d with
  | Some e => Err (Errorf "querying expired pastes" e)
  | None =>
      match sql_limit d batchSize
              (List.filter (fun kv => row_expired now kv.2) (entries (paste d))) with
      | inl e => Err (Errorf "querying expired pastes" e)
      | inr rows => Ok (map fst rows)
      end
  end.

Fixpoint purge_loop (ids : list string) (count : Z) (d : t) : (Z * option error) * t :=
  match ids with
  | [] => ((count, None), d)
  | id :: rest =>
      match DeletePaste id d with
      | (None, d') | (Some ErrPasteNotFound, d') => purge_loop rest (count + 1) d'
      | (Some err, d') => ((count, Some err), d')
      end
  end.

Definition Purge (now batchSize : Z) (d : t) : (Z * option error) * t :=
  match GetExpiredPastes now batchSize d with
  | Err err => ((0, Some err), d)
  | Ok ids => purge_loop ids 0 d
  end.

End Database.

(** ** Package [storage]: the [Storage] interface ([storage.go]) *)

Module Storage.
Import Errors Model.

Class Storage (S : Type) : Type := {
  CreatePaste : string -> Paste -> S -> option error * S;
  ReadPaste : Z -> string -> S -> result Paste * S;
  DeletePaste : string -> S -> option error * S;
  PasteExists : string -> S -> bool;
  CreateComment : string -> string -> string -> Comment -> S -> option error * S;
  ReadComments : string -> S -> result (list Comment);
  CommentExists : string -> string -> string -> S -> bool;
  SetValue : string -> string -> string -> S -> option error * S;
  GetValue : string -> string -> S -> result string;
  GetExpiredPastes : Z -> Z -> S -> result (list string);
  Purge : Z -> Z -> S -> (Z * option error) * S
}.

#[global] Instance filesystem_storage : Storage Filesystem.t := {
  CreatePaste := Filesystem.CreatePaste;
  ReadPaste := Filesystem.ReadPaste;
  DeletePaste := Filesystem.DeletePaste;
  PasteExists := Filesystem.PasteExists;
  CreateComment := Filesystem.CreateComment;
  ReadComments := Filesystem.ReadComments;
  CommentExists := Filesystem.CommentExists;
  SetValue := Filesystem.SetValue;
  GetValue := Filesystem.GetValue;
  GetExpiredPastes := Filesystem.GetExpiredPastes;
  Purge := Filesystem.Purge
}.

#[global] Instance database_storage : Storage Database.t := {
  CreatePaste := Database.CreatePaste;
  ReadPaste := Database.ReadPaste;
  DeletePaste := Database.DeletePaste;
  PasteExists := Database.PasteExists;
  CreateComment := Database.CreateComment;
  ReadComments := Database.ReadComments;
  CommentExists := Database.CommentExists;
  SetValue := Database.SetValue;
  GetValue := Database.GetValue;
  GetExpiredPastes := Database.GetExpiredPastes;
  Purge := Database.Purge
}.

Definition NamespaceSalt : string := "salt".
Definition NamespaceTraffic : string := "traffic".
Definition NamespacePurge : string := "purge".

End Storage.

(** ** Package [handler]: salt bootstrap, paste retrieval and deletion

    A handler owns a store and the server salt.  [getPaste] starts a
    goroutine for a burn-after-reading paste, which sleeps and then deletes
    the paste: [background] lists the paste ids of the goroutines that were
    started and have not run their delete yet, and [run_background] is one
    of them running. *)

Module Handler.
Import Errors Model Util Storage.
Local Open Scope Z_scope.

Section WithStore.
Context {S : Type} `{Storage S}.

Record Handler : Type := {
  store : S;
  salt : string;
  basePath : string;            (* config.Main.BasePath *)
  background : list string
}.

Definition with_store (h : Handler) (st : S) : Handler :=
  {| store := st; salt := salt h; basePath := basePath h; background := background h |}.
Definition with_salt (h : Handler) (slt : string) : Handler :=
  {| store := store h; salt := slt; basePath := basePath h; background := background h |}.
Definition with_background (h : Handler) (bg : list string) : Handler :=
  {| store := store h; salt := salt h; basePath := basePath h; background := bg |}.

Definition fallback_salt : string := "flashpaper-fallback-salt-change-me".

(** [initSalt]; [random] is what the system source gives [GenerateSalt]. *)
Definition initSalt (random : option (list Z)) (h : Handler) : Handler :=
  let stored := GetValue NamespaceSalt "server" (store h) in
  match stored with
  | Ok (String c s') => with_salt h (String c s')          (* err == nil && salt != "" *)
  | _ =>
      let slt := match GenerateSalt random with
                 | Ok slt => slt
                 | Err _ => fallback_salt
                 end in
      let st := snd (SetValue NamespaceSalt "server" slt (store h)) in
      with_salt (with_store h st) slt
  end.

(** The JSON object [getPaste] answers with; [attachment] and
    [attachmentname] are present when not empty, [comments] and
    [comment_count] when there is a comment. *)
Record paste_response : Type := {
  r_id : string;
  r_url : string;
  r_ct : string;
  r_adata : string;
  r_v : Z;
  r_postdate : Z;
  r_opendiscussion : bool;
  r_attachment : option string;
  r_attachmentname : option string;
  r_comments : list Comment
}.

Inductive response : Type :=
| jsonError (message : string) (status : Z)
| jsonSuccess (data : paste_response)
| jsonDeleted (id : string).

Definition non_empty (s : string) : option string :=
  if String.eqb s "" then None else Some s.

Definition getPaste (now : Z) (pasteID : string) (h : Handler) : response * Handler :=
  if negb (ValidateID pasteID) then (jsonError "Invalid paste ID" 400, h)
  else
    match ReadPaste now pasteID (store h) with
    | (Err err, st) =>
        (match err with
         | ErrPasteNotFound => jsonError "Paste not found" 404
         | ErrPasteExpired => jsonError "Paste has expired" 404
         | _ => jsonError "Failed to read paste" 500
         end, with_store h st)
    | (Ok paste, st) =>
        let shouldDelete := IsBurnAfterReading paste in
        let comments :=
          if HasDiscussion paste
          then match ReadComments pasteID st with Ok cs => cs | Err _ => [] end
          else [] in
        let resp :=
          {| r_id := pasteID;
             r_url := basePath h ++ "/?" ++ pasteID;
             r_ct := Data paste;
             r_adata := AData paste;
             r_v := Version paste;
             r_postdate := PostDate (Meta paste);
             r_opendiscussion := OpenDiscussion (Meta paste);
             r_attachment := non_empty (Attachment paste);
             r_attachmentname := non_empty (AttachmentName paste);
             r_comments := comments |} in
        (* h.jsonSuccess(w, response), then the goroutine is started *)
        (jsonSuccess resp,
         with_background (with_store h st)
           (if shouldDelete then (background h ++ [pasteID])%list else background h))
    end.

Fixpoint remove_one (x : string) (l : list string) : list string :=
  match l with
  | [] => []
  | y :: rest => if String.eqb x y then rest else y :: remove_one x rest
  end.

(** The goroutine started for [pasteID] wakes up and calls
    [h.store.DeletePaste(pasteID)]; its error is dropped. *)
Definition run_background (pasteID : string) (h : Handler) : Handler :=
  if existsb (String.eqb pasteID) (background h)
  then with_background (with_store h (snd (DeletePaste pasteID (store h))))
         (remove_one pasteID (background h))
  else h.

(** [indexOf(s, c)]: the index of the first occurrence of [c] in [s], or -1. *)
Fixpoint indexOf_from (s : string) (c : ascii) (i : Z) : Z :=
  match s with
  | EmptyString => -1
  | String x rest => if Ascii.eqb x c then i else indexOf_from rest c (i + 1)
  end.

Definition indexOf (s : string) (c : ascii) : Z := indexOf_from s c 0.

(** The paste id [handleGet] takes from the raw query: everything before
    the first ampersand. *)
Definition query_pasteID (rawQuery : string) : string :=
  let idx := indexOf rawQuery "&" in
  if negb (idx =? -1) then substring 0 (Z.to_nat idx) rawQuery else rawQuery.

(** [deletePaste]; the arguments are the entries [pasteid] and
    [deletetoken] of the request, [None] when absent or not a string. *)
Definition deletePaste (pasteid deletetoken : option string) (h : Handler)
  : response * Handler :=
  match pasteid with
  | None | Some EmptyString => (jsonError "No paste ID provided" 400, h)
  | Some pasteID =>
      if negb (ValidateID pasteID) then (jsonError "Invalid paste ID" 400, h)
      else
        match deletetoken with
        | None | Some EmptyString => (jsonError "No delete token provided" 400, h)
        | Some deleteToken =>
            if negb (ValidateDeleteToken deleteToken pasteID (salt h))
            then (jsonError "Invalid delete token" 403, h)
            else
              match DeletePaste pasteID (store h) with
              | (Some ErrPasteNotFound, st) =>
                  (jsonError "Paste not found" 404, with_store h st)
              | (Some _, st) => (jsonError "Failed to delete paste" 500, with_store h st)
              | (None, st) => (jsonDeleted pasteID, with_store h st)
              end
        end
  end.

End WithStore.

Arguments Handler S : clear implicits.

End Handler.

(** * Vocabulary of the properties *)

(** ** Identifiers *)

(** The characters the design allows in an identifier. *)
Definition id_chars : list ascii := list_ascii_of_string "abcdef0123456789".

(** The format of the design: exactly 16 characters from [a-f0-9]. *)
Definition well_formed_id (s : string) : Prop :=
  String.length s = 16%nat /\ Forall (fun c => In c id_chars) (list_ascii_of_string s).

Definition id_class : list (ascii * ascii) := [("a", "f"); ("0", "9")]%char.

(** Reading [n] characters of the class from the front of [s]. *)
Fixpoint consume (n : nat) (s : string) : option string :=
  match n with
  | O => Some s
  | S n' =>
      match s with
      | String c rest =>
          if existsb (Regexp.in_range c) id_class then consume n' rest else None
      | EmptyString => None
      end
  end.

(** ** Delete tokens *)

Definition is_byte (b : Z) : Prop := (0 <= b < 256)%Z.

(** The bytes 0, 1, ..., n-1: the secret of the examples. *)
Definition seq_bytes (n : nat) : list Z := map Z.of_nat (seq 0 n).

(** The accumulator of [ConstantTimeCompare]. *)
Definition xor_fold (v : Z) (l : list (Z * Z)) : Z :=
  fold_left (fun v xy => Z.lor v (Z.lxor (fst xy) (snd xy))) l v.

(** ** Stored pastes *)

(** What is persisted of a [PasteMeta]: every field but the salt. *)
Definition persisted_meta (m : Model.PasteMeta) : Model.PasteMeta :=
  {| Model.PostDate := Model.PostDate m; Model.ExpireDate := Model.ExpireDate m;
     Model.Expire := Model.Expire m; Model.BurnAfterReading := Model.BurnAfterReading m;
     Model.OpenDiscussion := Model.OpenDiscussion m; Model.Formatter := Model.Formatter m;
     Model.Salt := ""; Model.TimeToLive := Model.TimeToLive m |}.

(** The paste a backend hands out for [p] stored under [id]. *)
Definition stored_paste (id : string) (p : Model.Paste) : Model.Paste :=
  {| Model.ID := id; Model.Data := Model.Data p;
     Model.AttachmentName := Model.AttachmentName p; Model.Attachment := Model.Attachment p;
     Model.Meta := persisted_meta (Model.Meta p); Model.AData := Model.AData p;
     Model.Version := Model.Version p; Model.DeleteToken := ""; Model.URL := "";
     Model.Comments := []; Model.CommentCount := 0; Model.CommentOffset := 0 |}.

(** The paste the filesystem backend builds from a decoded paste file. *)
Definition fs_paste_of (id : string) (sd : Filesystem.pasteStorageData) : Model.Paste :=
  {| Model.ID := id; Model.Data := Filesystem.sd_Data sd;
     Model.AttachmentName := Filesystem.sd_AttachmentName sd;
     Model.Attachment := Filesystem.sd_Attachment sd;
     Model.Meta := Filesystem.sd_Meta sd;
     Model.AData := Filesystem.sd_AData sd; Model.Version := Filesystem.sd_Version sd;
     Model.DeleteToken := ""; Model.URL := ""; Model.Comments := [];
     Model.CommentCount := 0; Model.CommentOffset := 0 |}.

(** The paste stored under [id] on the filesystem, whatever its expiry. *)
Definition fs_lookup (f : Filesystem.t) (id : string) : option Model.Paste :=
  match Filesystem.files f !! Filesystem.pastePath f id with
  | Some data =>
      match Filesystem.unmarshal_paste data with
      | Some sd => Some (fs_paste_of id sd)
      | None => None
      end
  | None => None
  end.

(** The paste the relational backend builds from a decoded row. *)
Definition db_paste_of (id : string) (row : Database.paste_row)
  (sd : Database.storageData) (meta0 : Model.PasteMeta) : Model.Paste :=
  {| Model.ID := id; Model.Data := Database.sd_Data sd;
     Model.AttachmentName := Database.sd_AttachmentName sd;
     Model.Attachment := Database.sd_Attachment sd;
     Model.Meta := match Database.pr_expiredate row with
                   | Some e => Model.set_ExpireDate meta0 e
                   | None => meta0
                   end;
     Model.AData := Database.sd_AData sd; Model.Version := Database.sd_Version sd;
     Model.DeleteToken := ""; Model.URL := ""; Model.Comments := [];
     Model.CommentCount := 0; Model.CommentOffset := 0 |}.

(** The paste stored under [id] in the database, whatever its expiry. *)
Definition db_lookup (d : Database.t) (id : string) : option Model.Paste :=
  match Database.paste d !! id with
  | Some row =>
      match Database.unmarshal_data (Database.pr_data row),
            Database.unmarshal_meta (Database.pr_meta row) with
      | Some sd, Some meta0 => Some (db_paste_of id row sd meta0)
      | _, _ => None
      end
  | None => None
  end.

(** A backend without faults: the operating system denies no path, the
    database connection is healthy. *)
Definition fs_healthy (f : Filesystem.t) : Prop := Filesystem.denied f = ∅.
Definition db_healthy (d : Database.t) : Prop := Database.conn d = Database.Healthy.

(** A paste is expired at [now] as the design words it: a nonzero
    expiration timestamp that is not after [now]. *)
Definition expired_by_design (now : Z) (p : Model.Paste) : Prop :=
  (Model.ExpireDate (Model.Meta p) <> 0 /\ Model.ExpireDate (Model.Meta p) <= now)%Z.


(** ** Example stores *)

Definition example_paste (data : string) (expire : Z) (burn discussion : bool) : Model.Paste :=
  {| Model.ID := ""; Model.Data := data; Model.AttachmentName := "";
     Model.Attachment := "";
     Model.Meta := {| Model.PostDate := 10; Model.ExpireDate := expire; Model.Expire := "";
                      Model.BurnAfterReading := burn; Model.OpenDiscussion := discussion;
                      Model.Formatter := Model.FormatterPlainText; Model.Salt := "";
                      Model.TimeToLive := 0 |};
     Model.AData := "[[],0,0]"; Model.Version := 2; Model.DeleteToken := "";
     Model.URL := ""; Model.Comments := []; Model.CommentCount := 0;
     Model.CommentOffset := 0 |}.

Definition example_comment (data : string) (postdate : Z) : Model.Comment :=
  {| Model.c_ID := ""; Model.c_PasteID := ""; Model.c_ParentID := ""; Model.c_Data := data;
     Model.c_Meta := {| Model.cm_PostDate := postdate; Model.cm_Icon := "";
                        Model.cm_Nickname := "" |};
     Model.c_AData := ""; Model.c_Version := 2; Model.c_Vizhash := "" |}.

Definition id_a : string := "aaaaaaaaaaaaaaaa".
Definition id_b : string := "bbbbbbbbbbbbbbbb".
Definition id_c : string := "cccccccccccccccc".
Definition id_d : string := "dddddddddddddddd".

Definition fs_empty : Filesystem.t :=
  {| Filesystem.baseDir := "data"; Filesystem.files := ∅; Filesystem.denied := ∅ |}.

Definition db_empty : Database.t :=
  {| Database.drv := Database.sqlite3; Database.paste := ∅; Database.comment := ∅;
     Database.config := ∅; Database.conn := Database.Healthy |}.

(** The empty stores after one paste was created. *)
Definition fs_one (id : string) (p : Model.Paste) : Filesystem.t :=
  snd (Filesystem.CreatePaste id p fs_empty).
Definition db_one (id : string) (p : Model.Paste) : Database.t :=
  snd (Database.CreatePaste id p db_empty).

(** The stores with paste [id_a] (discussion open) and two comments on it. *)
Definition fs_discussed : Filesystem.t :=
  snd (Filesystem.CreateComment id_a id_c id_d (example_comment "reply" 30)
         (snd (Filesystem.CreateComment id_a id_a id_c (example_comment "first" 20)
                 (fs_one id_a (example_paste "ct1" 0 false true))))).
Definition db_discussed : Database.t :=
  snd (Database.CreateComment id_a id_c id_d (example_comment "reply" 30)
         (snd (Database.CreateComment id_a id_a id_c (example_comment "first" 20)
                 (db_one id_a (example_paste "ct1" 0 false true))))).

(** The stores with paste [id_a] and [id_b] and one comment [id_c] on
    [id_a], child of the paste. *)
Definition fs_commented : Filesystem.t :=
  snd (Filesystem.CreateComment id_a id_a id_c (example_comment "first" 20)
         (snd (Filesystem.CreatePaste id_b (example_paste "ct2" 0 false true)
                 (fs_one id_a (example_paste "ct1" 0 false true))))).
Definition db_commented : Database.t :=
  snd (Database.CreateComment id_a id_a id_c (example_comment "first" 20)
         (snd (Database.CreatePaste id_b (example_paste "ct2" 0 false true)
                 (db_one id_a (example_paste "ct1" 0 false true))))).

(** ** Handlers *)

(** The response carries the whole content of paste [p] stored under [id]. *)
Definition serves (resp : Handler.response) (id : string) (p : Model.Paste) : Prop :=
  exists r,
    resp = Handler.jsonSuccess r
    /\ Handler.r_id r = id
    /\ Handler.r_ct r = Model.Data p
    /\ Handler.r_adata r = Model.AData p
    /\ Handler.r_v r = Model.Version p
    /\ Handler.r_postdate r = Model.PostDate (Model.Meta p)
    /\ Handler.r_opendiscussion r = Model.OpenDiscussion (Model.Meta p)
    /\ Handler.r_attachment r = Handler.non_empty (Model.Attachment p)
    /\ Handler.r_attachmentname r = Handler.non_empty (Model.AttachmentName p).

(** A handler over a store, with no goroutine pending. *)
Definition handler_of {S : Type} (st : S) : Handler.Handler S :=
  {| Handler.store := st; Handler.salt := "AQ=="; Handler.basePath := "";
     Handler.background := [] |}.

(** ** Vocabulary of the further properties *)

(** The formatter tags [Validate] accepts; the empty tag is not checked. *)
Definition known_formatter (s : string) : Prop :=
  s = "" \/ s = "plaintext" \/ s = "syntaxhighlighting" \/ s = "markdown".

(** Comments in ascending order of their post date. *)
Definition by_post_date (a b : Model.Comment) : Prop :=
  (Model.cm_PostDate (Model.c_Meta a) <= Model.cm_PostDate (Model.c_Meta b))%Z.

(** Rows in ascending order of the [postdate] column. *)
Definition by_postdate_column (a b : string * Database.comment_row) : Prop :=
  (Database.cr_postdate a.2 <= Database.cr_postdate b.2)%Z.


(** The layout the backend itself produces on disk: every file is a
    config file, lies in a discussion directory or ends in [.json], or is
    the paste file of the well-formed id it is named after. *)
Definition fs_canonical (f : Filesystem.t) : bool :=
  forallb (fun kv =>
             GoStrings.Contains kv.1 "_config"
             || GoStrings.Contains kv.1 ".discussion"
             || GoStrings.HasSuffix kv.1 ".json"
             || (Util.ValidateID (GoStrings.Base kv.1)
                 && String.eqb kv.1 (Filesystem.pastePath f (GoStrings.Base kv.1))))
          (Filesystem.all_files f).

(** A paste that the expiry scan of the filesystem backend passes over. *)
Definition scan_live (now : Z) (p : Model.Paste) : Prop :=
  ((Model.ExpireDate (Model.Meta p) >? 0)%Z
   && (Model.ExpireDate (Model.Meta p) <? now)%Z) = false.

(** The stores with three pastes: [id_a] and [id_b] expired at time 100,
    [id_c] not. *)
Definition fs_three : Filesystem.t :=
  snd (Filesystem.CreatePaste id_c (example_paste "ct3" 500 false false)
         (snd (Filesystem.CreatePaste id_b (example_paste "ct2" 60 false false)
                 (fs_one id_a (example_paste "ct1" 50 false false))))).
Definition db_three : Database.t :=
  snd (Database.CreatePaste id_c (example_paste "ct3" 500 false false)
         (snd (Database.CreatePaste id_b (example_paste "ct2" 60 false false)
                 (db_one id_a (example_paste "ct1" 50 false false))))).

(** * Properties *)

(** ** Identifiers *)

Section ValidateID.
Import GoStrings Regexp Util.

Lemma id_class_chars (c : ascii) :
  existsb (in_range c) id_class = existsb (Ascii.eqb c) id_chars.
Proof.
  destruct c as [[] [] [] [] [] [] [] []]; vm_compute; reflexivity.
Qed.

Lemma id_class_spec (c : ascii) :
  existsb (in_range c) id_class = true <-> In c id_chars.
Proof.
  rewrite id_class_chars, existsb_exists. split.
  - intros [x [Hin Heq]]. apply Ascii.eqb_eq in Heq. now subst.
  - intros Hin. exists c. split; [assumption | apply Ascii.eqb_refl].
Qed.

Lemma iter_match_class (n : nat) (b : bool) (s : string) :
  iter_match (run (CharClass id_class)) n (b, s) =
  match consume n s with
  | Some rest => [(match n with O => b | _ => false end, rest)]
  | None => []
  end.
Proof.
  revert b s. induction n as [|n IH]; intros b s; [reflexivity|].
  cbn [iter_match consume run snd]. destruct s as [|c rest]; [reflexivity|].
  destruct (existsb (in_range c) id_class); [|reflexivity].
  cbn [flat_map]. rewrite IH, app_nil_r.
  destruct (consume n rest); [|reflexivity]. now destruct n.
Qed.

Lemma consume_all (n : nat) (s : string) :
  consume n s = Some "" <->
  String.length s = n /\ Forall (fun c => In c id_chars) (list_ascii_of_string s).
Proof.
  revert s. induction n as [|n IH]; intros s; cbn [consume].
  - split.
    + intros [= ->]. split; [reflexivity | constructor].
    + intros [Hlen _]. destruct s; [reflexivity | discriminate].
  - destruct s as [|c rest]; cbn [String.length list_ascii_of_string].
    + split; [discriminate | intros [? _]; discriminate].
    + destruct (existsb (in_range c) id_class) eqn:Hc.
      * rewrite IH. apply id_class_spec in Hc. split.
        -- intros [Hlen Hall]. split; [now f_equal | now constructor].
        -- intros [Hlen Hall]. inversion Hall; subst. split; [congruence | assumption].
      * split; [discriminate|]. intros [_ Hall]. inversion Hall as [|? ? Hin]; subst.
        apply id_class_spec in Hin. congruence.
Qed.

Lemma no_match_after_start (s : string) :
  existsb (fun p => match run idPattern p with [] => false | _ => true end)
          (starts false s) = false.
Proof.
  induction s as [|c s IH]; cbn [starts existsb]; [reflexivity|].
  rewrite orb_false_iff. split; [reflexivity|]. exact IH.
Qed.

Lemma ValidateID_consume (s : string) :
  ValidateID s = true <-> consume 16 s = Some "".
Proof.
  unfold ValidateID, MatchString.
  assert (Hhead : (match run idPattern (true, s) with [] => false | _ => true end) = true
                  <-> consume 16 s = Some "").
  { unfold idPattern. cbn [run fst flat_map]. rewrite app_nil_r.
    fold id_class. rewrite iter_match_class.
    destruct (consume 16 s) as [rest|]; cbn [flat_map run snd].
    - destruct rest; cbn; split; intros; congruence.
    - split; discriminate. }
  destruct s as [|c s']; cbn [starts existsb].
  - rewrite orb_false_r. exact Hhead.
  - rewrite no_match_after_start, orb_false_r. exact Hhead.
Qed.

End ValidateID.

(** C7. [ValidateID s] is true exactly when [s] consists of 16 characters,
    each of them one of [a-f0-9]; on every other string it is false. *)
Theorem C7_ValidateID_iff (s : string) :
  Util.ValidateID s = true <-> well_formed_id s.
Proof.
  rewrite ValidateID_consume. apply consume_all.
Qed.

(** ** Delete tokens *)

Section Tokens.
Import GoStrings Errors Util.
Local Open Scope Z_scope.

Lemma lor_is_byte (a b : Z) : is_byte a -> is_byte b -> is_byte (Z.lor a b).
Proof.
  unfold is_byte. intros [Ha0 Ha] [Hb0 Hb]. split; [now apply Z.lor_nonneg|].
  destruct (Z.eq_dec (Z.lor a b) 0) as [->|Hne]; [lia|].
  assert (0 < Z.lor a b) by (pose proof (proj2 (Z.lor_nonneg a b) (conj Ha0 Hb0)); lia).
  change 256 with (2 ^ 8). apply Z.log2_lt_pow2; [assumption|].
  rewrite Z.log2_lor by assumption.
  assert (Z.log2 a < 8).
  { destruct (Z.eq_dec a 0) as [->|]; [reflexivity|]. apply Z.log2_lt_pow2; lia. }
  assert (Z.log2 b < 8).
  { destruct (Z.eq_dec b 0) as [->|]; [reflexivity|]. apply Z.log2_lt_pow2; lia. }
  lia.
Qed.

Lemma lxor_is_byte (a b : Z) : is_byte a -> is_byte b -> is_byte (Z.lxor a b).
Proof.
  unfold is_byte. intros [Ha0 Ha] [Hb0 Hb]. split; [now apply Z.lxor_nonneg|].
  destruct (Z.eq_dec (Z.lxor a b) 0) as [->|Hne]; [lia|].
  assert (0 <= Z.lxor a b) by now apply Z.lxor_nonneg.
  change 256 with (2 ^ 8). apply Z.log2_lt_pow2; [lia|].
  pose proof (Z.log2_lxor a b Ha0 Hb0).
  assert (Z.log2 a < 8).
  { destruct (Z.eq_dec a 0) as [->|]; [reflexivity|]. apply Z.log2_lt_pow2; lia. }
  assert (Z.log2 b < 8).
  { destruct (Z.eq_dec b 0) as [->|]; [reflexivity|]. apply Z.log2_lt_pow2; lia. }
  lia.
Qed.

Lemma ConstantTimeByteEq_zero (v : Z) :
  is_byte v -> (ConstantTimeByteEq v 0 = 1 <-> v = 0).
Proof.
  unfold is_byte, ConstantTimeByteEq, w32. intros Hv. rewrite Z.lxor_0_r.
  rewrite Z.shiftr_div_pow2 by lia.
  destruct (Z.eq_dec v 0) as [->|Hne].
  - split; [reflexivity|]. intros _. reflexivity.
  - split; [|lia]. intros H. exfalso.
    rewrite Z.mod_small in H by lia.
    rewrite Z.div_small in H by lia. discriminate.
Qed.

Lemma xor_fold_is_byte (l : list (Z * Z)) (v : Z) :
  is_byte v -> Forall (fun xy => is_byte (fst xy) /\ is_byte (snd xy)) l ->
  is_byte (xor_fold v l).
Proof.
  revert v. induction l as [|[x y] l IH]; intros v Hv Hl; [exact Hv|].
  inversion Hl as [|? ? [Hx Hy] Hl']; subst. cbn in Hx, Hy.
  unfold xor_fold. cbn [fold_left fst snd]. apply IH; [|assumption].
  apply lor_is_byte; [assumption | now apply lxor_is_byte].
Qed.

Lemma xor_fold_zero (l : list (Z * Z)) (v : Z) :
  xor_fold v l = 0 <-> v = 0 /\ Forall (fun xy => fst xy = snd xy) l.
Proof.
  revert v. induction l as [|[x y] l IH]; intros v.
  - cbn. split; [intros ->; split; [reflexivity | constructor] | intros [-> _]; reflexivity].
  - unfold xor_fold in *. cbn [fold_left fst snd]. rewrite IH, Z.lor_eq_0_iff, Z.lxor_eq_0_iff.
    split.
    + intros [[-> ->] Hl]. split; [reflexivity | now constructor].
    + intros [-> Hl]. inversion Hl; subst. cbn in *. now subst.
Qed.

Lemma combine_eq_Forall (x y : list Z) :
  length x = length y -> Forall (fun xy => fst xy = snd xy) (combine x y) -> x = y.
Proof.
  revert y. induction x as [|a x IH]; intros [|b y] Hlen Hall; try discriminate; [reflexivity|].
  cbn in *. inversion Hall; subst. cbn in *. f_equal; [assumption|]. apply IH; [lia | assumption].
Qed.

Lemma Forall_combine_refl (x : list Z) : Forall (fun xy => fst xy = snd xy) (combine x x).
Proof. induction x; cbn; constructor; auto. Qed.

Lemma Forall_combine_bytes (x y : list Z) :
  Forall is_byte x -> Forall is_byte y ->
  Forall (fun xy => is_byte (fst xy) /\ is_byte (snd xy)) (combine x y).
Proof.
  intros Hx. revert y. induction Hx as [|a x Ha Hx IH]; intros y Hy; [constructor|].
  destruct Hy as [|b y Hb Hy]; cbn; constructor; auto.
Qed.

(** [ConstantTimeCompare] answers 1 exactly on equal byte slices. *)
Lemma ConstantTimeCompare_eq (x y : list Z) :
  Forall is_byte x -> Forall is_byte y ->
  (ConstantTimeCompare x y = 1 <-> x = y).
Proof.
  intros Hx Hy. unfold ConstantTimeCompare.
  destruct (length x =? length y)%nat eqn:Hlen; cbn [negb].
  - apply Nat.eqb_eq in Hlen. fold (xor_fold 0 (combine x y)).
    rewrite ConstantTimeByteEq_zero.
    + rewrite xor_fold_zero. split.
      * intros [_ Hall]. now apply combine_eq_Forall.
      * intros ->. split; [reflexivity | apply Forall_combine_refl].
    + apply xor_fold_is_byte; [unfold is_byte; lia | now apply Forall_combine_bytes].
  - apply Nat.eqb_neq in Hlen. split; [discriminate | intros ->; congruence].
Qed.

Lemma bytes_of_string_is_byte (s : string) : Forall is_byte (bytes_of_string s).
Proof.
  unfold bytes_of_string. apply Forall_map, Forall_forall. intros c _.
  unfold is_byte. pose proof (N_ascii_bounded c). lia.
Qed.

Lemma bytes_of_string_inj (s1 s2 : string) :
  bytes_of_string s1 = bytes_of_string s2 -> s1 = s2.
Proof.
  unfold bytes_of_string. intros H.
  rewrite <- (string_of_list_ascii_of_string s1), <- (string_of_list_ascii_of_string s2).
  f_equal. revert H. generalize (list_ascii_of_string s1) (list_ascii_of_string s2).
  induction l as [|a l IH]; intros [|b l'] H; try discriminate; [reflexivity|].
  cbn in H. injection H as Hab Hl. f_equal; [|now apply IH].
  apply N2Z.inj in Hab.
  rewrite <- (ascii_N_embedding a), <- (ascii_N_embedding b). now f_equal.
Qed.

(** Validation is the comparison with the recomputed token. *)
Lemma ValidateDeleteToken_spec (providedToken pasteID salt : string) :
  ValidateDeleteToken providedToken pasteID salt = true <->
  GenerateDeleteToken pasteID salt = Ok providedToken.
Proof.
  unfold ValidateDeleteToken. destruct (GenerateDeleteToken pasteID salt) as [expected|e].
  - rewrite Z.eqb_eq, ConstantTimeCompare_eq by apply bytes_of_string_is_byte. split.
    + intros H. apply bytes_of_string_inj in H. now subst.
    + intros [= ->]. reflexivity.
  - split; discriminate.
Qed.

End Tokens.




(** ** The fallback salt *)

Lemma fallback_salt_invalid : Util.DecodeString Handler.fallback_salt = None.
Proof. reflexivity. Qed.

(** When nothing is stored and the random source fails, [initSalt] installs
    the fallback salt. *)
Lemma initSalt_fallback {S : Type} `{Storage.Storage S} (h : Handler.Handler S) :
  (forall c s, Storage.GetValue Storage.NamespaceSalt "server" (Handler.store h)
               <> Errors.Ok (String c s)) ->
  Handler.salt (Handler.initSalt None h) = Handler.fallback_salt.
Proof.
  intros Hnone. unfold Handler.initSalt.
  destruct (Storage.GetValue Storage.NamespaceSalt "server" (Handler.store h)) as [[|c s]|e];
    try reflexivity.
  exfalso. now apply (Hnone c s).
Qed.

(** C9. For a salt that is not valid standard base64, [GenerateDeleteToken]
    returns an error and [ValidateDeleteToken] is false for every token and
    paste id, and the delete handler never deletes; the fallback salt that
    [initSalt] installs when salt generation fails is such a salt. *)
Theorem C9_invalid_salt_no_token (salt : string)
  (Hinvalid : Util.DecodeString salt = None) :
  (forall pasteID, exists e, Util.GenerateDeleteToken pasteID salt = Errors.Err e)
  /\ (forall token pasteID, Util.ValidateDeleteToken token pasteID salt = false)
  /\ (forall (S : Type) (St : Storage.Storage S) (h : Handler.Handler S) pasteid deletetoken,
         Handler.salt h = salt ->
         exists message status,
           Handler.deletePaste pasteid deletetoken h = (Handler.jsonError message status, h))
  /\ Util.DecodeString Handler.fallback_salt = None
  /\ (forall (S : Type) (St : Storage.Storage S) (h : Handler.Handler S),
         (forall c s, Storage.GetValue Storage.NamespaceSalt "server" (Handler.store h)
                      <> Errors.Ok (String c s)) ->
         Handler.salt (Handler.initSalt None h) = Handler.fallback_salt).
Proof.
  assert (Hval : forall token pasteID, Util.ValidateDeleteToken token pasteID salt = false).
  { intros token pasteID. unfold Util.ValidateDeleteToken, Util.GenerateDeleteToken.
    now rewrite Hinvalid. }
  split.
  { intros pasteID. unfold Util.GenerateDeleteToken. rewrite Hinvalid. eauto. }
  split; [exact Hval|]. split.
  { intros S St h pasteid deletetoken Hsalt. unfold Handler.deletePaste.
    destruct pasteid as [[|c pid]|]; [eauto | | eauto].
    destruct (Util.ValidateID (String c pid)); cbn [negb]; [|eauto].
    destruct deletetoken as [[|c' tok]|]; [eauto | | eauto].
    rewrite Hsalt, Hval. cbn [negb]. eauto. }
  split; [exact fallback_salt_invalid|].
  intros S St h. apply initSalt_fallback.
Qed.

Lemma C9_invalid_salt_no_token_witness :
  Util.DecodeString "flashpaper-fallback-salt-change-me" = None
  /\ (forall pasteID, exists e,
         Util.GenerateDeleteToken pasteID "flashpaper-fallback-salt-change-me" = Errors.Err e)
  /\ (forall token pasteID,
         Util.ValidateDeleteToken token pasteID "flashpaper-fallback-salt-change-me" = false).
Proof.
  split; [reflexivity|].
  pose proof (C9_invalid_salt_no_token "flashpaper-fallback-salt-change-me" eq_refl) as H.
  split; [exact (proj1 H) | exact (proj1 (proj2 H))].
Defined.

(** ** JSON round trips *)

Section JsonRoundTrip.
Import Json Model.
Local Open Scope Z_scope.







End JsonRoundTrip.

(** ** Strings and paths *)

Section Paths.
Import GoStrings.
#[local] Arguments append !s1 s2 : simpl nomatch.

Lemma append_length (s t : string) :
  String.length (s ++ t) = (String.length s + String.length t)%nat.
Proof. induction s as [|c s IH]; cbn; [reflexivity | now rewrite IH]. Qed.

Lemma append_neq (s t : string) : t <> "" -> s ++ t <> s.
Proof.
  intros Ht H. apply (f_equal String.length) in H. rewrite append_length in H.
  destruct t; [congruence | cbn in H; lia].
Qed.

Lemma prefix_length (p s : string) :
  String.prefix p s = true -> (String.length p <= String.length s)%nat.
Proof.
  revert s. induction p as [|c p IH]; intros s H; cbn; [lia|].
  destruct s as [|c' s]; cbn in H; [discriminate|].
  destruct (Ascii.ascii_dec c c'); [|discriminate]. apply IH in H. cbn. lia.
Qed.

Lemma prefix_append (p t : string) : String.prefix p (p ++ t) = true.
Proof.
  induction p as [|c p IH]; cbn; [now destruct t|].
  destruct (Ascii.ascii_dec c c); [exact IH | congruence].
Qed.

Lemma eqb_append_false (s t : string) : t <> "" -> String.eqb s (s ++ t) = false.
Proof.
  intros Ht. apply String.eqb_neq. intros H. symmetry in H. now apply append_neq in H.
Qed.

End Paths.

(** ** The filesystem backend *)

Section FilesystemFacts.
Import Errors GoStrings Json Model Filesystem.
#[local] Arguments append !s1 s2 : simpl nomatch.

Lemma os_MkdirAll_healthy (f : t) (path : string) :
  fs_healthy f -> os_MkdirAll path f = None.
Proof.
  intros Hh. unfold os_MkdirAll. destruct (decide (path ∈ denied f)) as [Hin|]; [|reflexivity].
  rewrite Hh in Hin. set_solver.
Qed.

Lemma os_WriteFile_healthy (f : t) (path : string) (data : file) :
  fs_healthy f -> os_WriteFile path data f = (None, with_files f (<[path := data]> (files f))).
Proof.
  intros Hh. unfold os_WriteFile. destruct (decide (path ∈ denied f)) as [Hin|]; [|reflexivity].
  rewrite Hh in Hin. set_solver.
Qed.

Lemma os_Rename_healthy (f : t) (old new : string) (data : file) :
  fs_healthy f -> files f !! old = Some data ->
  os_Rename old new f = (None, with_files f (<[new := data]> (delete old (files f)))).
Proof.
  intros Hh Hold. unfold os_Rename.
  destruct (decide (old ∈ denied f)) as [Hin|]; [rewrite Hh in Hin; set_solver|].
  destruct (decide (new ∈ denied f)) as [Hin|]; [rewrite Hh in Hin; set_solver|].
  now rewrite Hold.
Qed.

Lemma os_Remove_healthy (f : t) (path : string) (data : file) :
  fs_healthy f -> files f !! path = Some data ->
  os_Remove path f = (None, with_files f (delete path (files f))).
Proof.
  intros Hh Hp. unfold os_Remove.
  destruct (decide (path ∈ denied f)) as [Hin|]; [rewrite Hh in Hin; set_solver|].
  now rewrite Hp.
Qed.

Lemma os_RemoveAll_healthy (f : t) (path : string) :
  fs_healthy f ->
  os_RemoveAll path f =
  (None, with_files f (filter (fun kv => negb (under path kv.1) = true) (files f))).
Proof.
  intros Hh. unfold os_RemoveAll.
  destruct (decide (path ∈ denied f)) as [Hin|]; [rewrite Hh in Hin; set_solver|]. reflexivity.
Qed.

Lemma with_files_healthy (f : t) (m : gmap string file) :
  fs_healthy f -> fs_healthy (with_files f m).
Proof. exact id. Qed.

Lemma PasteExists_lookup (f : t) (id : string) :
  PasteExists id f = true <-> is_Some (files f !! pastePath f id).
Proof.
  unfold PasteExists, os_Stat. destruct (files f !! pastePath f id); split; intros H;
    try reflexivity; try discriminate; eauto. now destruct H.
Qed.

Lemma PasteExists_false (f : t) (id : string) :
  PasteExists id f = false <-> files f !! pastePath f id = None.
Proof.
  unfold PasteExists, os_Stat. destruct (files f !! pastePath f id); split; congruence.
Qed.

(** A paste path is neither its discussion directory nor below it. *)
Lemma paste_not_under_discussion (path : string) :
  under (path ++ ".discussion") path = false.
Proof.
  unfold under, HasPrefix. apply orb_false_iff. split.
  - apply eqb_append_false. discriminate.
  - destruct (String.prefix ((path ++ ".discussion") ++ "/") path) eqn:Hp; [|reflexivity].
    apply prefix_length in Hp. rewrite !append_length in Hp. cbn in Hp. lia.
Qed.



(** Reading: the stored paste when it has not expired, [Expired] and the
    state after [DeletePaste] when it has, [NotFound] when there is none. *)
Lemma fs_ReadPaste_lookup (now : Z) (f : t) (id : string) (p : Paste) :
  fs_lookup f id = Some p ->
  ReadPaste now id f =
  if IsExpired now p then (Err ErrPasteExpired, snd (DeletePaste id f)) else (Ok p, f).
Proof.
  unfold fs_lookup, ReadPaste, os_ReadFile. intros H.
  destruct (files f !! pastePath f id) as [data|]; [|discriminate].
  destruct (unmarshal_paste data) as [sd|]; [|discriminate].
  injection H as <-. reflexivity.
Qed.

Lemma fs_ReadPaste_absent (now : Z) (f : t) (id : string) :
  PasteExists id f = false -> ReadPaste now id f = (Err ErrPasteNotFound, f).
Proof.
  intros H. apply PasteExists_false in H. unfold ReadPaste, os_ReadFile. now rewrite H.
Qed.

Lemma fs_lookup_exists (f : t) (id : string) (p : Paste) :
  fs_lookup f id = Some p -> PasteExists id f = true.
Proof.
  unfold fs_lookup. intros H. apply PasteExists_lookup.
  destruct (files f !! pastePath f id); [eauto | discriminate].
Qed.

(** The state after a successful [DeletePaste]. *)
Lemma fs_DeletePaste_present (f : t) (id : string) :
  fs_healthy f -> PasteExists id f = true ->
  DeletePaste id f =
  (None, with_files f
           (delete (pastePath f id)
              (filter (fun kv => negb (under (discussionDir f id) kv.1) = true) (files f)))).
Proof.
  intros Hh Hex. unfold DeletePaste. unfold PasteExists in Hex. rewrite Hex. cbn [negb].
  rewrite (os_RemoveAll_healthy f _ Hh).
  unfold os_Stat in Hex. destruct (files f !! pastePath f id) as [data|] eqn:Hl; [|discriminate].
  erewrite os_Remove_healthy; [reflexivity | exact Hh |].
  cbn [files with_files]. apply map_lookup_filter_Some. split; [exact Hl|].
  cbn [fst]. unfold discussionDir. now rewrite paste_not_under_discussion.
Qed.

Lemma fs_DeletePaste_absent (f : t) (id : string) :
  PasteExists id f = false -> DeletePaste id f = (Some ErrPasteNotFound, f).
Proof.
  intros Hex. unfold DeletePaste. unfold PasteExists in Hex. now rewrite Hex.
Qed.

Lemma fs_gone_after_delete (f : t) (id : string) :
  fs_healthy f -> PasteExists id f = true ->
  PasteExists id (snd (DeletePaste id f)) = false.
Proof.
  intros Hh Hex. rewrite (fs_DeletePaste_present f id Hh Hex). cbn [snd].
  apply PasteExists_false. cbn [files with_files].
  change (pastePath (with_files f _) id) with (pastePath f id). apply lookup_delete_eq.
Qed.

End FilesystemFacts.

(** ** The relational backend *)

Section DatabaseFacts.
Import Errors GoStrings Json Model Database.

Lemma db_healthy_read (d : t) : db_healthy d -> read_error d = None.
Proof. unfold db_healthy, read_error. now intros ->. Qed.

Lemma db_healthy_write (d : t) : db_healthy d -> write_error d = None.
Proof. unfold db_healthy, write_error. now intros ->. Qed.

(** Every driver words a primary-key violation so that the code sees it. *)
Lemma unique_violation_is_duplicate (d : t) : is_duplicate (unique_violation d) = true.
Proof. unfold unique_violation. destruct (drv d); vm_compute; reflexivity. Qed.

Lemma db_PasteExists_lookup (d : t) (id : string) :
  db_healthy d -> (PasteExists id d = true <-> is_Some (paste d !! id)).
Proof.
  intros Hh. unfold PasteExists, pasteExistsUnsafe. rewrite (db_healthy_read d Hh).
  destruct (paste d !! id); split; intros H; try reflexivity; try discriminate; eauto.
  now destruct H.
Qed.

Lemma db_PasteExists_false (d : t) (id : string) :
  db_healthy d -> (PasteExists id d = false <-> paste d !! id = None).
Proof.
  intros Hh. unfold PasteExists, pasteExistsUnsafe. rewrite (db_healthy_read d Hh).
  destruct (paste d !! id); split; congruence.
Qed.


Lemma db_CreatePaste_existing (d : t) (id : string) (p : Paste) :
  db_healthy d -> is_Some (paste d !! id) ->
  CreatePaste id p d = (Some ErrPasteExists, d).
Proof.
  intros Hh [row Hrow]. unfold CreatePaste, sql_insert.
  now rewrite (db_healthy_write d Hh), Hrow, unique_violation_is_duplicate.
Qed.

Lemma set_ExpireDate_persisted (m : PasteMeta) :
  set_ExpireDate (persisted_meta m) (ExpireDate m) = persisted_meta m.
Proof. reflexivity. Qed.


Lemma db_ReadPaste_lookup (now : Z) (d : t) (id : string) (p : Paste) :
  db_healthy d -> db_lookup d id = Some p ->
  ReadPaste now id d =
  if IsExpired now p then (Err ErrPasteExpired, snd (DeletePaste id d)) else (Ok p, d).
Proof.
  intros Hh. unfold db_lookup, ReadPaste. rewrite (db_healthy_read d Hh). intros H.
  destruct (paste d !! id) as [row|]; [|discriminate].
  destruct (unmarshal_data (pr_data row)) as [sd|]; [|discriminate].
  destruct (unmarshal_meta (pr_meta row)) as [meta0|]; [|discriminate].
  injection H as <-. reflexivity.
Qed.

Lemma db_ReadPaste_absent (now : Z) (d : t) (id : string) :
  db_healthy d -> paste d !! id = None -> ReadPaste now id d = (Err ErrPasteNotFound, d).
Proof.
  intros Hh H. unfold ReadPaste. now rewrite (db_healthy_read d Hh), H.
Qed.

Lemma db_lookup_exists (d : t) (id : string) (p : Paste) :
  db_lookup d id = Some p -> is_Some (paste d !! id).
Proof.
  unfold db_lookup. intros H. destruct (paste d !! id); [eauto | discriminate].
Qed.

Lemma db_DeletePaste_present (d : t) (id : string) :
  db_healthy d -> is_Some (paste d !! id) ->
  DeletePaste id d =
  (None, with_paste (with_comment d (filter (fun kv => cr_pasteid kv.2 <> id) (comment d)))
           (delete id (paste d))).
Proof.
  intros Hh [row Hrow]. unfold DeletePaste.
  now rewrite (db_healthy_read d Hh), (db_healthy_write d Hh), Hrow.
Qed.

Lemma db_DeletePaste_absent (d : t) (id : string) :
  db_healthy d -> paste d !! id = None -> DeletePaste id d = (Some ErrPasteNotFound, d).
Proof.
  intros Hh H. unfold DeletePaste.
  now rewrite (db_healthy_read d Hh), (db_healthy_write d Hh), H.
Qed.

End DatabaseFacts.

(** ** Expiry on read *)

Section StoreClaims.
Import Errors Model.
Local Open Scope Z_scope.

Lemma IsExpired_true (now : Z) (p : Paste) :
  IsExpired now p = true <-> ExpireDate (Meta p) <> 0 /\ ExpireDate (Meta p) < now.
Proof.
  unfold IsExpired. destruct (Z.eqb_spec (ExpireDate (Meta p)) 0) as [->|Hne].
  - split; [discriminate | intros [H _]; congruence].
  - rewrite Z.gtb_ltb, Z.ltb_lt. tauto.
Qed.

End StoreClaims.

(** C1 (as amended). On both backends, reading a stored paste whose
    expiration timestamp is nonzero and strictly before [now] returns
    [ErrPasteExpired] and deletes the record: [PasteExists] is then false
    and a second read returns [ErrPasteNotFound]. *)
Theorem C1_expired_read_deletes (now : Z) (id : string)
  (f : Filesystem.t) (pf : Model.Paste) (d : Database.t) (pd : Model.Paste)
  (Hf : fs_healthy f) (Hd : db_healthy d)
  (Hpf : fs_lookup f id = Some pf) (Hpd : db_lookup d id = Some pd)
  (Hef : (Model.ExpireDate (Model.Meta pf) <> 0 /\ Model.ExpireDate (Model.Meta pf) < now)%Z)
  (Hed : (Model.ExpireDate (Model.Meta pd) <> 0 /\ Model.ExpireDate (Model.Meta pd) < now)%Z) :
  (let f' := snd (Filesystem.ReadPaste now id f) in
   fst (Filesystem.ReadPaste now id f) = Errors.Err Errors.ErrPasteExpired
   /\ Filesystem.PasteExists id f' = false
   /\ Filesystem.ReadPaste now id f' = (Errors.Err Errors.ErrPasteNotFound, f'))
  /\
  (let d' := snd (Database.ReadPaste now id d) in
   fst (Database.ReadPaste now id d) = Errors.Err Errors.ErrPasteExpired
   /\ Database.PasteExists id d' = false
   /\ Database.ReadPaste now id d' = (Errors.Err Errors.ErrPasteNotFound, d')).
Proof.
  apply IsExpired_true in Hef, Hed. split.
  - rewrite (fs_ReadPaste_lookup now f id pf Hpf), Hef. cbn [fst snd].
    pose proof (fs_gone_after_delete f id Hf (fs_lookup_exists f id pf Hpf)) as Hgone.
    split; [reflexivity|]. split; [exact Hgone|]. now apply fs_ReadPaste_absent.
  - rewrite (db_ReadPaste_lookup now d id pd Hd Hpd), Hed. cbn [fst snd].
    rewrite (db_DeletePaste_present d id Hd (db_lookup_exists d id pd Hpd)). cbn [snd].
    assert (Hh' : db_healthy (Database.with_paste
                    (Database.with_comment d
                       (filter (fun kv => Database.cr_pasteid kv.2 <> id) (Database.comment d)))
                    (delete id (Database.paste d)))) by exact Hd.
    assert (Hnone : Database.paste
                      (Database.with_paste
                         (Database.with_comment d
                            (filter (fun kv => Database.cr_pasteid kv.2 <> id)
                                    (Database.comment d)))
                         (delete id (Database.paste d))) !! id = None)
      by apply lookup_delete_eq.
    split; [reflexivity|]. split.
    + now apply db_PasteExists_false.
    + now apply db_ReadPaste_absent.
Qed.

Lemma C1_expired_read_deletes_witness :
  (fst (Filesystem.ReadPaste 101 id_a (fs_one id_a (example_paste "ct1" 100 false false)))
   = Errors.Err Errors.ErrPasteExpired
   /\ Filesystem.PasteExists id_a
        (snd (Filesystem.ReadPaste 101 id_a (fs_one id_a (example_paste "ct1" 100 false false))))
      = false)
  /\
  (fst (Database.ReadPaste 101 id_a (db_one id_a (example_paste "ct1" 100 false false)))
   = Errors.Err Errors.ErrPasteExpired
   /\ Database.PasteExists id_a
        (snd (Database.ReadPaste 101 id_a (db_one id_a (example_paste "ct1" 100 false false))))
      = false).
Proof.
  assert (Hf : fs_healthy (fs_one id_a (example_paste "ct1" 100 false false)))
    by (vm_compute; reflexivity).
  assert (Hd : db_healthy (db_one id_a (example_paste "ct1" 100 false false)))
    by (vm_compute; reflexivity).
  assert (Hpf : fs_lookup (fs_one id_a (example_paste "ct1" 100 false false)) id_a
                = Some (stored_paste id_a (example_paste "ct1" 100 false false)))
    by (vm_compute; reflexivity).
  assert (Hpd : db_lookup (db_one id_a (example_paste "ct1" 100 false false)) id_a
                = Some (stored_paste id_a (example_paste "ct1" 100 false false)))
    by (vm_compute; reflexivity).
  assert (He : (Model.ExpireDate (Model.Meta (stored_paste id_a (example_paste "ct1" 100 false false))) <> 0
                /\ Model.ExpireDate (Model.Meta (stored_paste id_a (example_paste "ct1" 100 false false))) < 101)%Z)
    by (split; [vm_compute; discriminate | vm_compute; reflexivity]).
  destruct (C1_expired_read_deletes 101 id_a _ _ _ _ Hf Hd Hpf Hpd He He)
    as [[H1 [H2 _]] [H3 [H4 _]]].
  split; split; assumption.
Defined.

(** C1 fails as stated: a paste whose expiration timestamp equals [now] is
    nonzero and not after [now], yet it is served and stays in the store. *)
Lemma C1_counterexample :
  let p := stored_paste id_a (example_paste "ct1" 100 false false) in
  let f := fs_one id_a (example_paste "ct1" 100 false false) in
  let d := db_one id_a (example_paste "ct1" 100 false false) in
  fs_lookup f id_a = Some p /\ db_lookup d id_a = Some p
  /\ expired_by_design 100 p
  /\ Filesystem.ReadPaste 100 id_a f = (Errors.Ok p, f)
  /\ Filesystem.PasteExists id_a f = true
  /\ Database.ReadPaste 100 id_a d = (Errors.Ok p, d)
  /\ Database.PasteExists id_a d = true.
Proof.
  cbv zeta. split; [vm_compute; reflexivity|]. split; [vm_compute; reflexivity|].
  split; [unfold expired_by_design; cbn; split; [discriminate | lia]|].
  repeat split; vm_compute; reflexivity.
Qed.

(** ** Create, then read *)






(** ** Creating twice *)

(** C4. On both backends, [CreatePaste] with an id that already names a
    stored paste fails with [ErrPasteExists] and leaves the store unchanged:
    nothing of the second paste is persisted. *)
Theorem C4_second_create_fails (id : string) (p : Model.Paste)
  (f : Filesystem.t) (d : Database.t)
  (Hd : db_healthy d)
  (Hf_exists : Filesystem.PasteExists id f = true)
  (Hd_exists : Database.PasteExists id d = true) :
  Filesystem.CreatePaste id p f = (Some Errors.ErrPasteExists, f)
  /\ Database.CreatePaste id p d = (Some Errors.ErrPasteExists, d).
Proof.
  split.
  - unfold Filesystem.CreatePaste. unfold Filesystem.PasteExists in Hf_exists.
    now rewrite Hf_exists.
  - apply db_CreatePaste_existing; [exact Hd|]. now apply db_PasteExists_lookup.
Qed.

Lemma C4_second_create_fails_witness :
  Filesystem.CreatePaste id_a (example_paste "ct2" 0 false false)
    (fs_one id_a (example_paste "ct1" 0 false false))
  = (Some Errors.ErrPasteExists, fs_one id_a (example_paste "ct1" 0 false false))
  /\ Database.CreatePaste id_a (example_paste "ct2" 0 false false)
       (db_one id_a (example_paste "ct1" 0 false false))
     = (Some Errors.ErrPasteExists, db_one id_a (example_paste "ct1" 0 false false)).
Proof.
  apply (C4_second_create_fails id_a (example_paste "ct2" 0 false false)
           (fs_one id_a (example_paste "ct1" 0 false false))
           (db_one id_a (example_paste "ct1" 0 false false)));
    vm_compute; reflexivity.
Defined.

(** ** Deleting a paste and its comments *)

Section DeleteFacts.
Import Errors GoStrings Model Table.
#[local] Arguments append !s1 s2 : simpl nomatch.

Lemma elem_of_entries {A : Type} (m : gmap string A) (k : string) (v : A) :
  (k, v) ∈ entries m <-> m !! k = Some v.
Proof.
  unfold entries. rewrite merge_sort_Permutation. apply elem_of_map_to_list.
Qed.

Lemma flat_map_all_nil {A B : Type} (g : A -> list B) (l : list A) :
  (forall x, x ∈ l -> g x = []) -> flat_map g l = [].
Proof.
  induction l as [|x l IH]; intros H; [reflexivity|]. cbn.
  rewrite (H x) by apply list_elem_of_here. apply IH. intros y Hy. apply H.
  now apply list_elem_of_further.
Qed.

Lemma filter_all_false {A : Type} (g : A -> bool) (l : list A) :
  (forall x, x ∈ l -> g x = false) -> List.filter g l = [].
Proof.
  induction l as [|x l IH]; intros H; [reflexivity|]. cbn.
  rewrite (H x) by apply list_elem_of_here. apply IH. intros y Hy. apply H.
  now apply list_elem_of_further.
Qed.

Lemma append_eqb_empty (s t : string) : t <> "" -> String.eqb (s ++ t) "" = false.
Proof.
  intros Ht. apply String.eqb_neq. intros H. apply (f_equal String.length) in H.
  rewrite append_length in H. destruct t; [congruence | cbn in H; lia].
Qed.

Lemma Join_two (a b : string) :
  a <> "" -> b <> "" -> Join [a; b] = a ++ "/" ++ b.
Proof.
  intros Ha Hb. cbn [Join].
  destruct (String.eqb_spec a ""); [contradiction|].
  destruct (String.eqb_spec b ""); [contradiction|]. cbn.
  destruct (String.eqb_spec b ""); [contradiction|]. reflexivity.
Qed.

Lemma append_nonempty (s t : string) : t <> "" -> s ++ t <> "".
Proof.
  intros Ht H. apply (f_equal String.length) in H. rewrite append_length in H.
  destruct t; [congruence | cbn in H; lia].
Qed.

Lemma append_assoc (a b c : string) : (a ++ b) ++ c = a ++ (b ++ c).
Proof. induction a as [|x a IH]; cbn; [reflexivity | now rewrite IH]. Qed.

(** A comment file lies below the discussion directory of its paste. *)
Lemma commentPath_under (f : Filesystem.t) (pasteID parentID commentID : string) :
  Filesystem.under (Filesystem.discussionDir f pasteID)
    (Filesystem.commentPath f pasteID parentID commentID) = true.
Proof.
  unfold Filesystem.commentPath, Filesystem.under, HasPrefix.
  rewrite Join_two.
  - rewrite <- append_assoc, prefix_append. apply orb_true_r.
  - unfold Filesystem.discussionDir. apply append_nonempty. discriminate.
  - rewrite <- !append_assoc. apply append_nonempty. discriminate.
Qed.

Lemma fs_comments_gone_after_delete (f : Filesystem.t) (id : string) :
  fs_healthy f -> Filesystem.PasteExists id f = true ->
  let f' := snd (Filesystem.DeletePaste id f) in
  (forall parentID commentID, Filesystem.CommentExists id parentID commentID f' = false)
  /\ Filesystem.ReadComments id f' = Ok [].
Proof.
  intros Hh Hex. rewrite (fs_DeletePaste_present f id Hh Hex). cbn [snd].
  set (m := delete (Filesystem.pastePath f id)
              (filter (fun kv => negb (Filesystem.under (Filesystem.discussionDir f id) kv.1) = true)
                      (Filesystem.files f))).
  assert (Hm : forall k v, m !! k = Some v ->
                           Filesystem.under (Filesystem.discussionDir f id) k = false).
  { intros k v Hkv. unfold m in Hkv. apply lookup_delete_Some in Hkv as [_ Hkv].
    apply map_lookup_filter_Some in Hkv as [_ Hkv]. cbn in Hkv.
    now apply negb_true_iff in Hkv. }
  split.
  - intros parentID commentID. unfold Filesystem.CommentExists, Filesystem.os_Stat.
    cbn [Filesystem.files Filesystem.with_files].
    change (Filesystem.commentPath (Filesystem.with_files f m) id parentID commentID)
      with (Filesystem.commentPath f id parentID commentID).
    destruct (m !! Filesystem.commentPath f id parentID commentID) as [v|] eqn:Hl; [|reflexivity].
    apply Hm in Hl. rewrite commentPath_under in Hl. discriminate.
  - unfold Filesystem.ReadComments.
    change (Filesystem.discussionDir (Filesystem.with_files f m) id)
      with (Filesystem.discussionDir f id).
    assert (Hdir : Filesystem.os_ReadDir (Filesystem.discussionDir f id)
                     (Filesystem.with_files f m) = []).
    { unfold Filesystem.os_ReadDir, Filesystem.all_files.
      cbn [Filesystem.files Filesystem.with_files].
      apply flat_map_all_nil. intros [k v] Hin. apply elem_of_entries in Hin.
      apply Hm in Hin. unfold Filesystem.under in Hin. apply orb_false_iff in Hin as [_ Hin].
      cbn [fst]. now rewrite Hin. }
    rewrite Hdir. reflexivity.
Qed.

Lemma db_comments_gone_after_delete (d : Database.t) (id : string) :
  db_healthy d -> is_Some (Database.paste d !! id) ->
  let d' := snd (Database.DeletePaste id d) in
  (forall parentID commentID, Database.CommentExists id parentID commentID d' = false)
  /\ Database.ReadComments id d' = Ok [].
Proof.
  intros Hh Hex. rewrite (db_DeletePaste_present d id Hh Hex). cbn [snd].
  set (m := filter (fun kv => Database.cr_pasteid kv.2 <> id) (Database.comment d)).
  assert (Hm : forall k row, m !! k = Some row -> Database.cr_pasteid row <> id).
  { intros k row Hk. unfold m in Hk. now apply map_lookup_filter_Some in Hk as [_ Hk]. }
  assert (Hread : Database.read_error
                    (Database.with_paste (Database.with_comment d m)
                       (delete id (Database.paste d))) = None)
    by (apply db_healthy_read; exact Hh).
  split.
  - intros parentID commentID. unfold Database.CommentExists. rewrite Hread.
    cbn [Database.comment Database.with_paste Database.with_comment].
    destruct (m !! commentID) as [row|] eqn:Hl; [|reflexivity].
    apply Hm in Hl. now apply String.eqb_neq.
  - unfold Database.ReadComments. rewrite Hread.
    cbn [Database.comment Database.with_paste Database.with_comment].
    rewrite filter_all_false; [reflexivity|].
    intros [k row] Hin. apply elem_of_entries in Hin. apply Hm in Hin.
    cbn [snd]. now apply String.eqb_neq.
Qed.

End DeleteFacts.

(** C5. On both backends, [DeletePaste] of a stored paste succeeds and
    removes the paste and all its comments, and [ReadComments] for that id
    then returns the empty list without an error; [DeletePaste] of an id
    that names no paste fails with [ErrPasteNotFound] and changes nothing. *)
Theorem C5_delete_cascades (id : string) (f : Filesystem.t) (d : Database.t)
  (Hf : fs_healthy f) (Hd : db_healthy d) :
  (Filesystem.PasteExists id f = true ->
   let f' := snd (Filesystem.DeletePaste id f) in
   fst (Filesystem.DeletePaste id f) = None
   /\ Filesystem.PasteExists id f' = false
   /\ (forall parentID commentID, Filesystem.CommentExists id parentID commentID f' = false)
   /\ Filesystem.ReadComments id f' = Errors.Ok [])
  /\ (Filesystem.PasteExists id f = false ->
      Filesystem.DeletePaste id f = (Some Errors.ErrPasteNotFound, f))
  /\ (Database.PasteExists id d = true ->
      let d' := snd (Database.DeletePaste id d) in
      fst (Database.DeletePaste id d) = None
      /\ Database.PasteExists id d' = false
      /\ (forall parentID commentID, Database.CommentExists id parentID commentID d' = false)
      /\ Database.ReadComments id d' = Errors.Ok [])
  /\ (Database.PasteExists id d = false ->
      Database.DeletePaste id d = (Some Errors.ErrPasteNotFound, d)).
Proof.
  split; [|split; [|split]].
  - intros Hex. cbv zeta.
    destruct (fs_comments_gone_after_delete f id Hf Hex) as [Hc Hr].
    split; [now rewrite (fs_DeletePaste_present f id Hf Hex)|].
    split; [now apply fs_gone_after_delete|]. split; assumption.
  - apply fs_DeletePaste_absent.
  - intros Hex. apply (db_PasteExists_lookup d id Hd) in Hex. cbv zeta.
    destruct (db_comments_gone_after_delete d id Hd Hex) as [Hc Hr].
    split; [now rewrite (db_DeletePaste_present d id Hd Hex)|].
    split; [|split; assumption].
    rewrite (db_DeletePaste_present d id Hd Hex). cbn [snd].
    apply db_PasteExists_false; [exact Hd | apply lookup_delete_eq].
  - intros Hex. apply db_DeletePaste_absent; [exact Hd|]. now apply db_PasteExists_false.
Qed.

Lemma C5_delete_cascades_witness :
  (length (match Filesystem.ReadComments id_a fs_discussed with
           | Errors.Ok cs => cs | Errors.Err _ => [] end) = 2%nat
   /\ Filesystem.ReadComments id_a (snd (Filesystem.DeletePaste id_a fs_discussed))
      = Errors.Ok []
   /\ Filesystem.DeletePaste id_b fs_discussed = (Some Errors.ErrPasteNotFound, fs_discussed))
  /\
  (length (match Database.ReadComments id_a db_discussed with
           | Errors.Ok cs => cs | Errors.Err _ => [] end) = 2%nat
   /\ Database.ReadComments id_a (snd (Database.DeletePaste id_a db_discussed))
      = Errors.Ok []
   /\ Database.DeletePaste id_b db_discussed = (Some Errors.ErrPasteNotFound, db_discussed)).
Proof.
  assert (Hf : fs_healthy fs_discussed) by (vm_compute; reflexivity).
  assert (Hd : db_healthy db_discussed) by (vm_compute; reflexivity).
  pose proof (C5_delete_cascades id_a fs_discussed db_discussed Hf Hd) as (Ha1 & _ & Ha2 & _).
  pose proof (C5_delete_cascades id_b fs_discussed db_discussed Hf Hd) as (_ & Hb1 & _ & Hb2).
  split; (split; [vm_compute; reflexivity|]); split.
  - apply Ha1. vm_compute; reflexivity.
  - apply Hb1. vm_compute; reflexivity.
  - apply Ha2. vm_compute; reflexivity.
  - apply Hb2. vm_compute; reflexivity.
Defined.

(** ** Comment ids: one namespace in the database, one per parent on disk *)

Section CommentFacts.
Import Errors Model.

Lemma fs_CreateComment_result (pasteID parentID commentID : string) (c : Comment)
  (f : Filesystem.t) :
  fs_healthy f -> Filesystem.PasteExists pasteID f = true ->
  fst (Filesystem.CreateComment pasteID parentID commentID c f) =
  if Filesystem.CommentExists pasteID parentID commentID f then Some ErrCommentExists else None.
Proof.
  intros Hh Hex. unfold Filesystem.CreateComment, Filesystem.CommentExists.
  unfold Filesystem.PasteExists in Hex. rewrite Hex. cbn [negb].
  rewrite (os_MkdirAll_healthy f _ Hh).
  destruct (Filesystem.os_Stat (Filesystem.commentPath f pasteID parentID commentID) f);
    [reflexivity|].
  rewrite (os_WriteFile_healthy f _ _ Hh).
  erewrite os_Rename_healthy; [reflexivity | exact Hh | apply lookup_insert_eq].
Qed.

Lemma db_CreateComment_result (pasteID parentID commentID : string) (c : Comment)
  (d : Database.t) :
  db_healthy d -> Database.PasteExists pasteID d = true ->
  fst (Database.CreateComment pasteID parentID commentID c d) =
  match Database.comment d !! commentID with
  | Some _ => Some ErrCommentExists
  | None => None
  end.
Proof.
  intros Hh Hex. unfold Database.CreateComment, Database.sql_insert.
  unfold Database.PasteExists in Hex. rewrite Hex. cbn [negb].
  rewrite (db_healthy_write d Hh).
  destruct (Database.comment d !! commentID); [|reflexivity].
  now rewrite unique_violation_is_duplicate.
Qed.

End CommentFacts.

(** C10. For a stored paste, the relational backend refuses a comment id
    with [ErrCommentExists] whenever any comment of the whole store has that
    id, whatever its paste and parent, and accepts it otherwise; the
    filesystem backend refuses exactly when the comment file of that paste,
    parent and comment id exists.  After the same three calls (two pastes,
    one comment with id c under the first), the same comment id under another
    parent, and under the other paste, is accepted on disk and refused by the
    database. *)
Theorem C10_comment_id_scope (pasteID parentID commentID : string) (c : Model.Comment)
  (f : Filesystem.t) (d : Database.t)
  (Hf : fs_healthy f) (Hd : db_healthy d)
  (Hpf : Filesystem.PasteExists pasteID f = true)
  (Hpd : Database.PasteExists pasteID d = true) :
  (fst (Database.CreateComment pasteID parentID commentID c d) = Some Errors.ErrCommentExists
   <-> exists row, Database.comment d !! commentID = Some row)
  /\ (fst (Database.CreateComment pasteID parentID commentID c d) = None
      <-> Database.comment d !! commentID = None)
  /\ (fst (Filesystem.CreateComment pasteID parentID commentID c f)
      = Some Errors.ErrCommentExists
      <-> Filesystem.CommentExists pasteID parentID commentID f = true)
  /\ (fst (Filesystem.CreateComment pasteID parentID commentID c f) = None
      <-> Filesystem.CommentExists pasteID parentID commentID f = false)
  /\ (fst (Filesystem.CreateComment id_a id_d id_c (example_comment "again" 30) fs_commented)
      = None
      /\ fst (Database.CreateComment id_a id_d id_c (example_comment "again" 30) db_commented)
         = Some Errors.ErrCommentExists)
  /\ (fst (Filesystem.CreateComment id_b id_b id_c (example_comment "again" 30) fs_commented)
      = None
      /\ fst (Database.CreateComment id_b id_b id_c (example_comment "again" 30) db_commented)
         = Some Errors.ErrCommentExists).
Proof.
  rewrite (db_CreateComment_result pasteID parentID commentID c d Hd Hpd).
  rewrite (fs_CreateComment_result pasteID parentID commentID c f Hf Hpf).
  split; [|split; [|split; [|split; [|split]]]].
  - destruct (Database.comment d !! commentID) as [row|].
    + split; [eauto | reflexivity].
    + split; [discriminate | intros [row H]; discriminate].
  - destruct (Database.comment d !! commentID); split; congruence.
  - destruct (Filesystem.CommentExists pasteID parentID commentID f); split; congruence.
  - destruct (Filesystem.CommentExists pasteID parentID commentID f); split; congruence.
  - split; vm_compute; reflexivity.
  - split; vm_compute; reflexivity.
Qed.

Lemma C10_comment_id_scope_witness :
  (fst (Database.CreateComment id_a id_d id_c (example_comment "again" 30) db_commented)
   = Some Errors.ErrCommentExists
   <-> exists row, Database.comment db_commented !! id_c = Some row)
  /\ (fst (Filesystem.CreateComment id_a id_d id_c (example_comment "again" 30) fs_commented)
      = None
      <-> Filesystem.CommentExists id_a id_d id_c fs_commented = false).
Proof.
  assert (Hf : fs_healthy fs_commented) by (vm_compute; reflexivity).
  assert (Hd : db_healthy db_commented) by (vm_compute; reflexivity).
  assert (Hpf : Filesystem.PasteExists id_a fs_commented = true) by (vm_compute; reflexivity).
  assert (Hpd : Database.PasteExists id_a db_commented = true) by (vm_compute; reflexivity).
  destruct (C10_comment_id_scope id_a id_d id_c (example_comment "again" 30)
              fs_commented db_commented Hf Hd Hpf Hpd) as (H1 & _ & _ & H4 & _).
  split; assumption.
Defined.

(** ** Burn after reading *)

Section BurnFacts.
Import Errors Model Util Storage Handler.
Context {S : Type} `{Storage S}.

(** What [getPaste] does when the store hands out a burn-flagged paste and
    is left unchanged by the read. *)
Lemma getPaste_burn (now : Z) (id : string) (h : Handler S) (p : Paste) :
  ValidateID id = true ->
  ReadPaste now id (store h) = (Ok p, store h) ->
  BurnAfterReading (Meta p) = true ->
  serves (fst (getPaste now id h)) id p
  /\ store (snd (getPaste now id h)) = store h
  /\ background (snd (getPaste now id h)) = (background h ++ [id])%list.
Proof.
  intros Hid Hread Hburn. unfold getPaste. rewrite Hid, Hread. cbn [negb].
  unfold IsBurnAfterReading. rewrite Hburn. cbn [fst snd]. split.
  - eexists. split; [reflexivity|]. cbn. repeat split; reflexivity.
  - split; reflexivity.
Qed.

Lemma getPaste_absent (now : Z) (id : string) (h : Handler S) :
  ValidateID id = true ->
  ReadPaste now id (store h) = (Err ErrPasteNotFound, store h) ->
  fst (getPaste now id h) = jsonError "Paste not found" 404.
Proof.
  intros Hid Hread. unfold getPaste. now rewrite Hid, Hread.
Qed.

Lemma existsb_eqb_app (id : string) (l : list string) :
  existsb (String.eqb id) (l ++ [id]) = true.
Proof.
  rewrite existsb_app. cbn. now rewrite String.eqb_refl, !orb_true_r.
Qed.

Lemma run_background_store (id : string) (h : Handler S) :
  existsb (String.eqb id) (background h) = true ->
  store (run_background id h) = snd (DeletePaste id (store h)).
Proof. intros Hin. unfold run_background. now rewrite Hin. Qed.

End BurnFacts.

(** C2 (as amended). On both backends, the first read of a stored,
    unexpired burn-after-reading paste answers with the whole paste and
    leaves the store as it is: the delete is handed to a goroutine and cannot
    fail the response.  Once that goroutine has run, the paste no longer
    exists and every later read answers 404. *)
Theorem C2_burn_after_reading (now : Z) (id : string)
  (hf : Handler.Handler Filesystem.t) (pf : Model.Paste)
  (hd : Handler.Handler Database.t) (pd : Model.Paste)
  (Hid : Util.ValidateID id = true)
  (Hf : fs_healthy (Handler.store hf)) (Hd : db_healthy (Handler.store hd))
  (Hpf : fs_lookup (Handler.store hf) id = Some pf)
  (Hpd : db_lookup (Handler.store hd) id = Some pd)
  (Hbf : Model.BurnAfterReading (Model.Meta pf) = true)
  (Hbd : Model.BurnAfterReading (Model.Meta pd) = true)
  (Hlf : Model.IsExpired now pf = false) (Hld : Model.IsExpired now pd = false) :
  (let h1 := snd (Handler.getPaste now id hf) in
   let h2 := Handler.run_background id h1 in
   serves (fst (Handler.getPaste now id hf)) id pf
   /\ Handler.store h1 = Handler.store hf
   /\ Handler.background h1 = (Handler.background hf ++ [id])%list
   /\ Filesystem.PasteExists id (Handler.store h2) = false
   /\ forall now', fst (Handler.getPaste now' id h2) = Handler.jsonError "Paste not found" 404)
  /\
  (let h1 := snd (Handler.getPaste now id hd) in
   let h2 := Handler.run_background id h1 in
   serves (fst (Handler.getPaste now id hd)) id pd
   /\ Handler.store h1 = Handler.store hd
   /\ Handler.background h1 = (Handler.background hd ++ [id])%list
   /\ Database.PasteExists id (Handler.store h2) = false
   /\ forall now', fst (Handler.getPaste now' id h2) = Handler.jsonError "Paste not found" 404).
Proof.
  split; cbv zeta.
  - assert (Hread : Storage.ReadPaste now id (Handler.store hf) = (Errors.Ok pf, Handler.store hf)).
    { cbn [Storage.ReadPaste Storage.filesystem_storage].
      now rewrite (fs_ReadPaste_lookup now _ id pf Hpf), Hlf. }
    destruct (getPaste_burn now id hf pf Hid Hread Hbf) as (Hs & Hst & Hbg).
    split; [exact Hs|]. split; [exact Hst|]. split; [exact Hbg|].
    assert (Hstore : Handler.store (Handler.run_background id (snd (Handler.getPaste now id hf)))
                     = snd (Filesystem.DeletePaste id (Handler.store hf))).
    { rewrite run_background_store by (rewrite Hbg; apply existsb_eqb_app). now rewrite Hst. }
    assert (Hgone : Filesystem.PasteExists id
                      (Handler.store (Handler.run_background id (snd (Handler.getPaste now id hf))))
                    = false).
    { rewrite Hstore. apply fs_gone_after_delete; [exact Hf|]. eapply fs_lookup_exists, Hpf. }
    split; [exact Hgone|]. intros now'. apply getPaste_absent; [exact Hid|].
    cbn [Storage.ReadPaste Storage.filesystem_storage]. now apply fs_ReadPaste_absent.
  - assert (Hread : Storage.ReadPaste now id (Handler.store hd) = (Errors.Ok pd, Handler.store hd)).
    { cbn [Storage.ReadPaste Storage.database_storage].
      now rewrite (db_ReadPaste_lookup now _ id pd Hd Hpd), Hld. }
    destruct (getPaste_burn now id hd pd Hid Hread Hbd) as (Hs & Hst & Hbg).
    split; [exact Hs|]. split; [exact Hst|]. split; [exact Hbg|].
    assert (Hex : is_Some (Database.paste (Handler.store hd) !! id))
      by (eapply db_lookup_exists, Hpd).
    assert (Hstore : Handler.store (Handler.run_background id (snd (Handler.getPaste now id hd)))
                     = snd (Database.DeletePaste id (Handler.store hd))).
    { rewrite run_background_store by (rewrite Hbg; apply existsb_eqb_app). now rewrite Hst. }
    rewrite (db_DeletePaste_present _ id Hd Hex) in Hstore. cbn [snd] in Hstore.
    assert (Hh2 : db_healthy (Handler.store (Handler.run_background id
                                               (snd (Handler.getPaste now id hd)))))
      by (rewrite Hstore; exact Hd).
    assert (Hnone : Database.paste (Handler.store (Handler.run_background id
                                                     (snd (Handler.getPaste now id hd)))) !! id
                    = None)
      by (rewrite Hstore; apply lookup_delete_eq).
    split; [now apply db_PasteExists_false|]. intros now'.
    apply getPaste_absent; [exact Hid|].
    cbn [Storage.ReadPaste Storage.database_storage]. now apply db_ReadPaste_absent.
Qed.

Lemma C2_burn_after_reading_witness :
  (serves (fst (Handler.getPaste 50 id_a
                  (handler_of (fs_one id_a (example_paste "secret" 0 true false)))))
     id_a (stored_paste id_a (example_paste "secret" 0 true false))
   /\ Filesystem.PasteExists id_a
        (Handler.store
           (Handler.run_background id_a
              (snd (Handler.getPaste 50 id_a
                      (handler_of (fs_one id_a (example_paste "secret" 0 true false)))))))
      = false)
  /\
  (serves (fst (Handler.getPaste 50 id_a
                  (handler_of (db_one id_a (example_paste "secret" 0 true false)))))
     id_a (stored_paste id_a (example_paste "secret" 0 true false))
   /\ Database.PasteExists id_a
        (Handler.store
           (Handler.run_background id_a
              (snd (Handler.getPaste 50 id_a
                      (handler_of (db_one id_a (example_paste "secret" 0 true false)))))))
      = false).
Proof.
  assert (Hid : Util.ValidateID id_a = true) by (vm_compute; reflexivity).
  assert (Hf : fs_healthy (Handler.store
                             (handler_of (fs_one id_a (example_paste "secret" 0 true false)))))
    by (vm_compute; reflexivity).
  assert (Hd : db_healthy (Handler.store
                             (handler_of (db_one id_a (example_paste "secret" 0 true false)))))
    by (vm_compute; reflexivity).
  assert (Hpf : fs_lookup (Handler.store
                             (handler_of (fs_one id_a (example_paste "secret" 0 true false))))
                  id_a
                = Some (stored_paste id_a (example_paste "secret" 0 true false)))
    by (vm_compute; reflexivity).
  assert (Hpd : db_lookup (Handler.store
                             (handler_of (db_one id_a (example_paste "secret" 0 true false))))
                  id_a
                = Some (stored_paste id_a (example_paste "secret" 0 true false)))
    by (vm_compute; reflexivity).
  destruct (C2_burn_after_reading 50 id_a _ _ _ _ Hid Hf Hd Hpf Hpd
              eq_refl eq_refl eq_refl eq_refl)
    as [(H1 & _ & _ & H2 & _) (H3 & _ & _ & H4 & _)].
  split; split; assumption.
Defined.

(** C2 fails as stated: the delete waits in a goroutine, and a second
    reader who arrives before it runs is served the paste again. *)
Lemma C2_counterexample :
  let p := stored_paste id_a (example_paste "secret" 0 true false) in
  let hf := handler_of (fs_one id_a (example_paste "secret" 0 true false)) in
  let hd := handler_of (db_one id_a (example_paste "secret" 0 true false)) in
  serves (fst (Handler.getPaste 50 id_a hf)) id_a p
  /\ serves (fst (Handler.getPaste 50 id_a (snd (Handler.getPaste 50 id_a hf)))) id_a p
  /\ serves (fst (Handler.getPaste 50 id_a hd)) id_a p
  /\ serves (fst (Handler.getPaste 50 id_a (snd (Handler.getPaste 50 id_a hd)))) id_a p.
Proof.
  cbv zeta. unfold serves.
  split; [|split; [|split]]; eexists; (split; [vm_compute; reflexivity|]);
    repeat split; reflexivity.
Qed.

(** ** Purge with a batch size of zero *)

(** C8 (defect). On the filesystem backend the expiry scan appends an
    expired id before it compares the number collected with the batch size,
    so a batch size of 0 still collects one id and [Purge] deletes that
    paste; the relational backend deletes none for the same batch size. *)
Theorem C8_purge_batch_zero :
  let f := fs_one id_a (example_paste "ct1" 50 false false) in
  let d := db_one id_a (example_paste "ct1" 50 false false) in
  Filesystem.GetExpiredPastes 100 0 f = Errors.Ok [id_a]
  /\ fst (Filesystem.Purge 100 0 f) = (1%Z, None)
  /\ Filesystem.PasteExists id_a f = true
  /\ Filesystem.PasteExists id_a (snd (Filesystem.Purge 100 0 f)) = false
  /\ Database.GetExpiredPastes 100 0 d = Errors.Ok []
  /\ Database.Purge 100 0 d = ((0%Z, None), d).
Proof. cbv zeta. repeat split; vm_compute; reflexivity. Qed.

(** * Further properties of the code *)

(** ** What a successful read guarantees *)

Section ReadFacts.
Import Errors Json Model.
Local Open Scope Z_scope.

Lemma unmarshal_PasteMeta_no_salt (fields : list (string * json)) (m : PasteMeta) :
  unmarshal_PasteMeta fields = Some m -> Salt m = "".
Proof.
  unfold unmarshal_PasteMeta. intros H.
  destruct (dec_int "postdate" fields); [|discriminate].
  destruct (dec_int "expire_date" fields); [|discriminate].
  destruct (dec_string "expire" fields); [|discriminate].
  destruct (dec_bool "burnafterreading" fields); [|discriminate].
  destruct (dec_bool "opendiscussion" fields); [|discriminate].
  destruct (dec_string "formatter" fields); [|discriminate].
  destruct (dec_int "time_to_live" fields); [|discriminate].
  cbn in H. now injection H as <-.
Qed.

Lemma fs_unmarshal_paste_no_salt (data : Filesystem.file) (sd : Filesystem.pasteStorageData) :
  Filesystem.unmarshal_paste data = Some sd -> Salt (Filesystem.sd_Meta sd) = "".
Proof.
  unfold Filesystem.unmarshal_paste. intros H.
  destruct data as [[| | | |fields]|]; try discriminate.
  destruct (dec_string "data" fields); [|discriminate].
  destruct (dec_string "attachmentname" fields); [|discriminate].
  destruct (dec_string "attachment" fields); [|discriminate].
  destruct (dec_raw "adata" fields); [|discriminate].
  destruct (dec_int "v" fields); [|discriminate].
  destruct (dec_object "meta" fields) as [mf|]; [|discriminate].
  cbn in H. destruct (unmarshal_PasteMeta mf) as [m|] eqn:Hm; [|discriminate].
  cbn in H. injection H as <-. cbn. now apply unmarshal_PasteMeta_no_salt in Hm.
Qed.

Lemma fs_ReadPaste_ok (now : Z) (id : string) (f f' : Filesystem.t) (p : Paste) :
  Filesystem.ReadPaste now id f = (Ok p, f') ->
  f' = f /\ fs_lookup f id = Some p /\ IsExpired now p = false
  /\ ID p = id /\ Salt (Meta p) = "".
Proof.
  unfold Filesystem.ReadPaste, Filesystem.os_ReadFile, fs_lookup. intros H.
  destruct (Filesystem.files f !! Filesystem.pastePath f id) as [data|]; [|discriminate].
  destruct (Filesystem.unmarshal_paste data) as [sd|] eqn:Hsd; [|discriminate].
  fold (fs_paste_of id sd) in H.
  destruct (IsExpired now (fs_paste_of id sd)) eqn:He; [discriminate|].
  injection H as <- <-. repeat split; try reflexivity; try assumption.
  cbn. now apply fs_unmarshal_paste_no_salt in Hsd.
Qed.

Lemma db_ReadPaste_ok (now : Z) (id : string) (d d' : Database.t) (p : Paste) :
  Database.ReadPaste now id d = (Ok p, d') ->
  d' = d /\ db_lookup d id = Some p /\ IsExpired now p = false
  /\ ID p = id /\ Salt (Meta p) = "".
Proof.
  unfold Database.ReadPaste, db_lookup. intros H.
  destruct (Database.read_error d); [discriminate|].
  destruct (Database.paste d !! id) as [row|]; [|discriminate].
  destruct (Database.unmarshal_data (Database.pr_data row)) as [sd|]; [|discriminate].
  destruct (Database.unmarshal_meta (Database.pr_meta row)) as [meta0|] eqn:Hm; [|discriminate].
  fold (db_paste_of id row sd meta0) in H.
  destruct (IsExpired now (db_paste_of id row sd meta0)) eqn:He; [discriminate|].
  injection H as <- <-. repeat split; try reflexivity; try assumption.
  unfold Database.unmarshal_meta in Hm. destruct (Database.pr_meta row); try discriminate.
  apply unmarshal_PasteMeta_no_salt in Hm. cbn.
  destruct (Database.pr_expiredate row); cbn; exact Hm.
Qed.

End ReadFacts.

(** X1. Whatever the store holds, a read that succeeds changes nothing,
    returns the paste stored under the id asked for, never a paste that is
    expired at that time, and never the server salt. *)
Theorem X1_read_ok_is_fresh_and_saltless (now : Z) (id : string)
  (f f' : Filesystem.t) (pf : Model.Paste) (d d' : Database.t) (pd : Model.Paste)
  (Hf : Filesystem.ReadPaste now id f = (Errors.Ok pf, f'))
  (Hd : Database.ReadPaste now id d = (Errors.Ok pd, d')) :
  (f' = f /\ fs_lookup f id = Some pf /\ Model.IsExpired now pf = false
   /\ Model.ID pf = id /\ Model.Salt (Model.Meta pf) = "")
  /\ (d' = d /\ db_lookup d id = Some pd /\ Model.IsExpired now pd = false
      /\ Model.ID pd = id /\ Model.Salt (Model.Meta pd) = "").
Proof. split; [now apply fs_ReadPaste_ok | now apply db_ReadPaste_ok]. Qed.

Lemma X1_read_ok_is_fresh_and_saltless_witness :
  Model.Salt (Model.Meta (stored_paste id_a (example_paste "ct1" 100 false false))) = ""
  /\ Model.IsExpired 50 (stored_paste id_a (example_paste "ct1" 100 false false)) = false.
Proof.
  assert (Hf : Filesystem.ReadPaste 50 id_a (fs_one id_a (example_paste "ct1" 100 false false))
               = (Errors.Ok (stored_paste id_a (example_paste "ct1" 100 false false)),
                  fs_one id_a (example_paste "ct1" 100 false false)))
    by (vm_compute; reflexivity).
  assert (Hd : Database.ReadPaste 50 id_a (db_one id_a (example_paste "ct1" 100 false false))
               = (Errors.Ok (stored_paste id_a (example_paste "ct1" 100 false false)),
                  db_one id_a (example_paste "ct1" 100 false false)))
    by (vm_compute; reflexivity).
  destruct (X1_read_ok_is_fresh_and_saltless 50 id_a _ _ _ _ _ _ Hf Hd)
    as [(_ & _ & He & _ & Hs) _].
  split; assumption.
Defined.

(** ** Pastes that never expire *)

(** X2. A stored paste whose expiration timestamp is 0 is returned by
    [ReadPaste] at every time, on both backends, and the read leaves the
    store as it is. *)
Theorem X2_zero_expiry_never_expires (now : Z) (id : string)
  (f : Filesystem.t) (pf : Model.Paste) (d : Database.t) (pd : Model.Paste)
  (Hd : Database.read_error d = None)
  (Hpf : fs_lookup f id = Some pf) (Hpd : db_lookup d id = Some pd)
  (Hzf : Model.ExpireDate (Model.Meta pf) = 0%Z)
  (Hzd : Model.ExpireDate (Model.Meta pd) = 0%Z) :
  Filesystem.ReadPaste now id f = (Errors.Ok pf, f)
  /\ Database.ReadPaste now id d = (Errors.Ok pd, d).
Proof.
  split.
  - rewrite (fs_ReadPaste_lookup now f id pf Hpf). unfold Model.IsExpired. now rewrite Hzf.
  - unfold Database.ReadPaste, db_lookup in *. rewrite Hd.
    destruct (Database.paste d !! id) as [row|]; [|discriminate].
    destruct (Database.unmarshal_data (Database.pr_data row)) as [sd|]; [|discriminate].
    destruct (Database.unmarshal_meta (Database.pr_meta row)) as [meta0|]; [|discriminate].
    injection Hpd as <-. unfold Model.IsExpired.
    change (Model.Meta {| Model.ID := id; Model.Data := _; Model.AttachmentName := _;
                          Model.Attachment := _; Model.Meta := ?m; Model.AData := _;
                          Model.Version := _; Model.DeleteToken := _; Model.URL := _;
                          Model.Comments := _; Model.CommentCount := _;
                          Model.CommentOffset := _ |}) with m in *.
    cbn [Model.Meta db_paste_of] in Hzd. rewrite Hzd. reflexivity.
Qed.

Lemma X2_zero_expiry_never_expires_witness :
  Filesystem.ReadPaste 4102444800 id_a (fs_one id_a (example_paste "ct1" 0 false false))
  = (Errors.Ok (stored_paste id_a (example_paste "ct1" 0 false false)),
     fs_one id_a (example_paste "ct1" 0 false false))
  /\ Database.ReadPaste 4102444800 id_a (db_one id_a (example_paste "ct1" 0 false false))
     = (Errors.Ok (stored_paste id_a (example_paste "ct1" 0 false false)),
        db_one id_a (example_paste "ct1" 0 false false)).
Proof.
  assert (Hpf : fs_lookup (fs_one id_a (example_paste "ct1" 0 false false)) id_a
                = Some (stored_paste id_a (example_paste "ct1" 0 false false)))
    by (vm_compute; reflexivity).
  assert (Hpd : db_lookup (db_one id_a (example_paste "ct1" 0 false false)) id_a
                = Some (stored_paste id_a (example_paste "ct1" 0 false false)))
    by (vm_compute; reflexivity).
  assert (Hd : Database.read_error (db_one id_a (example_paste "ct1" 0 false false)) = None)
    by (vm_compute; reflexivity).
  exact (X2_zero_expiry_never_expires 4102444800 id_a _ _ _ _ Hd Hpf Hpd eq_refl eq_refl).
Defined.

(** ** Validation of a paste *)

Lemma formatter_check (s : string) :
  known_formatter s <->
  negb (s =? "")%string
  && negb ((s =? Model.FormatterPlainText)%string
           || (s =? Model.FormatterSyntaxHighlight)%string
           || (s =? Model.FormatterMarkdown)%string) = false.
Proof.
  unfold known_formatter, Model.FormatterPlainText, Model.FormatterSyntaxHighlight,
    Model.FormatterMarkdown.
  destruct (String.eqb_spec s "") as [H0|H0];
  destruct (String.eqb_spec s "plaintext") as [H1|H1];
  destruct (String.eqb_spec s "syntaxhighlighting") as [H2|H2];
  destruct (String.eqb_spec s "markdown") as [H3|H3];
  cbn [negb andb orb]; split; intros H; try reflexivity; try discriminate; try tauto.
Qed.

(** X3. [Validate] accepts a paste exactly when its data is not empty, its
    formatter is empty or one of the three known tags, and burn-after-reading
    and discussion are not both set; empty data is reported first
    (as [ErrPasteTooLarge]), an unknown formatter second, the conflict of
    the flags last. *)
Theorem X3_Validate_cases (p : Model.Paste) :
  (Model.Validate p = None <->
   Model.Data p <> "" /\ known_formatter (Model.Formatter (Model.Meta p))
   /\ ~ (Model.BurnAfterReading (Model.Meta p) = true
         /\ Model.OpenDiscussion (Model.Meta p) = true))
  /\ (Model.Validate p = Some Errors.ErrPasteTooLarge <-> Model.Data p = "")
  /\ (Model.Validate p = Some Errors.ErrInvalidFormatter <->
      Model.Data p <> "" /\ ~ known_formatter (Model.Formatter (Model.Meta p)))
  /\ (Model.Validate p = Some Errors.ErrBurnAfterReadingWithDiscussion <->
      Model.Data p <> "" /\ known_formatter (Model.Formatter (Model.Meta p))
      /\ Model.BurnAfterReading (Model.Meta p) = true
      /\ Model.OpenDiscussion (Model.Meta p) = true).
Proof.
  pose proof (formatter_check (Model.Formatter (Model.Meta p))) as Hfmt.
  unfold Model.Validate.
  destruct (String.eqb_spec (Model.Data p) "") as [Hd|Hd].
  { repeat split; try discriminate; try tauto; intros; tauto. }
  destruct (negb (Model.Formatter (Model.Meta p) =? "")%string
            && negb ((Model.Formatter (Model.Meta p) =? Model.FormatterPlainText)%string
                     || (Model.Formatter (Model.Meta p) =? Model.FormatterSyntaxHighlight)%string
                     || (Model.Formatter (Model.Meta p) =? Model.FormatterMarkdown)%string)).
  { assert (Hk : ~ known_formatter (Model.Formatter (Model.Meta p)))
      by (intros Hk; apply Hfmt in Hk; discriminate).
    repeat split; try discriminate; try tauto; intros; tauto. }
  assert (Hk : known_formatter (Model.Formatter (Model.Meta p))) by now apply Hfmt.
  destruct (Model.BurnAfterReading (Model.Meta p)), (Model.OpenDiscussion (Model.Meta p));
    cbn [andb]; repeat split; try discriminate; try tauto; intros; try tauto;
    intuition congruence.
Qed.

(** ** Comments *)

Section CommentExtras.
Import Errors Model.
Local Open Scope Z_scope.

Lemma insert_by_date_sorted (c : Comment) (l : list Comment) :
  StronglySorted by_post_date l -> StronglySorted by_post_date (Filesystem.insert_by_date c l).
Proof.
  induction 1 as [|c' l Hl IH Hall]; cbn [Filesystem.insert_by_date];
    [repeat constructor|].
  destruct (Z.ltb_spec (cm_PostDate (c_Meta c)) (cm_PostDate (c_Meta c'))) as [Hlt|Hge].
  - constructor; [now constructor|]. constructor; [unfold by_post_date; lia|].
    eapply Forall_impl; [exact Hall|]. intros x Hx. unfold by_post_date in *. lia.
  - constructor; [exact IH|].
    assert (Hin : forall x, In x (Filesystem.insert_by_date c l) -> x = c \/ In x l).
    { clear. induction l as [|y l IHl]; cbn; intros x Hx.
      - destruct Hx as [<-|[]]. now left.
      - destruct (cm_PostDate (c_Meta c) <? cm_PostDate (c_Meta y)).
        + destruct Hx as [<-|Hx]; [now left | now right].
        + destruct Hx as [<-|Hx]; [right; now left|].
          apply IHl in Hx as [->|Hx]; [now left | right; now right]. }
    apply Forall_forall. intros x Hx. apply list_elem_of_In in Hx. apply Hin in Hx as [->|Hx].
    + unfold by_post_date. lia.
    + rewrite Forall_forall in Hall. apply Hall. now apply list_elem_of_In.
Qed.

Lemma sort_by_date_sorted (l : list Comment) :
  StronglySorted by_post_date (Filesystem.sort_by_date l).
Proof.
  unfold Filesystem.sort_by_date.
  assert (H : forall acc, StronglySorted by_post_date acc ->
                          StronglySorted by_post_date
                            (fold_left (fun acc c => Filesystem.insert_by_date c acc) l acc)).
  { induction l as [|c l IH]; intros acc Hacc; [exact Hacc|].
    cbn [fold_left]. apply IH. now apply insert_by_date_sorted. }
  apply H. constructor.
Qed.

Lemma insert_by_postdate_sorted (r : string * Database.comment_row)
  (l : list (string * Database.comment_row)) :
  StronglySorted by_postdate_column l ->
  StronglySorted by_postdate_column (Database.insert_by_postdate r l).
Proof.
  induction 1 as [|r' l Hl IH Hall]; cbn [Database.insert_by_postdate];
    [repeat constructor|].
  destruct (Z.ltb_spec (Database.cr_postdate r.2) (Database.cr_postdate r'.2)) as [Hlt|Hge].
  - constructor; [now constructor|]. constructor; [unfold by_postdate_column; lia|].
    eapply Forall_impl; [exact Hall|]. intros x Hx. unfold by_postdate_column in *. lia.
  - constructor; [exact IH|].
    assert (Hin : forall x, In x (Database.insert_by_postdate r l) -> x = r \/ In x l).
    { clear. induction l as [|y l IHl]; cbn; intros x Hx.
      - destruct Hx as [<-|[]]. now left.
      - destruct (Database.cr_postdate r.2 <? Database.cr_postdate y.2).
        + destruct Hx as [<-|Hx]; [now left | now right].
        + destruct Hx as [<-|Hx]; [right; now left|].
          apply IHl in Hx as [->|Hx]; [now left | right; now right]. }
    apply Forall_forall. intros x Hx. apply list_elem_of_In in Hx. apply Hin in Hx as [->|Hx].
    + unfold by_postdate_column. lia.
    + rewrite Forall_forall in Hall. apply Hall. now apply list_elem_of_In.
Qed.

Lemma order_by_postdate_sorted (l : list (string * Database.comment_row)) :
  StronglySorted by_postdate_column (Database.order_by_postdate l).
Proof.
  unfold Database.order_by_postdate.
  assert (H : forall acc, StronglySorted by_postdate_column acc ->
                          StronglySorted by_postdate_column
                            (fold_left (fun acc r => Database.insert_by_postdate r acc) l acc)).
  { induction l as [|c l IH]; intros acc Hacc; [exact Hacc|].
    cbn [fold_left]. apply IH. now apply insert_by_postdate_sorted. }
  apply H. constructor.
Qed.

Lemma scan_comments_sorted (pasteID : string) (rows : list (string * Database.comment_row))
  (cs : list Comment) :
  StronglySorted by_postdate_column rows ->
  Database.scan_comments pasteID rows = Ok cs ->
  StronglySorted by_post_date cs
  /\ Forall (fun c => exists r, In r rows /\ cm_PostDate (c_Meta c) = Database.cr_postdate r.2) cs.
Proof.
  intros Hs. revert cs. induction Hs as [|[id row] rows Hs IH Hall]; intros cs H.
  - cbn in H. injection H as <-. split; constructor.
  - cbn [Database.scan_comments] in H.
    destruct (Database.unmarshal_comment (Database.cr_data row)) as [data|]; [|discriminate].
    destruct (Database.scan_comments pasteID rows) as [cs'|e]; [|discriminate].
    injection H as <-. destruct (IH cs' eq_refl) as [Hsorted Hfrom]. split.
    + constructor; [exact Hsorted|]. apply Forall_forall. intros c Hc.
      rewrite Forall_forall in Hfrom. destruct (Hfrom c Hc) as (r & Hr & Hpd).
      rewrite Forall_forall in Hall. apply list_elem_of_In in Hr.
      specialize (Hall r Hr). unfold by_post_date, by_postdate_column in *. cbn in *. lia.
    + constructor.
      * exists (id, row). split; [now left | reflexivity].
      * eapply Forall_impl; [exact Hfrom|]. intros c (r & Hr & Hpd). exists r.
        split; [now right | exact Hpd].
Qed.

End CommentExtras.

(** X4. [ReadComments] returns the comments in ascending order of their post
    date, on both backends. *)
Theorem X4_ReadComments_sorted (pasteID : string)
  (f : Filesystem.t) (csf : list Model.Comment)
  (d : Database.t) (csd : list Model.Comment)
  (Hf : Filesystem.ReadComments pasteID f = Errors.Ok csf)
  (Hd : Database.ReadComments pasteID d = Errors.Ok csd) :
  StronglySorted by_post_date csf /\ StronglySorted by_post_date csd.
Proof.
  split.
  - unfold Filesystem.ReadComments in Hf. injection Hf as <-. apply sort_by_date_sorted.
  - unfold Database.ReadComments in Hd. destruct (Database.read_error d); [discriminate|].
    eapply scan_comments_sorted; [apply order_by_postdate_sorted | exact Hd].
Qed.

Lemma X4_ReadComments_sorted_witness :
  exists csf csd,
    Filesystem.ReadComments id_a fs_discussed = Errors.Ok csf
    /\ Database.ReadComments id_a db_discussed = Errors.Ok csd
    /\ length csf = 2%nat /\ length csd = 2%nat
    /\ StronglySorted by_post_date csf /\ StronglySorted by_post_date csd.
Proof.
  destruct (Filesystem.ReadComments id_a fs_discussed) as [csf|e] eqn:Hf;
    [|vm_compute in Hf; discriminate Hf].
  destruct (Database.ReadComments id_a db_discussed) as [csd|e] eqn:Hd;
    [|vm_compute in Hd; discriminate Hd].
  exists csf, csd. split; [reflexivity|]. split; [reflexivity|].
  split; [vm_compute in Hf; injection Hf as <-; reflexivity|].
  split; [vm_compute in Hd; injection Hd as <-; reflexivity|].
  exact (X4_ReadComments_sorted id_a fs_discussed csf db_discussed csd Hf Hd).
Defined.

(** ** The key-value store *)

Section KVFacts.
Import Errors.

Lemma fs_SetValue_healthy (ns key value : string) (f : Filesystem.t) :
  fs_healthy f ->
  Filesystem.SetValue ns key value f =
  (None, Filesystem.with_files f
           (<[Filesystem.configPath f ns key := Filesystem.RawFile value]>
              (delete (Filesystem.configPath f ns key ++ ".tmp")
                 (<[Filesystem.configPath f ns key ++ ".tmp" := Filesystem.RawFile value]>
                    (Filesystem.files f))))).
Proof.
  intros Hh. unfold Filesystem.SetValue. rewrite (os_WriteFile_healthy f _ _ Hh).
  erewrite os_Rename_healthy; [reflexivity | exact Hh | apply lookup_insert_eq].
Qed.

End KVFacts.



(** ** Failed operations *)

(** X6. Relational backend: an operation that returns an error leaves the
    store exactly as it was; [DeletePaste] of an id without a paste row rolls
    back the deletion of the comments it had already issued. *)
Theorem X6_database_error_changes_nothing (d : Database.t)
  (id parentID commentID ns key value : string) (p : Model.Paste) (c : Model.Comment)
  (now : Z) :
  (fst (Database.CreatePaste id p d) <> None -> snd (Database.CreatePaste id p d) = d)
  /\ (fst (Database.DeletePaste id d) <> None -> snd (Database.DeletePaste id d) = d)
  /\ (fst (Database.CreateComment id parentID commentID c d) <> None ->
      snd (Database.CreateComment id parentID commentID c d) = d)
  /\ (fst (Database.SetValue ns key value d) <> None ->
      snd (Database.SetValue ns key value d) = d)
  /\ (forall e, fst (Database.ReadPaste now id d) = Errors.Err e ->
                e <> Errors.ErrPasteExpired -> snd (Database.ReadPaste now id d) = d).
Proof.
  split; [|split; [|split; [|split]]].
  - unfold Database.CreatePaste, Database.sql_insert.
    destruct (Database.write_error d) as [e|]; cbn.
    + destruct (Database.is_duplicate e); reflexivity.
    + destruct (Database.paste d !! id); cbn.
      * destruct (Database.is_duplicate (Database.unique_violation d)); reflexivity.
      * intros H. now contradiction H.
  - unfold Database.DeletePaste.
    destruct (Database.read_error d); [reflexivity|].
    destruct (Database.write_error d); [reflexivity|].
    destruct (Database.paste d !! id); cbn; [intros H; now contradiction H | reflexivity].
  - unfold Database.CreateComment, Database.sql_insert.
    destruct (Database.pasteExistsUnsafe id d); cbn [negb]; [|reflexivity].
    destruct (Database.write_error d) as [e|]; cbn.
    + destruct (Database.is_duplicate e); reflexivity.
    + destruct (Database.comment d !! commentID); cbn.
      * destruct (Database.is_duplicate (Database.unique_violation d)); reflexivity.
      * intros H. now contradiction H.
  - unfold Database.SetValue. destruct (Database.write_error d); cbn; [reflexivity|].
    intros H. now contradiction H.
  - intros e. unfold Database.ReadPaste.
    destruct (Database.read_error d); [reflexivity|].
    destruct (Database.paste d !! id) as [row|]; [|reflexivity].
    destruct (Database.unmarshal_data (Database.pr_data row)); [|reflexivity].
    destruct (Database.unmarshal_meta (Database.pr_meta row)); [|reflexivity].
    match goal with |- context [if ?b then _ else _] => destruct b end; cbn.
    + intros [= <-] H. now contradiction H.
    + discriminate.
Qed.



(** ** Purge *)

Section PurgeFacts.
Import Errors Model.
Local Open Scope Z_scope.

Lemma fs_walk_length (now N : Z) (entries : list (string * Filesystem.file))
  (acc : list string) :
  Z.of_nat (length acc) < N ->
  Z.of_nat (length (Filesystem.walk now N entries acc)) <= N.
Proof.
  revert acc. induction entries as [|[path data] entries IH]; intros acc Hacc;
    cbn [Filesystem.walk]; [lia|].
  destruct (GoStrings.Contains path "_config"); [now apply IH|].
  destruct (GoStrings.Contains path ".discussion" || GoStrings.HasSuffix path ".json");
    [now apply IH|].
  destruct (Filesystem.unmarshal_paste data) as [sd|]; [|now apply IH].
  destruct ((ExpireDate (Filesystem.sd_Meta sd) >? 0)
            && (ExpireDate (Filesystem.sd_Meta sd) <? now)); [|now apply IH].
  destruct (Z.geb_spec (Z.of_nat (length (acc ++ [GoStrings.Base path]))) N) as [Hge|Hlt].
  - rewrite length_app in *. cbn [length] in *. lia.
  - now apply IH.
Qed.

Lemma fs_purge_loop_count (ids : list string) (count : Z) (f : Filesystem.t) :
  count <= fst (fst (Filesystem.purge_loop ids count f)) <= count + Z.of_nat (length ids).
Proof.
  revert count f. induction ids as [|id ids IH]; intros count f; cbn [Filesystem.purge_loop];
    [cbn; lia|].
  destruct (Filesystem.DeletePaste id f) as [[e|] f'].
  - destruct e; try (cbn [fst length]; lia).
    specialize (IH (count + 1) f'). cbn [length]. lia.
  - specialize (IH (count + 1) f'). cbn [length]. lia.
Qed.

Lemma db_purge_loop_count (ids : list string) (count : Z) (d : Database.t) :
  count <= fst (fst (Database.purge_loop ids count d)) <= count + Z.of_nat (length ids).
Proof.
  revert count d. induction ids as [|id ids IH]; intros count d; cbn [Database.purge_loop];
    [cbn; lia|].
  destruct (Database.DeletePaste id d) as [[e|] d'].
  - destruct e; try (cbn [fst length]; lia).
    specialize (IH (count + 1) d'). cbn [length]. lia.
  - specialize (IH (count + 1) d'). cbn [length]. lia.
Qed.

Lemma db_limit_length {A : Type} (d : Database.t) (N : Z) (rows out : list A) :
  0 <= N -> Database.sql_limit d N rows = inr out -> Z.of_nat (length out) <= N.
Proof.
  intros HN. unfold Database.sql_limit. destruct (Z.ltb_spec N 0); [lia|].
  intros [= <-]. rewrite length_firstn. lia.
Qed.

(** No branch of the loop reports [ErrPasteNotFound]. *)
Lemma fs_purge_loop_error (ids : list string) (count : Z) (f : Filesystem.t) :
  snd (fst (Filesystem.purge_loop ids count f)) <> Some ErrPasteNotFound.
Proof.
  revert count f. induction ids as [|id ids IH]; intros count f; cbn [Filesystem.purge_loop];
    [discriminate|].
  destruct (Filesystem.DeletePaste id f) as [[e|] f']; [|apply IH].
  destruct e; try (cbn; discriminate). apply IH.
Qed.

Lemma db_purge_loop_error (ids : list string) (count : Z) (d : Database.t) :
  snd (fst (Database.purge_loop ids count d)) <> Some ErrPasteNotFound.
Proof.
  revert count d. induction ids as [|id ids IH]; intros count d; cbn [Database.purge_loop];
    [discriminate|].
  destruct (Database.DeletePaste id d) as [[e|] d']; [|apply IH].
  destruct e; try (cbn; discriminate). apply IH.
Qed.

End PurgeFacts.

(** X8. For a batch size of at least 1, [GetExpiredPastes] returns at most
    that many ids and the count [Purge] returns lies between 0 and the batch
    size, on both backends; an id that is already gone is counted, and
    [Purge] never reports [ErrPasteNotFound]. *)
Theorem X8_purge_batch_bound (now N : Z) (f : Filesystem.t) (d : Database.t)
  (HN : (1 <= N)%Z) :
  (forall ids, Filesystem.GetExpiredPastes now N f = Errors.Ok ids ->
               (Z.of_nat (length ids) <= N)%Z)
  /\ (forall ids, Database.GetExpiredPastes now N d = Errors.Ok ids ->
                  (Z.of_nat (length ids) <= N)%Z)
  /\ (0 <= fst (fst (Filesystem.Purge now N f)) <= N)%Z
  /\ (0 <= fst (fst (Database.Purge now N d)) <= N)%Z
  /\ snd (fst (Filesystem.Purge now N f)) <> Some Errors.ErrPasteNotFound
  /\ snd (fst (Database.Purge now N d)) <> Some Errors.ErrPasteNotFound.
Proof.
  assert (Hfs : forall ids, Filesystem.GetExpiredPastes now N f = Errors.Ok ids ->
                            (Z.of_nat (length ids) <= N)%Z).
  { intros ids [= <-]. apply fs_walk_length. cbn. lia. }
  assert (Hdb : forall ids, Database.GetExpiredPastes now N d = Errors.Ok ids ->
                            (Z.of_nat (length ids) <= N)%Z).
  { intros ids. unfold Database.GetExpiredPastes.
    destruct (Database.read_error d); [discriminate|].
    destruct (Database.sql_limit d N _) as [e|rows] eqn:Hl; [discriminate|].
    intros [= <-]. rewrite length_map. eapply db_limit_length; [|exact Hl]. lia. }
  split; [exact Hfs|]. split; [exact Hdb|]. split; [|split; [|split]].
  - unfold Filesystem.Purge.
    destruct (Filesystem.GetExpiredPastes now N f) as [ids|e] eqn:Hg; [|cbn; lia].
    pose proof (fs_purge_loop_count ids 0 f). specialize (Hfs ids eq_refl). lia.
  - unfold Database.Purge.
    destruct (Database.GetExpiredPastes now N d) as [ids|e] eqn:Hg; [|cbn; lia].
    pose proof (db_purge_loop_count ids 0 d). specialize (Hdb ids eq_refl). lia.
  - unfold Filesystem.Purge.
    destruct (Filesystem.GetExpiredPastes now N f) as [ids|e] eqn:Hg.
    + apply fs_purge_loop_error.
    + discriminate Hg.
  - unfold Database.Purge.
    destruct (Database.GetExpiredPastes now N d) as [ids|e] eqn:Hg.
    + apply db_purge_loop_error.
    + cbn. unfold Database.GetExpiredPastes in Hg.
      destruct (Database.read_error d); [injection Hg as <-; discriminate|].
      destruct (Database.sql_limit d N _); [injection Hg as <-; discriminate | discriminate].
Qed.

Lemma X8_purge_batch_bound_witness :
  fst (Filesystem.Purge 100 1 fs_three) = (1%Z, None)
  /\ fst (Database.Purge 100 1 db_three) = (1%Z, None)
  /\ (0 <= fst (fst (Filesystem.Purge 100 1 fs_three)) <= 1)%Z
  /\ (0 <= fst (fst (Database.Purge 100 1 db_three)) <= 1)%Z.
Proof.
  split; [vm_compute; reflexivity|]. split; [vm_compute; reflexivity|].
  assert (HN : (1 <= 1)%Z) by lia.
  destruct (X8_purge_batch_bound 100 1 fs_three db_three HN) as (_ & _ & H1 & H2 & _).
  split; assumption.
Defined.

Section PurgeHealthy.
Import Errors Model.
Local Open Scope Z_scope.

(** On a filesystem without faults a delete succeeds or reports that the
    paste is absent; either way the paste is absent afterwards and no file
    has appeared. *)
Lemma fs_DeletePaste_healthy (id : string) (f : Filesystem.t) :
  fs_healthy f ->
  (fst (Filesystem.DeletePaste id f) = None
   \/ fst (Filesystem.DeletePaste id f) = Some ErrPasteNotFound)
  /\ fs_healthy (snd (Filesystem.DeletePaste id f))
  /\ Filesystem.baseDir (snd (Filesystem.DeletePaste id f)) = Filesystem.baseDir f
  /\ Filesystem.PasteExists id (snd (Filesystem.DeletePaste id f)) = false
  /\ (forall k, Filesystem.files f !! k = None ->
                Filesystem.files (snd (Filesystem.DeletePaste id f)) !! k = None).
Proof.
  intros Hh. destruct (Filesystem.PasteExists id f) eqn:Hex.
  - pose proof (fs_gone_after_delete f id Hh Hex) as Hgone.
    rewrite (fs_DeletePaste_present f id Hh Hex) in *. cbn [fst snd] in *.
    split; [now left|]. split; [exact Hh|]. split; [reflexivity|]. split; [exact Hgone|].
    intros k Hk. cbn [Filesystem.files Filesystem.with_files].
    apply lookup_delete_None. right. apply map_lookup_filter_None. now left.
  - rewrite (fs_DeletePaste_absent f id Hex). cbn [fst snd].
    split; [now right|]. split; [exact Hh|]. split; [reflexivity|]. split; [exact Hex|].
    intros k Hk. exact Hk.
Qed.

Lemma fs_PasteExists_stays_false (id : string) (f f' : Filesystem.t) :
  Filesystem.baseDir f' = Filesystem.baseDir f ->
  (forall k, Filesystem.files f !! k = None -> Filesystem.files f' !! k = None) ->
  Filesystem.PasteExists id f = false -> Filesystem.PasteExists id f' = false.
Proof.
  intros Hb Hmono Hex. apply PasteExists_false in Hex. apply PasteExists_false.
  assert (Hp : Filesystem.pastePath f' id = Filesystem.pastePath f id)
    by (unfold Filesystem.pastePath; now rewrite Hb).
  rewrite Hp. now apply Hmono.
Qed.

Lemma fs_purge_loop_healthy (ids : list string) (count : Z) (f : Filesystem.t) :
  fs_healthy f ->
  fst (Filesystem.purge_loop ids count f) = (count + Z.of_nat (length ids), None)
  /\ (forall id, In id ids \/ Filesystem.PasteExists id f = false ->
                 Filesystem.PasteExists id (snd (Filesystem.purge_loop ids count f)) = false).
Proof.
  revert count f. induction ids as [|id ids IH]; intros count f Hh.
  - cbn. split; [f_equal; lia|]. intros id [[]|H]. exact H.
  - cbn [Filesystem.purge_loop].
    destruct (fs_DeletePaste_healthy id f Hh) as (Hres & Hh' & Hb & Hgone & Hmono).
    destruct (Filesystem.DeletePaste id f) as [e f'] eqn:Hdel. cbn [fst snd] in *.
    assert (Hnext : fst (Filesystem.purge_loop ids (count + 1) f')
                    = (count + Z.of_nat (length (id :: ids)), None)
                    /\ (forall id0, In id0 (id :: ids) \/ Filesystem.PasteExists id0 f = false ->
                          Filesystem.PasteExists id0
                            (snd (Filesystem.purge_loop ids (count + 1) f')) = false)).
    { destruct (IH (count + 1) f' Hh') as [Hc Hall]. split.
      - rewrite Hc. f_equal. cbn [length]. lia.
      - intros id0 [[<-|Hin]|Hex]; apply Hall.
        + now right.
        + now left.
        + right. eapply fs_PasteExists_stays_false; eauto. }
    destruct Hres as [->| ->]; exact Hnext.
Qed.

Lemma db_DeletePaste_healthy (id : string) (d : Database.t) :
  db_healthy d ->
  (fst (Database.DeletePaste id d) = None
   \/ fst (Database.DeletePaste id d) = Some ErrPasteNotFound)
  /\ db_healthy (snd (Database.DeletePaste id d))
  /\ Database.paste (snd (Database.DeletePaste id d)) = delete id (Database.paste d).
Proof.
  intros Hh. destruct (Database.paste d !! id) as [row|] eqn:Hrow.
  - rewrite (db_DeletePaste_present d id Hh) by eauto. cbn [fst snd].
    split; [now left|]. split; [exact Hh | reflexivity].
  - rewrite (db_DeletePaste_absent d id Hh Hrow). cbn [fst snd].
    split; [now right|]. split; [exact Hh|]. symmetry. now apply delete_id.
Qed.

Lemma db_purge_loop_healthy (ids : list string) (count : Z) (d : Database.t) :
  db_healthy d ->
  fst (Database.purge_loop ids count d) = (count + Z.of_nat (length ids), None)
  /\ db_healthy (snd (Database.purge_loop ids count d))
  /\ (forall id, Database.paste (snd (Database.purge_loop ids count d)) !! id =
                 if bool_decide (id ∈ ids) then None else Database.paste d !! id).
Proof.
  revert count d. induction ids as [|id ids IH]; intros count d Hh.
  - cbn. split; [f_equal; lia|]. split; [exact Hh|]. intros id.
    rewrite bool_decide_eq_false_2 by apply not_elem_of_nil. reflexivity.
  - cbn [Database.purge_loop].
    destruct (db_DeletePaste_healthy id d Hh) as (Hres & Hh' & Hp).
    destruct (Database.DeletePaste id d) as [e d'] eqn:Hdel. cbn [fst snd] in *.
    assert (Hnext : fst (Database.purge_loop ids (count + 1) d')
                    = (count + Z.of_nat (length (id :: ids)), None)
                    /\ db_healthy (snd (Database.purge_loop ids (count + 1) d'))
                    /\ (forall id0,
                           Database.paste (snd (Database.purge_loop ids (count + 1) d')) !! id0 =
                           if bool_decide (id0 ∈ id :: ids) then None
                           else Database.paste d !! id0)).
    { destruct (IH (count + 1) d' Hh') as (Hc & Hh'' & Hall). split; [|split; [exact Hh''|]].
      - rewrite Hc. f_equal. cbn [length]. lia.
      - intros id0. rewrite Hall, Hp.
        destruct (decide (id0 ∈ ids)) as [Hin|Hnin].
        + rewrite !bool_decide_eq_true_2; [reflexivity | now apply elem_of_cons; right | exact Hin].
        + rewrite (bool_decide_eq_false_2 (id0 ∈ ids)) by exact Hnin.
          destruct (decide (id = id0)) as [->|Hne].
          * rewrite bool_decide_eq_true_2 by (apply elem_of_cons; now left).
            apply lookup_delete_eq.
          * rewrite bool_decide_eq_false_2.
            -- now apply lookup_delete_ne.
            -- intros Hin. apply elem_of_cons in Hin as [->|Hin]; [now apply Hne | contradiction]. }
    destruct Hres as [->| ->]; exact Hnext.
Qed.

Lemma db_scan_expired (now N : Z) (d : Database.t) (ids : list string) (id : string) :
  Database.GetExpiredPastes now N d = Ok ids -> In id ids ->
  exists row, Database.paste d !! id = Some row /\ Database.row_expired now row = true.
Proof.
  unfold Database.GetExpiredPastes. destruct (Database.read_error d); [discriminate|].
  destruct (Database.sql_limit d N _) as [e|rows] eqn:Hl; [discriminate|].
  intros [= <-] Hin. apply in_map_iff in Hin as ([k row] & <- & Hin).
  assert (Hsub : In (k, row)
                   (List.filter (fun kv => Database.row_expired now kv.2)
                                (Table.entries (Database.paste d)))).
  { unfold Database.sql_limit in Hl. destruct (N <? 0).
    - destruct (Database.drv d); try discriminate; now injection Hl as <-.
    - injection Hl as <-. rewrite <- (firstn_skipn (Z.to_nat N)). apply in_or_app. now left. }
  apply filter_In in Hsub as [Hin' Hexp]. exists row. split; [|exact Hexp].
  apply list_elem_of_In, elem_of_entries in Hin'. exact Hin'.
Qed.

End PurgeHealthy.

(** X9. On backends without faults, [Purge] reports no error, returns the
    number of ids the scan listed, and none of the listed ids names a paste
    afterwards. *)
Theorem X9_purge_removes_listed (now N : Z) (f : Filesystem.t) (d : Database.t)
  (idsf idsd : list string)
  (Hf : fs_healthy f) (Hd : db_healthy d)
  (Hgf : Filesystem.GetExpiredPastes now N f = Errors.Ok idsf)
  (Hgd : Database.GetExpiredPastes now N d = Errors.Ok idsd) :
  (fst (Filesystem.Purge now N f) = (Z.of_nat (length idsf), None)
   /\ forall id, In id idsf -> Filesystem.PasteExists id (snd (Filesystem.Purge now N f)) = false)
  /\ (fst (Database.Purge now N d) = (Z.of_nat (length idsd), None)
      /\ forall id, In id idsd -> Database.PasteExists id (snd (Database.Purge now N d)) = false).
Proof.
  split.
  - unfold Filesystem.Purge. rewrite Hgf.
    destruct (fs_purge_loop_healthy idsf 0 f Hf) as [Hc Hall]. split; [exact Hc|].
    intros id Hin. apply Hall. now left.
  - unfold Database.Purge. rewrite Hgd.
    destruct (db_purge_loop_healthy idsd 0 d Hd) as (Hc & Hh & Hall). split; [exact Hc|].
    intros id Hin. apply db_PasteExists_false; [exact Hh|]. rewrite Hall.
    rewrite bool_decide_eq_true_2; [reflexivity | now apply list_elem_of_In].
Qed.

Lemma X9_purge_removes_listed_witness :
  fst (Filesystem.Purge 100 10 fs_three) = (2%Z, None)
  /\ Filesystem.PasteExists id_a (snd (Filesystem.Purge 100 10 fs_three)) = false
  /\ fst (Database.Purge 100 10 db_three) = (2%Z, None)
  /\ Database.PasteExists id_b (snd (Database.Purge 100 10 db_three)) = false.
Proof.
  assert (Hf : fs_healthy fs_three) by (vm_compute; reflexivity).
  assert (Hd : db_healthy db_three) by (vm_compute; reflexivity).
  assert (Hgf : Filesystem.GetExpiredPastes 100 10 fs_three = Errors.Ok [id_a; id_b])
    by (vm_compute; reflexivity).
  assert (Hgd : Database.GetExpiredPastes 100 10 db_three = Errors.Ok [id_a; id_b])
    by (vm_compute; reflexivity).
  destruct (X9_purge_removes_listed 100 10 fs_three db_three _ _ Hf Hd Hgf Hgd)
    as [[H1 H2] [H3 H4]].
  split; [exact H1|]. split; [apply H2; now left|]. split; [exact H3|].
  apply H4. right. now left.
Defined.

Section PurgeKeeps.
Import Errors Model.
Local Open Scope Z_scope.

(** Whatever the state of the connection, a delete either changes nothing
    or removes the paste row and the comments of that paste. *)
Lemma db_DeletePaste_effect (id : string) (d : Database.t) :
  snd (Database.DeletePaste id d) = d
  \/ (Database.paste (snd (Database.DeletePaste id d)) = delete id (Database.paste d)
      /\ Database.comment (snd (Database.DeletePaste id d))
         = filter (fun kv => Database.cr_pasteid kv.2 <> id) (Database.comment d)).
Proof.
  unfold Database.DeletePaste.
  destruct (Database.read_error d); [now left|].
  destruct (Database.write_error d); [now left|].
  destruct (Database.paste d !! id); cbn; [right; split; reflexivity | now left].
Qed.

Lemma db_purge_loop_keeps (ids : list string) (count : Z) (d : Database.t) :
  (forall id row, ~ In id ids -> Database.paste d !! id = Some row ->
                  Database.paste (snd (Database.purge_loop ids count d)) !! id = Some row)
  /\ (forall cid crow, ~ In (Database.cr_pasteid crow) ids ->
                       Database.comment d !! cid = Some crow ->
                       Database.comment (snd (Database.purge_loop ids count d)) !! cid
                       = Some crow).
Proof.
  revert count d. induction ids as [|id ids IH]; intros count d;
    [split; intros; assumption|].
  cbn [Database.purge_loop].
  pose proof (db_DeletePaste_effect id d) as Heff.
  destruct (Database.DeletePaste id d) as [e d'] eqn:Hdel. cbn [snd] in Heff.
  assert (Hkeep1 : forall id0 row, ~ In id0 (id :: ids) -> Database.paste d !! id0 = Some row ->
                                   Database.paste d' !! id0 = Some row).
  { intros id0 row Hnin Hrow. destruct Heff as [->|[-> _]]; [exact Hrow|].
    rewrite lookup_delete_ne; [exact Hrow|]. intros ->. apply Hnin. now left. }
  assert (Hkeep2 : forall cid crow, ~ In (Database.cr_pasteid crow) (id :: ids) ->
                                    Database.comment d !! cid = Some crow ->
                                    Database.comment d' !! cid = Some crow).
  { intros cid crow Hnin Hrow. destruct Heff as [->|[_ ->]]; [exact Hrow|].
    apply map_lookup_filter_Some. split; [exact Hrow|]. cbn. intros Heq. apply Hnin. now left. }
  assert (Hrest : (forall id0 row, ~ In id0 (id :: ids) -> Database.paste d !! id0 = Some row ->
                     Database.paste (snd (Database.purge_loop ids (count + 1) d')) !! id0
                     = Some row)
                  /\ (forall cid crow, ~ In (Database.cr_pasteid crow) (id :: ids) ->
                        Database.comment d !! cid = Some crow ->
                        Database.comment (snd (Database.purge_loop ids (count + 1) d')) !! cid
                        = Some crow)).
  { destruct (IH (count + 1) d') as [H1 H2]. split.
    - intros id0 row Hnin Hrow. apply H1; [intros Hin; apply Hnin; now right|]. now apply Hkeep1.
    - intros cid crow Hnin Hrow. apply H2; [intros Hin; apply Hnin; now right|].
      now apply Hkeep2. }
  destruct e as [e|]; [|exact Hrest].
  destruct e; try (cbn [snd]; split; [exact Hkeep1 | exact Hkeep2]). exact Hrest.
Qed.

End PurgeKeeps.

(** X10. Relational backend: [Purge] removes no paste row that is not
    expired (expiration NULL, 0, negative, or not before [now]), and no
    comment of a paste that is not expired, whatever the batch size and the
    state of the connection. *)
Theorem X10_database_purge_keeps_live (now N : Z) (d : Database.t) :
  (forall id row, Database.paste d !! id = Some row ->
                  Database.row_expired now row = false ->
                  Database.paste (snd (Database.Purge now N d)) !! id = Some row)
  /\ (forall cid crow, Database.comment d !! cid = Some crow ->
                       (forall row, Database.paste d !! Database.cr_pasteid crow = Some row ->
                                    Database.row_expired now row = false) ->
                       Database.comment (snd (Database.Purge now N d)) !! cid = Some crow).
Proof.
  unfold Database.Purge.
  destruct (Database.GetExpiredPastes now N d) as [ids|e] eqn:Hg;
    [|split; intros; assumption].
  destruct (db_purge_loop_keeps ids 0 d) as [H1 H2]. split.
  - intros id row Hrow Hlive. apply H1; [|exact Hrow]. intros Hin.
    destruct (db_scan_expired now N d ids id Hg Hin) as (row' & Hrow' & Hexp). congruence.
  - intros cid crow Hrow Hlive. apply H2; [|exact Hrow]. intros Hin.
    destruct (db_scan_expired now N d ids _ Hg Hin) as (row' & Hrow' & Hexp).
    specialize (Hlive row' Hrow'). congruence.
Qed.

(** ** Identifiers and tokens: formats *)

Section Formats.
Import GoStrings Errors Util.
Local Open Scope Z_scope.

Lemma hex_digit_id_char (v : Z) : 0 <= v < 16 -> In (hex_digit v) id_chars.
Proof.
  intros Hv. rewrite <- (Z2Nat.id v) by lia.
  assert (Hn : (Z.to_nat v < 16)%nat) by lia. revert Hn. generalize (Z.to_nat v). intros n Hn.
  do 16 (destruct n as [|n]; [vm_compute; tauto|]). lia.
Qed.

Lemma hex_string_shape (bs : list Z) :
  Forall is_byte bs ->
  String.length (hex_EncodeToString bs) = (2 * length bs)%nat
  /\ Forall (fun c => In c id_chars) (list_ascii_of_string (hex_EncodeToString bs)).
Proof.
  induction 1 as [|b bs Hb Hbs [IHlen IHall]]; [split; [reflexivity | constructor]|].
  cbn [hex_EncodeToString String.length list_ascii_of_string length]. split; [lia|].
  unfold is_byte in Hb.
  constructor; [|constructor; [|exact IHall]]; apply hex_digit_id_char.
  - rewrite Z.shiftr_div_pow2 by lia. change (2 ^ 4) with 16.
    split; [apply Z.div_pos; lia | apply Z.div_lt_upper_bound; lia].
  - change 15 with (Z.ones 4). rewrite Z.land_ones by lia. change (2 ^ 4) with 16.
    apply Z.mod_pos_bound. lia.
Qed.

Lemma land_255_is_byte (x : Z) : is_byte (Z.land x 255).
Proof.
  unfold is_byte. change 255 with (Z.ones 8). rewrite Z.land_ones by lia.
  apply Z.mod_pos_bound. reflexivity.
Qed.

Lemma be_bytes_shape (n : nat) (x : Z) :
  length (be_bytes n x) = n /\ Forall is_byte (be_bytes n x).
Proof.
  revert x. induction n as [|n IH]; intros x; [split; [reflexivity | constructor]|].
  cbn [be_bytes]. destruct (IH (Z.shiftr x 8)) as [Hl Hb]. split.
  - rewrite length_app, Hl. cbn. lia.
  - apply Forall_app. split; [exact Hb|]. constructor; [apply land_255_is_byte | constructor].
Qed.

Lemma sha256_round_length (st : list Z) (kw : Z * Z) :
  length (sha256_round st kw) = length st.
Proof.
  unfold sha256_round.
  destruct st as [|a [|b [|c [|d [|e [|f' [|g [|h [|i st]]]]]]]]]; reflexivity.
Qed.

Lemma sha256_block_length (st block : list Z) :
  length (sha256_block st block) = length st.
Proof.
  unfold sha256_block. rewrite length_map, length_combine.
  assert (H : forall kws s, length (fold_left sha256_round kws s) = length s).
  { induction kws as [|kw kws IH]; intros s; [reflexivity|]. cbn [fold_left].
    now rewrite IH, sha256_round_length. }
  rewrite H. lia.
Qed.

Lemma sha256_blocks_length (n : nat) (st bs : list Z) :
  length (sha256_blocks n st bs) = length st.
Proof.
  revert st bs. induction n as [|n IH]; intros st bs; [reflexivity|].
  cbn [sha256_blocks]. now rewrite IH, sha256_block_length.
Qed.

Lemma flat_map_be_bytes_shape (ws : list Z) :
  length (flat_map (be_bytes 4) ws) = (4 * length ws)%nat
  /\ Forall is_byte (flat_map (be_bytes 4) ws).
Proof.
  induction ws as [|w ws [IHl IHb]]; [split; [reflexivity | constructor]|].
  cbn [flat_map]. destruct (be_bytes_shape 4 w) as [Hl Hb]. split.
  - rewrite length_app, Hl, IHl. cbn [length]. lia.
  - apply Forall_app. split; assumption.
Qed.

(** A SHA-256 digest is 32 bytes. *)
Lemma sha256_shape (msg : list Z) :
  length (sha256 msg) = 32%nat /\ Forall is_byte (sha256 msg).
Proof.
  unfold sha256. destruct (flat_map_be_bytes_shape
                             (sha256_blocks (length (sha256_pad msg) / 64) sha256_init
                                            (sha256_pad msg))) as [Hl Hb].
  split; [|exact Hb]. rewrite Hl, sha256_blocks_length. reflexivity.
Qed.

Lemma firstn_pad_shape (n : nat) (b : list Z) :
  Forall is_byte b ->
  length (firstn n (b ++ repeat 0 n)) = n /\ Forall is_byte (firstn n (b ++ repeat 0 n)).
Proof.
  intros Hb. split.
  - rewrite length_firstn, length_app, repeat_length. lia.
  - apply Forall_take, Forall_app. split; [exact Hb|].
    apply Forall_forall. intros x Hx. apply list_elem_of_In, repeat_spec in Hx. subst.
    unfold is_byte. lia.
Qed.

End Formats.

(** X11. When the random source delivers bytes, [GenerateID] returns a
    string that [ValidateID] accepts (16 characters from [a-f0-9]); when the
    source fails it returns an error and no id. *)
Theorem X11_generated_id_is_valid (random : list Z)
  (Hbytes : Forall is_byte random) :
  (exists id, Util.GenerateID (Some random) = Errors.Ok id
              /\ Util.ValidateID id = true
              /\ Util.ValidateIDOrError id = None)
  /\ (exists e, Util.GenerateID None = Errors.Err e).
Proof.
  split; [|eexists; reflexivity].
  unfold Util.GenerateID, Util.RandomHex, Util.RandomBytes. eexists. split; [reflexivity|].
  destruct (firstn_pad_shape (Util.IDLength / 2) random Hbytes) as [Hl Hb].
  destruct (hex_string_shape _ Hb) as [Hlen Hall].
  assert (Hv : Util.ValidateID
                 (Util.hex_EncodeToString
                    (firstn (Util.IDLength / 2) (random ++ repeat 0%Z (Util.IDLength / 2))))
               = true).
  { apply ValidateID_consume, consume_all. split; [|exact Hall]. rewrite Hlen, Hl. reflexivity. }
  split; [exact Hv|]. unfold Util.ValidateIDOrError. now rewrite Hv.
Qed.

Lemma X11_generated_id_is_valid_witness :
  Util.GenerateID (Some [244; 104; 72; 60; 49; 52; 1; 232]%Z) = Errors.Ok "f468483c313401e8"
  /\ exists id, Util.GenerateID (Some [244; 104; 72; 60; 49; 52; 1; 232]%Z) = Errors.Ok id
                /\ Util.ValidateID id = true /\ Util.ValidateIDOrError id = None.
Proof.
  split; [vm_compute; reflexivity|].
  assert (Hb : Forall is_byte [244; 104; 72; 60; 49; 52; 1; 232]%Z)
    by (repeat constructor; unfold is_byte; lia).
  exact (proj1 (X11_generated_id_is_valid _ Hb)).
Defined.



(** ** Base64: decoding what was encoded *)

Section Base64.
Import GoStrings Errors Util.
Local Open Scope Z_scope.

Lemma land_mul_pow2_small (a b k : Z) :
  0 <= k -> 0 <= b < 2 ^ k -> Z.land (a * 2 ^ k) b = 0.
Proof.
  intros Hk Hb. apply Z.bits_inj'. intros n Hn. rewrite Z.land_spec, Z.bits_0.
  destruct (Z.lt_ge_cases n k) as [Hlt|Hge].
  - rewrite Z.mul_pow2_bits_low by lia. reflexivity.
  - destruct (Z.eq_dec b 0) as [->|Hne]; [now rewrite Z.bits_0, andb_false_r|].
    rewrite (Z.bits_above_log2 b n); [apply andb_false_r | lia|].
    assert (Z.log2 b < k) by (apply Z.log2_lt_pow2; lia). lia.
Qed.

Lemma lor_mul_pow2 (a b k : Z) :
  0 <= k -> 0 <= b < 2 ^ k -> Z.lor (a * 2 ^ k) b = a * 2 ^ k + b.
Proof.
  intros Hk Hb. pose proof (Z.add_lor_land (a * 2 ^ k) b) as H.
  rewrite (land_mul_pow2_small a b k Hk Hb) in H. lia.
Qed.

Lemma decodeMap_encode_char (v : Z) : 0 <= v < 64 -> decodeMap (encode_char v) = Some v.
Proof.
  intros Hv. rewrite <- (Z2Nat.id v) by lia.
  assert (Hn : (Z.to_nat v < 64)%nat) by lia. revert Hn. generalize (Z.to_nat v). intros n Hn.
  do 64 (destruct n as [|n]; [vm_compute; reflexivity|]). lia.
Qed.

(** The value [decodeQuantum] assembles from four six-bit values. *)
Lemma quantum_value (s0 s1 s2 s3 : Z) :
  0 <= s0 < 64 -> 0 <= s1 < 64 -> 0 <= s2 < 64 -> 0 <= s3 < 64 ->
  Z.lor (Z.lor (Z.shiftl s0 18) (Z.shiftl s1 12)) (Z.lor (Z.shiftl s2 6) s3)
  = s0 * 262144 + s1 * 4096 + s2 * 64 + s3.
Proof.
  intros H0 H1 H2 H3. rewrite !Z.shiftl_mul_pow2 by lia.
  rewrite (lor_mul_pow2 s2 s3 6) by (change (2 ^ 6) with 64; lia).
  rewrite (lor_mul_pow2 s0 (s1 * 2 ^ 12) 18)
    by (change (2 ^ 18) with 262144; change (2 ^ 12) with 4096; lia).
  replace (s0 * 2 ^ 18 + s1 * 2 ^ 12) with ((s0 * 64 + s1) * 2 ^ 12)
    by (change (2 ^ 18) with 262144; change (2 ^ 12) with 4096; lia).
  rewrite lor_mul_pow2 by (change (2 ^ 12) with 4096; change (2 ^ 6) with 64; lia).
  change (2 ^ 12) with 4096. change (2 ^ 6) with 64. lia.
Qed.

(** The four six-bit values [EncodeToString] makes of three bytes. *)
Lemma sextets (b0 b1 b2 : Z) :
  is_byte b0 -> is_byte b1 -> is_byte b2 ->
  Z.shiftr b0 2 = b0 / 4
  /\ Z.land (Z.lor (Z.shiftl b0 4) (Z.shiftr b1 4)) 63 = 16 * (b0 mod 4) + b1 / 16
  /\ Z.land (Z.lor (Z.shiftl b1 2) (Z.shiftr b2 6)) 63 = 4 * (b1 mod 16) + b2 / 64
  /\ Z.land b2 63 = b2 mod 64.
Proof.
  unfold is_byte. intros H0 H1 H2.
  rewrite !Z.shiftr_div_pow2, !Z.shiftl_mul_pow2 by lia.
  change 63 with (Z.ones 6). rewrite !Z.land_ones by lia.
  assert (Ha : 0 <= b1 / 2 ^ 4 < 2 ^ 4).
  { change (2 ^ 4) with 16. split; [apply Z.div_pos | apply Z.div_lt_upper_bound]; lia. }
  assert (Hb : 0 <= b2 / 2 ^ 6 < 2 ^ 2).
  { change (2 ^ 6) with 64. change (2 ^ 2) with 4.
    split; [apply Z.div_pos | apply Z.div_lt_upper_bound]; lia. }
  rewrite (lor_mul_pow2 b0 (b1 / 2 ^ 4) 4) by (try lia; exact Ha).
  rewrite (lor_mul_pow2 b1 (b2 / 2 ^ 6) 2) by (try lia; exact Hb).
  change (2 ^ 2) with 4 in *. change (2 ^ 4) with 16 in *. change (2 ^ 6) with 64 in *.
  repeat split; try reflexivity.
  - Z.div_mod_to_equations. lia.
  - Z.div_mod_to_equations. lia.
Qed.

Lemma sextet_ranges (b0 b1 b2 : Z) :
  is_byte b0 -> is_byte b1 -> is_byte b2 ->
  0 <= b0 / 4 < 64 /\ 0 <= 16 * (b0 mod 4) + b1 / 16 < 64
  /\ 0 <= 4 * (b1 mod 16) + b2 / 64 < 64 /\ 0 <= b2 mod 64 < 64.
Proof. unfold is_byte. intros. repeat split; Z.div_mod_to_equations; lia. Qed.

Lemma quantum_bytes_3 (b0 b1 b2 : Z) :
  is_byte b0 -> is_byte b1 -> is_byte b2 ->
  quantum_bytes [b0 / 4; 16 * (b0 mod 4) + b1 / 16; 4 * (b1 mod 16) + b2 / 64; b2 mod 64]
  = [b0; b1; b2].
Proof.
  intros H0 H1 H2. destruct (sextet_ranges b0 b1 b2 H0 H1 H2) as (R0 & R1 & R2 & R3).
  unfold quantum_bytes. cbn [nth length Nat.sub firstn].
  rewrite quantum_value by assumption.
  rewrite !Z.shiftr_div_pow2 by lia. change 255 with (Z.ones 8). rewrite !Z.land_ones by lia.
  change (2 ^ 16) with 65536. change (2 ^ 8) with 256.
  unfold is_byte in *. f_equal; [|f_equal; [|f_equal]]; Z.div_mod_to_equations; lia.
Qed.

Lemma quantum_bytes_2 (b0 b1 : Z) :
  is_byte b0 -> is_byte b1 ->
  quantum_bytes [b0 / 4; 16 * (b0 mod 4) + b1 / 16; 4 * (b1 mod 16)] = [b0; b1].
Proof.
  intros H0 H1.
  assert (Hz : is_byte 0) by (unfold is_byte; lia).
  destruct (sextet_ranges b0 b1 0 H0 H1 Hz) as (R0 & R1 & R2 & _).
  change (0 / 64) with 0 in R2. rewrite Z.add_0_r in R2.
  unfold quantum_bytes. cbn [nth length Nat.sub firstn].
  rewrite quantum_value by (try assumption; lia).
  rewrite !Z.shiftr_div_pow2 by lia. change 255 with (Z.ones 8). rewrite !Z.land_ones by lia.
  change (2 ^ 16) with 65536. change (2 ^ 8) with 256.
  unfold is_byte in *. f_equal; [|f_equal]; Z.div_mod_to_equations; lia.
Qed.

Lemma quantum_bytes_1 (b0 : Z) :
  is_byte b0 -> quantum_bytes [b0 / 4; 16 * (b0 mod 4)] = [b0].
Proof.
  intros H0.
  assert (Hz : is_byte 0) by (unfold is_byte; lia).
  destruct (sextet_ranges b0 0 0 H0 Hz Hz) as (R0 & R1 & _ & _).
  change (0 / 16) with 0 in R1. rewrite Z.add_0_r in R1.
  unfold quantum_bytes. cbn [nth length Nat.sub firstn].
  rewrite quantum_value by (try assumption; lia).
  rewrite !Z.shiftr_div_pow2 by lia. change 255 with (Z.ones 8). rewrite !Z.land_ones by lia.
  change (2 ^ 16) with 65536.
  unfold is_byte in *. f_equal. Z.div_mod_to_equations. lia.
Qed.

(** One step of the decoder on a character of the alphabet. *)
Lemma decode_from_value (v : Z) (rest : list ascii) (dbuf : list Z) :
  0 <= v < 64 ->
  decode_from (encode_char v :: rest) dbuf =
  if (length (dbuf ++ [v]) =? 4)%nat
  then option_map (app (quantum_bytes (dbuf ++ [v]))) (decode_from rest [])
  else decode_from rest (dbuf ++ [v]).
Proof. intros Hv. cbn [decode_from]. now rewrite decodeMap_encode_char. Qed.

Lemma decode_from_pad2 (s0 s1 : Z) :
  decode_from (list_ascii_of_string "==") [s0; s1] = Some (quantum_bytes [s0; s1]).
Proof. reflexivity. Qed.

Lemma decode_from_pad1 (s0 s1 s2 : Z) :
  decode_from (list_ascii_of_string "=") [s0; s1; s2] = Some (quantum_bytes [s0; s1; s2]).
Proof. reflexivity. Qed.

Lemma base64_round_trip_aux (n : nat) :
  forall bs, (length bs <= n)%nat -> Forall is_byte bs ->
             decode_from (list_ascii_of_string (EncodeToString bs)) [] = Some bs.
Proof.
  induction n as [|n IH]; intros bs Hlen Hb.
  { destruct bs; [reflexivity | cbn in Hlen; lia]. }
  destruct bs as [|b0 [|b1 [|b2 rest]]].
  - reflexivity.
  - inversion Hb as [|? ? H0 _]; subst.
    assert (Hz : is_byte 0) by (unfold is_byte; lia).
    destruct (sextets b0 0 0 H0 Hz Hz) as (E0 & E1 & _ & _).
    destruct (sextet_ranges b0 0 0 H0 Hz Hz) as (R0 & R1 & _ & _).
    cbn [EncodeToString list_ascii_of_string].
    replace (Z.land (Z.shiftl b0 4) 63) with (16 * (b0 mod 4)).
    2:{ rewrite <- (Z.lor_0_r (Z.shiftl b0 4)). change 0 with (Z.shiftr 0 4) at 1.
        rewrite E1. change (0 / 16) with 0. lia. }
    change (0 / 16) with 0 in R1. rewrite Z.add_0_r in R1.
    rewrite E0, !decode_from_value by assumption. cbn [app length Nat.eqb].
    now rewrite decode_from_pad2, quantum_bytes_1.
  - inversion Hb as [|? ? H0 Hb']; subst. inversion Hb' as [|? ? H1 _]; subst.
    assert (Hz : is_byte 0) by (unfold is_byte; lia).
    destruct (sextets b0 b1 0 H0 H1 Hz) as (E0 & E1 & E2 & _).
    destruct (sextet_ranges b0 b1 0 H0 H1 Hz) as (R0 & R1 & R2 & _).
    cbn [EncodeToString list_ascii_of_string].
    replace (Z.land (Z.shiftl b1 2) 63) with (4 * (b1 mod 16)).
    2:{ rewrite <- (Z.lor_0_r (Z.shiftl b1 2)). change 0 with (Z.shiftr 0 6) at 1.
        rewrite E2. change (0 / 64) with 0. lia. }
    change (0 / 64) with 0 in R2. rewrite Z.add_0_r in R2.
    rewrite E0, E1, !decode_from_value by assumption. cbn [app length Nat.eqb].
    now rewrite decode_from_pad1, quantum_bytes_2.
  - inversion Hb as [|? ? H0 Hb']; subst. inversion Hb' as [|? ? H1 Hb'']; subst.
    inversion Hb'' as [|? ? H2 Hrest]; subst.
    destruct (sextets b0 b1 b2 H0 H1 H2) as (E0 & E1 & E2 & E3).
    destruct (sextet_ranges b0 b1 b2 H0 H1 H2) as (R0 & R1 & R2 & R3).
    cbn [EncodeToString list_ascii_of_string].
    rewrite E0, E1, E2, E3, !decode_from_value by assumption. cbn [app length Nat.eqb].
    rewrite quantum_bytes_3 by assumption.
    rewrite IH; [reflexivity | cbn [length] in Hlen; lia | exact Hrest].
Qed.

End Base64.

(** X13. Standard base64: decoding the encoding of a byte slice gives the
    slice back; hence a salt made by [GenerateSalt] is always accepted by
    [GenerateDeleteToken], which keys the HMAC with the bytes the random
    source delivered. *)
Theorem X13_base64_round_trip (bs : list Z) (pasteID : string)
  (Hbytes : Forall is_byte bs) :
  Util.DecodeString (Util.EncodeToString bs) = Some bs
  /\ exists salt,
       Util.GenerateSalt (Some bs) = Errors.Ok salt
       /\ Util.GenerateDeleteToken pasteID salt
          = Errors.Ok (Util.hex_EncodeToString
                         (Util.hmac_sha256 bs (GoStrings.bytes_of_string pasteID))).
Proof.
  assert (Hrt : Util.DecodeString (Util.EncodeToString bs) = Some bs)
    by (apply (base64_round_trip_aux (length bs)); [lia | exact Hbytes]).
  split; [exact Hrt|]. eexists. split; [reflexivity|].
  unfold Util.GenerateDeleteToken. now rewrite Hrt.
Qed.

Lemma X13_base64_round_trip_witness :
  Util.EncodeToString (seq_bytes 32) = "AAECAwQFBgcICQoLDA0ODxAREhMUFRYXGBkaGxwdHh8="
  /\ Util.DecodeString (Util.EncodeToString (seq_bytes 32)) = Some (seq_bytes 32).
Proof.
  split; [vm_compute; reflexivity|].
  assert (Hb : Forall is_byte (seq_bytes 32)).
  { apply Forall_forall. intros x Hx. unfold seq_bytes in Hx.
    apply list_elem_of_In, in_map_iff in Hx as (n & <- & Hn). apply in_seq in Hn.
    unfold is_byte. lia. }
  exact (proj1 (X13_base64_round_trip (seq_bytes 32) "f468483c313401e8" Hb)).
Defined.
(** ** The handlers: deletion by token, the server salt, the query string *)

Section HandlerFacts.
Import Errors Util Storage Handler.
Local Open Scope Z_scope.

Lemma ValidateID_nonempty (id : string) : ValidateID id = true -> id <> "".
Proof. intros H ->. vm_compute in H. discriminate. Qed.

Lemma token_nonempty (pasteID slt token : string) :
  GenerateDeleteToken pasteID slt = Ok token -> token <> "".
Proof.
  unfold GenerateDeleteToken. destruct (DecodeString slt) as [key|]; [|discriminate].
  intros [= <-] Hempty. unfold hmac_sha256 in Hempty.
  match type of Hempty with context [hex_EncodeToString (sha256 ?m)] =>
    destruct (sha256_shape m) as [Hl Hb] end.
  destruct (hex_string_shape _ Hb) as [Hlen _].
  rewrite Hempty, Hl in Hlen. discriminate.
Qed.

Lemma EncodeToString_nonempty (bs : list Z) : bs <> [] -> EncodeToString bs <> "".
Proof. destruct bs as [|b0 [|b1 [|b2 rest]]]; [congruence | discriminate..]. Qed.

Lemma fs_GetValue_SetValue (ns key value : string) (f : Filesystem.t) :
  fs_healthy f ->
  Filesystem.GetValue ns key (snd (Filesystem.SetValue ns key value f)) = Ok value
  /\ fs_healthy (snd (Filesystem.SetValue ns key value f)).
Proof.
  intros Hf. rewrite (fs_SetValue_healthy ns key value f Hf). cbn [snd]. split; [|exact Hf].
  unfold Filesystem.GetValue, Filesystem.os_ReadFile.
  change (Filesystem.configPath (Filesystem.with_files f _) ns key)
    with (Filesystem.configPath f ns key).
  cbn [Filesystem.files Filesystem.with_files]. now rewrite lookup_insert_eq.
Qed.

Lemma db_GetValue_SetValue (ns key value : string) (d : Database.t) :
  db_healthy d ->
  Database.GetValue ns key (snd (Database.SetValue ns key value d)) = Ok value
  /\ db_healthy (snd (Database.SetValue ns key value d)).
Proof.
  intros Hd. unfold Database.SetValue, Database.GetValue. rewrite (db_healthy_write d Hd).
  cbn [snd]. split; [|exact Hd].
  assert (Hr : Database.read_error
                 (Database.with_config d (<[ns ++ "_" ++ key := value]> (Database.config d)))
               = None) by (apply db_healthy_read; exact Hd).
  rewrite Hr. cbn [Database.config Database.with_config]. now rewrite lookup_insert_eq.
Qed.

(** On a store that reads back what was set, the salt a second [initSalt]
    finds is the salt the first one installed. *)
Lemma initSalt_again {S : Type} `{Storage S} (r1 r2 : option (list Z)) (h h' : Handler S) :
  (forall value, GetValue NamespaceSalt "server"
                   (snd (SetValue NamespaceSalt "server" value (store h))) = Ok value) ->
  (forall bs, r1 = Some bs -> length bs = SaltSize) ->
  store h' = store (initSalt r1 h) ->
  salt (initSalt r2 h') = salt (initSalt r1 h) /\ store (initSalt r2 h') = store h'.
Proof.
  intros Hget Hr1 Hstore.
  assert (Hfirst : exists c s, salt (initSalt r1 h) = String c s
                               /\ GetValue NamespaceSalt "server" (store (initSalt r1 h))
                                  = Ok (String c s)).
  { unfold initSalt.
    destruct (GetValue NamespaceSalt "server" (store h)) as [[|c s]|e] eqn:Hg.
    2:{ exists c, s. cbn [store salt with_salt]. split; [reflexivity | exact Hg]. }
    all: assert (Hne : match GenerateSalt r1 with Ok slt => slt | Err _ => fallback_salt end
                       <> "")
           by (destruct r1 as [bs|]; cbn [GenerateSalt]; [|discriminate];
               apply EncodeToString_nonempty; intros ->;
               specialize (Hr1 [] eq_refl); discriminate).
    all: destruct (match GenerateSalt r1 with Ok slt => slt | Err _ => fallback_salt end)
           as [|c' s'] eqn:Hs; [congruence|].
    all: exists c', s'; cbn [store salt with_salt with_store]; split; [reflexivity|].
    all: apply Hget. }
  destruct Hfirst as (c & s & Hsalt & Hg). rewrite Hsalt.
  rewrite <- Hstore in Hg. unfold initSalt at 1 2. rewrite Hg.
  cbn [store salt with_salt]. split; reflexivity.
Qed.

Lemma indexOf_from_spec (s : string) (c : ascii) (i : Z) :
  0 <= i ->
  (indexOf_from s c i = -1 /\ ~ In c (list_ascii_of_string s))
  \/ (exists n, indexOf_from s c i = i + Z.of_nat n
                /\ (n < String.length s)%nat
                /\ String.get n s = Some c
                /\ ~ In c (list_ascii_of_string (substring 0 n s))).
Proof.
  revert i. induction s as [|x s IH]; intros i Hi; cbn [indexOf_from].
  - left. split; [reflexivity | intros []].
  - destruct (Ascii.eqb x c) eqn:Hx.
    + apply Ascii.eqb_eq in Hx. subst x. right. exists 0%nat.
      split; [lia|]. split; [cbn; lia|]. split; [reflexivity | intros []].
    + apply Ascii.eqb_neq in Hx. destruct (IH (i + 1)) as [[Hm Hnot]|(n & Hn & Hlt & Hget & Hpre)];
        [lia | |].
      * left. split; [exact Hm|]. cbn [list_ascii_of_string]. intros [Heq|Hin]; auto.
      * right. exists (Datatypes.S n). split; [lia|]. split; [cbn; lia|].
        split; [exact Hget|]. cbn [substring list_ascii_of_string]. intros [Heq|Hin]; auto.
Qed.

Lemma substring_split (n : nat) (s : string) (c : ascii) :
  String.get n s = Some c ->
  exists rest, s = substring 0 n s ++ String c rest.
Proof.
  revert s. induction n as [|n IH]; intros [|x s] Hget; try discriminate.
  - cbn in Hget. injection Hget as ->. exists s. reflexivity.
  - cbn in Hget. destruct (IH s Hget) as (rest & Hrest). exists rest.
    cbn [substring]. change (String x ?a ++ ?b) with (String x (a ++ b)). now rewrite <- Hrest.
Qed.

End HandlerFacts.

(** X14. [deletePaste] touches the store only for a request that carries a
    well-formed paste id together with the delete token of that id under the
    server salt; every other request is answered 400 or 403 and leaves the
    handler as it was.  This holds for every storage backend. *)
Theorem X14_delete_needs_token {S : Type} {St : Storage.Storage S}
  (h : Handler.Handler S) (pasteid deletetoken : option string) :
  (exists id token,
      pasteid = Some id /\ deletetoken = Some token
      /\ Util.ValidateID id = true
      /\ Util.GenerateDeleteToken id (Handler.salt h) = Errors.Ok token
      /\ Handler.store (snd (Handler.deletePaste pasteid deletetoken h))
         = snd (Storage.DeletePaste id (Handler.store h)))
  \/ (snd (Handler.deletePaste pasteid deletetoken h) = h
      /\ exists message status,
           fst (Handler.deletePaste pasteid deletetoken h) = Handler.jsonError message status
           /\ (status = 400 \/ status = 403)%Z).
Proof.
  unfold Handler.deletePaste.
  destruct pasteid as [[|c pid]|]; [right; eauto 6 | | right; eauto 6].
  destruct (Util.ValidateID (String c pid)) eqn:Hid; cbn [negb]; [|right; eauto 6].
  destruct deletetoken as [[|c' tok]|]; [right; eauto 6 | | right; eauto 6].
  destruct (Util.ValidateDeleteToken (String c' tok) (String c pid) (Handler.salt h)) eqn:Hv;
    cbn [negb]; [|right; eauto 6].
  apply ValidateDeleteToken_spec in Hv. left. exists (String c pid), (String c' tok).
  repeat (split; [first [reflexivity | assumption]|]).
  destruct (Storage.DeletePaste (String c pid) (Handler.store h)) as [[e|] st]; [destruct e|];
    reflexivity.
Qed.

(** X15. On both backends without I/O faults, a delete request with the
    id of a stored paste and the delete token of that id is answered with
    success and the paste is gone; the same request sent again is answered
    404 "Paste not found". *)
Theorem X15_delete_with_token (hf : Handler.Handler Filesystem.t)
  (hd : Handler.Handler Database.t) (id token : string)
  (Hf : fs_healthy (Handler.store hf)) (Hd : db_healthy (Handler.store hd))
  (Hid : Util.ValidateID id = true)
  (Htokf : Util.GenerateDeleteToken id (Handler.salt hf) = Errors.Ok token)
  (Htokd : Util.GenerateDeleteToken id (Handler.salt hd) = Errors.Ok token)
  (Hpf : Filesystem.PasteExists id (Handler.store hf) = true)
  (Hpd : is_Some (Database.paste (Handler.store hd) !! id)) :
  (fst (Handler.deletePaste (Some id) (Some token) hf) = Handler.jsonDeleted id
   /\ Filesystem.PasteExists id
        (Handler.store (snd (Handler.deletePaste (Some id) (Some token) hf))) = false
   /\ fst (Handler.deletePaste (Some id) (Some token)
             (snd (Handler.deletePaste (Some id) (Some token) hf)))
      = Handler.jsonError "Paste not found" 404)
  /\ (fst (Handler.deletePaste (Some id) (Some token) hd) = Handler.jsonDeleted id
      /\ Database.paste
           (Handler.store (snd (Handler.deletePaste (Some id) (Some token) hd))) !! id = None
      /\ fst (Handler.deletePaste (Some id) (Some token)
                (snd (Handler.deletePaste (Some id) (Some token) hd)))
         = Handler.jsonError "Paste not found" 404).
Proof.
  pose proof (ValidateID_nonempty id Hid) as Hidne.
  pose proof (token_nonempty _ _ _ Htokf) as Htokne.
  destruct id as [|c pid]; [congruence|]. destruct token as [|c' tok]; [congruence|].
  apply ValidateDeleteToken_spec in Htokf, Htokd.
  split.
  - assert (Hgone : Filesystem.PasteExists (String c pid)
                      (snd (Filesystem.DeletePaste (String c pid) (Handler.store hf))) = false)
      by (apply fs_gone_after_delete; assumption).
    assert (Hdel : Handler.deletePaste (Some (String c pid)) (Some (String c' tok)) hf
                   = (Handler.jsonDeleted (String c pid),
                      Handler.with_store hf
                        (snd (Filesystem.DeletePaste (String c pid) (Handler.store hf))))).
    { unfold Handler.deletePaste. rewrite Hid, Htokf. cbn [negb Storage.DeletePaste
        Storage.filesystem_storage].
      rewrite (fs_DeletePaste_present _ _ Hf Hpf). reflexivity. }
    rewrite Hdel. cbn [fst snd Handler.store Handler.with_store].
    split; [reflexivity|]. split; [exact Hgone|].
    unfold Handler.deletePaste. cbn [Handler.salt Handler.with_store Handler.store].
    rewrite Hid, Htokf. cbn [negb Storage.DeletePaste Storage.filesystem_storage].
    now rewrite (fs_DeletePaste_absent _ _ Hgone).
  - assert (Hdel : Handler.deletePaste (Some (String c pid)) (Some (String c' tok)) hd
                   = (Handler.jsonDeleted (String c pid),
                      Handler.with_store hd
                        (snd (Database.DeletePaste (String c pid) (Handler.store hd))))).
    { unfold Handler.deletePaste. rewrite Hid, Htokd. cbn [negb Storage.DeletePaste
        Storage.database_storage].
      rewrite (db_DeletePaste_present _ _ Hd Hpd). reflexivity. }
    rewrite Hdel. cbn [fst snd Handler.store Handler.with_store].
    rewrite (db_DeletePaste_present _ _ Hd Hpd). cbn [snd].
    assert (Hgone : Database.paste
                      (Database.with_paste
                         (Database.with_comment (Handler.store hd)
                            (filter (fun kv => Database.cr_pasteid kv.2 <> String c pid)
                                    (Database.comment (Handler.store hd))))
                         (delete (String c pid) (Database.paste (Handler.store hd))))
                    !! String c pid = None)
      by (cbn [Database.paste Database.with_paste]; apply lookup_delete_eq).
    split; [reflexivity|]. split; [exact Hgone|].
    unfold Handler.deletePaste. cbn [Handler.salt Handler.with_store Handler.store].
    rewrite Hid, Htokd. cbn [negb Storage.DeletePaste Storage.database_storage].
    rewrite db_DeletePaste_absent; [reflexivity | exact Hd | exact Hgone].
Qed.

Lemma X15_delete_with_token_witness :
  fst (Handler.deletePaste (Some id_a)
         (Some "5a0c6a5ff1a9d1f1c0e7e1b5a0d0d0f2f5f2a4f2b3f96c2a0b5b1d6a1f0b7a11")
         (handler_of (fs_one id_a (example_paste "ct1" 0 false false))))
  = Handler.jsonError "Invalid delete token" 403
  /\ fst (Handler.deletePaste (Some id_a)
            (Some (Util.hex_EncodeToString
                     (Util.hmac_sha256 [1%Z] (GoStrings.bytes_of_string id_a))))
            (handler_of (fs_one id_a (example_paste "ct1" 0 false false))))
     = Handler.jsonDeleted id_a.
Proof.
  split; [vm_compute; reflexivity|].
  assert (Hf : fs_healthy (fs_one id_a (example_paste "ct1" 0 false false)))
    by (vm_compute; reflexivity).
  assert (Hd : db_healthy (db_one id_a (example_paste "ct1" 0 false false)))
    by (vm_compute; reflexivity).
  assert (Hid : Util.ValidateID id_a = true) by (vm_compute; reflexivity).
  assert (Htok : Util.GenerateDeleteToken id_a "AQ=="
                 = Errors.Ok (Util.hex_EncodeToString
                                (Util.hmac_sha256 [1%Z] (GoStrings.bytes_of_string id_a))))
    by (vm_compute; reflexivity).
  assert (Hpf : Filesystem.PasteExists id_a (fs_one id_a (example_paste "ct1" 0 false false))
                = true) by (vm_compute; reflexivity).
  assert (Hpd : is_Some (Database.paste (db_one id_a (example_paste "ct1" 0 false false))
                           !! id_a)) by (vm_compute; eauto).
  exact (proj1 (proj1 (X15_delete_with_token
                         (handler_of (fs_one id_a (example_paste "ct1" 0 false false)))
                         (handler_of (db_one id_a (example_paste "ct1" 0 false false)))
                         id_a _ Hf Hd Hid Htok Htok Hpf Hpd))).
Defined.

(** X16. The server salt persists across restarts: on both backends
    without I/O faults, once [initSalt] has run (the random source
    delivering [SaltSize] bytes, or failing), a handler started later on the
    same store gets the same salt, whatever its own random source delivers,
    and does not write to the store. *)
Theorem X16_salt_persists (hf : Handler.Handler Filesystem.t)
  (hd : Handler.Handler Database.t) (r1 r2 : option (list Z))
  (Hf : fs_healthy (Handler.store hf)) (Hd : db_healthy (Handler.store hd))
  (Hr1 : forall bs, r1 = Some bs -> length bs = Util.SaltSize) :
  (forall hf', Handler.store hf' = Handler.store (Handler.initSalt r1 hf) ->
               Handler.salt (Handler.initSalt r2 hf') = Handler.salt (Handler.initSalt r1 hf)
               /\ Handler.store (Handler.initSalt r2 hf') = Handler.store hf')
  /\ (forall hd', Handler.store hd' = Handler.store (Handler.initSalt r1 hd) ->
                  Handler.salt (Handler.initSalt r2 hd') = Handler.salt (Handler.initSalt r1 hd)
                  /\ Handler.store (Handler.initSalt r2 hd') = Handler.store hd').
Proof.
  split; intros h' Hstore; apply initSalt_again; try assumption; intros value.
  - apply (fs_GetValue_SetValue _ _ value _ Hf).
  - apply (db_GetValue_SetValue _ _ value _ Hd).
Qed.

Lemma X16_salt_persists_witness :
  Handler.salt (Handler.initSalt (Some (seq_bytes 32)) (handler_of fs_empty))
  = "AAECAwQFBgcICQoLDA0ODxAREhMUFRYXGBkaGxwdHh8="
  /\ Handler.salt
       (Handler.initSalt None
          (handler_of (Handler.store
                         (Handler.initSalt (Some (seq_bytes 32)) (handler_of fs_empty)))))
     = Handler.salt (Handler.initSalt (Some (seq_bytes 32)) (handler_of fs_empty)).
Proof.
  split; [vm_compute; reflexivity|].
  assert (Hf : fs_healthy (Handler.store (handler_of fs_empty))) by (vm_compute; reflexivity).
  assert (Hd : db_healthy (Handler.store (handler_of db_empty))) by (vm_compute; reflexivity).
  assert (Hr1 : forall bs, Some (seq_bytes 32) = Some bs -> length bs = Util.SaltSize)
    by (intros bs [= <-]; reflexivity).
  exact (proj1 (proj1 (X16_salt_persists (handler_of fs_empty) (handler_of db_empty)
                         (Some (seq_bytes 32)) None Hf Hd Hr1)
                  (handler_of (Handler.store
                                 (Handler.initSalt (Some (seq_bytes 32)) (handler_of fs_empty))))
                  eq_refl)).
Defined.

(** X17. [indexOf] returns -1 exactly when the byte does not occur, and
    otherwise the position of its first occurrence; the paste id that
    [handleGet] takes from the raw query is the query up to its first
    ampersand, and holds no ampersand. *)
Theorem X17_query_paste_id (q : string) (c : ascii) :
  ((Handler.indexOf q c = -1 /\ ~ In c (list_ascii_of_string q))
   \/ (0 <= Handler.indexOf q c < Z.of_nat (String.length q)
       /\ String.get (Z.to_nat (Handler.indexOf q c)) q = Some c
       /\ ~ In c (list_ascii_of_string (substring 0 (Z.to_nat (Handler.indexOf q c)) q))))%Z
  /\ ~ In "&"%char (list_ascii_of_string (Handler.query_pasteID q))
  /\ (Handler.query_pasteID q = q
      \/ exists rest, q = Handler.query_pasteID q ++ String "&" rest).
Proof.
  assert (Hspec : forall c',
             (Handler.indexOf q c' = (-1)%Z /\ ~ In c' (list_ascii_of_string q))
             \/ (exists n, Handler.indexOf q c' = Z.of_nat n
                           /\ (n < String.length q)%nat
                           /\ String.get n q = Some c'
                           /\ ~ In c' (list_ascii_of_string (substring 0 n q)))).
  { intros c'. unfold Handler.indexOf.
    destruct (indexOf_from_spec q c' 0 (Z.le_refl 0)) as [H|(n & Hn & H)];
      [left; exact H | right; exists n; split; [lia | exact H]]. }
  split; [|].
  - destruct (Hspec c) as [H|(n & Hn & Hlt & Hget & Hpre)]; [left; exact H | right].
    rewrite Hn, Nat2Z.id. split; [lia|]. split; assumption.
  - unfold Handler.query_pasteID.
    destruct (Hspec "&"%char) as [[Hm Hnot]|(n & Hn & Hlt & Hget & Hpre)].
    + rewrite Hm. cbn [Z.eqb negb]. split; [exact Hnot | left; reflexivity].
    + rewrite Hn. replace (Z.of_nat n =? -1)%Z with false by (symmetry; apply Z.eqb_neq; lia).
      cbn [negb]. rewrite Nat2Z.id. split; [exact Hpre|]. right.
      exact (substring_split n q "&"%char Hget).
Qed.
(** ** Operations on one paste leave the others alone *)

Section Frame.
Import Errors GoStrings Model.
#[local] Arguments append !s1 s2 : simpl nomatch.

Lemma append_inj_same_length (a b x y : string) :
  String.length a = String.length b -> a ++ x = b ++ y -> x = y.
Proof.
  revert b. induction a as [|c a IH]; intros [|c' b] Hlen H; try discriminate.
  - exact H.
  - cbn in Hlen, H. injection H as _ H. apply (IH b); [lia | exact H].
Qed.

(** The layout of the paste files: [base/ab/cd/abcd...]. *)
Lemma pastePath_shape (f : Filesystem.t) (id : string) :
  (4 <= String.length id)%nat ->
  exists pre, Filesystem.pastePath f id = pre ++ id
              /\ String.length pre
                 = (String.length (if String.eqb (Filesystem.baseDir f) "" then ""
                                   else Filesystem.baseDir f ++ "/") + 6)%nat.
Proof.
  intros Hlen. destruct id as [|c0 [|c1 [|c2 [|c3 rest]]]]; cbn in Hlen; try lia.
  unfold Filesystem.pastePath. cbn [String.length Nat.ltb Nat.leb]. unfold slice.
  cbn [Nat.sub substring Join String.eqb Ascii.eqb].
  replace (substring 0 0 rest) with "" by (destruct rest; reflexivity).
  cbn [append String.eqb].
  destruct (String.eqb (Filesystem.baseDir f) "").
  - exists (String c0 (String c1 (String "/" (String c2 (String c3 "/"))))).
    split; reflexivity.
  - exists (Filesystem.baseDir f
            ++ String "/" (String c0 (String c1 (String "/" (String c2 (String c3 "/")))))).
    split.
    + rewrite append_assoc. reflexivity.
    + rewrite !append_length. cbn. lia.
Qed.


Lemma lookup_filter_key {A : Type} (m : gmap string A) (P : string -> bool) (k : string) :
  P k = true -> filter (fun kv => P kv.1 = true) m !! k = m !! k.
Proof.
  intros HP. destruct (m !! k) as [v|] eqn:Hk.
  - apply map_lookup_filter_Some. split; [exact Hk | exact HP].
  - apply map_lookup_filter_None. left. exact Hk.
Qed.

Ltac fs_step :=
  first
    [ progress cbn [fst snd Filesystem.files Filesystem.with_files Filesystem.denied
                      Filesystem.baseDir]
    | match goal with
      | |- context [decide (?k ∈ ?d)] => destruct (decide (k ∈ d))
      | |- context [match ?m !! ?k with _ => _ end] => destruct (m !! k) eqn:?
      end ].

Ltac fs_lookup_frame :=
  repeat first [ reflexivity
               | rewrite lookup_insert_ne by congruence
               | rewrite lookup_delete_ne by congruence ].


(** [DeletePaste] removes the paste file and what lies below the
    discussion directory only. *)
Lemma fs_DeletePaste_frame (f : Filesystem.t) (id k : string) :
  k <> Filesystem.pastePath f id ->
  Filesystem.under (Filesystem.discussionDir f id) k = false ->
  Filesystem.files (snd (Filesystem.DeletePaste id f)) !! k = Filesystem.files f !! k
  /\ Filesystem.baseDir (snd (Filesystem.DeletePaste id f)) = Filesystem.baseDir f.
Proof.
  intros Hk Hunder.
  assert (Hfilter : filter (fun kv => negb (Filesystem.under (Filesystem.discussionDir f id)
                                              kv.1) = true) (Filesystem.files f) !! k
                    = Filesystem.files f !! k)
    by (apply (lookup_filter_key _ (fun k' => negb (Filesystem.under
                                                       (Filesystem.discussionDir f id) k')));
        now rewrite Hunder).
  unfold Filesystem.DeletePaste, Filesystem.os_Stat, Filesystem.os_RemoveAll,
    Filesystem.os_Remove.
  destruct (Filesystem.files f !! Filesystem.pastePath f id); cbn [negb];
    [|split; reflexivity].
  repeat fs_step; (split; [|reflexivity]); fs_lookup_frame; exact Hfilter.
Qed.



(** The paste file of another well-formed id is none of the paths an
    operation on [id] touches. *)
Lemma other_paste_path (f : Filesystem.t) (id id' parentID commentID : string) :
  well_formed_id id -> well_formed_id id' -> id <> id' ->
  Filesystem.pastePath f id' <> Filesystem.pastePath f id
  /\ Filesystem.pastePath f id' <> Filesystem.pastePath f id ++ ".tmp"
  /\ Filesystem.under (Filesystem.discussionDir f id) (Filesystem.pastePath f id') = false
  /\ Filesystem.pastePath f id' <> Filesystem.commentPath f id parentID commentID
  /\ Filesystem.pastePath f id' <> Filesystem.commentPath f id parentID commentID ++ ".tmp".
Proof.
  intros [Hl _] [Hl' _] Hne.
  destruct (pastePath_shape f id) as (pre & Hp & Hpre); [lia|].
  destruct (pastePath_shape f id') as (pre' & Hp' & Hpre'); [lia|].
  assert (Hlen : String.length (Filesystem.pastePath f id')
                 = String.length (Filesystem.pastePath f id))
    by (rewrite Hp, Hp', !append_length; lia).
  assert (Hlonger : forall t, t <> "" ->
                              Filesystem.pastePath f id' <> Filesystem.pastePath f id ++ t).
  { intros t Ht H. apply (f_equal String.length) in H. rewrite append_length, Hlen in H.
    destruct t; [congruence | cbn in H; lia]. }
  assert (Hcomment : Filesystem.commentPath f id parentID commentID
                     = Filesystem.pastePath f id
                       ++ (".discussion/" ++ commentID ++ "." ++ parentID ++ ".json")).
  { unfold Filesystem.commentPath. rewrite Join_two.
    - unfold Filesystem.discussionDir. now rewrite !append_assoc.
    - unfold Filesystem.discussionDir. apply append_nonempty. discriminate.
    - rewrite <- !append_assoc. apply append_nonempty. discriminate. }
  split; [|split; [|split; [|split]]].
  - rewrite Hp, Hp'. intros H. apply append_inj_same_length in H; [congruence | lia].
  - apply Hlonger. discriminate.
  - unfold Filesystem.under, Filesystem.discussionDir, HasPrefix.
    apply orb_false_iff. split.
    + apply String.eqb_neq. apply Hlonger. discriminate.
    + destruct (String.prefix _ _) eqn:Hpr; [|reflexivity].
      apply prefix_length in Hpr. rewrite !append_length, Hlen in Hpr. cbn in Hpr. lia.
  - rewrite Hcomment. apply Hlonger. discriminate.
  - rewrite Hcomment, append_assoc. apply Hlonger. discriminate.
Qed.

Lemma fs_lookup_frame (f f' : Filesystem.t) (id : string) :
  Filesystem.files f' !! Filesystem.pastePath f id = Filesystem.files f !! Filesystem.pastePath f id
  /\ Filesystem.baseDir f' = Filesystem.baseDir f ->
  fs_lookup f' id = fs_lookup f id.
Proof.
  intros [Hfiles Hbase]. unfold fs_lookup.
  replace (Filesystem.pastePath f' id) with (Filesystem.pastePath f id)
    by (unfold Filesystem.pastePath; now rewrite Hbase).
  now rewrite Hfiles.
Qed.

End Frame.


(** ** A comment that was created is read back *)

Section CommentTrip.
Import Errors GoStrings Json Model Table.
#[local] Arguments append !s1 s2 : simpl nomatch.




(** *** Strings *)












(** *** Sorting keeps the comments *)







(** *** The filesystem backend *)





(** *** The relational backend *)


End CommentTrip.


(** ** The purge of the filesystem backend keeps what has not expired *)

Section FsPurgeKeeps.
Import Errors GoStrings Model Table.

(** Every id the scan returns is the base name of a paste file that
    decodes and has expired. *)
Lemma fs_walk_elems (now N : Z) (entries : list (string * Filesystem.file))
  (acc : list string) (id : string) :
  In id (Filesystem.walk now N entries acc) ->
  In id acc
  \/ exists path data sd,
       In (path, data) entries
       /\ Contains path "_config" = false
       /\ Contains path ".discussion" || HasSuffix path ".json" = false
       /\ Filesystem.unmarshal_paste data = Some sd
       /\ ((ExpireDate (Filesystem.sd_Meta sd) >? 0)%Z
           && (ExpireDate (Filesystem.sd_Meta sd) <? now)%Z) = true
       /\ id = Base path.
Proof.
  revert acc. induction entries as [|[path data] entries IH]; intros acc Hin;
    cbn [Filesystem.walk] in Hin; [now left|].
  assert (Hrest : forall acc', In id (Filesystem.walk now N entries acc') ->
                               (In id acc' -> In id acc
                                              \/ exists path' data' sd,
                                   In (path', data') ((path, data) :: entries)
                                   /\ Contains path' "_config" = false
                                   /\ Contains path' ".discussion"
                                      || HasSuffix path' ".json" = false
                                   /\ Filesystem.unmarshal_paste data' = Some sd
                                   /\ ((ExpireDate (Filesystem.sd_Meta sd) >? 0)%Z
                                       && (ExpireDate (Filesystem.sd_Meta sd) <? now)%Z) = true
                                   /\ id = Base path') ->
                               In id acc
                               \/ exists path' data' sd,
                                   In (path', data') ((path, data) :: entries)
                                   /\ Contains path' "_config" = false
                                   /\ Contains path' ".discussion"
                                      || HasSuffix path' ".json" = false
                                   /\ Filesystem.unmarshal_paste data' = Some sd
                                   /\ ((ExpireDate (Filesystem.sd_Meta sd) >? 0)%Z
                                       && (ExpireDate (Filesystem.sd_Meta sd) <? now)%Z) = true
                                   /\ id = Base path').
  { intros acc' Hw Hacc'. destruct (IH acc' Hw) as [H|(path' & data' & sd & H & Hrest)].
    - now apply Hacc'.
    - right. exists path', data', sd. split; [now right | exact Hrest]. }
  destruct (Contains path "_config") eqn:Hc; [apply (Hrest acc Hin); now left|].
  destruct (Contains path ".discussion" || HasSuffix path ".json") eqn:Hd;
    [apply (Hrest acc Hin); now left|].
  destruct (Filesystem.unmarshal_paste data) as [sd|] eqn:Hsd;
    [|apply (Hrest acc Hin); now left].
  destruct ((ExpireDate (Filesystem.sd_Meta sd) >? 0)%Z
            && (ExpireDate (Filesystem.sd_Meta sd) <? now)%Z) eqn:Hexp;
    [|apply (Hrest acc Hin); now left].
  assert (Hnew : In id (acc ++ [Base path]) ->
                 In id acc
                 \/ exists path' data' sd',
                     In (path', data') ((path, data) :: entries)
                     /\ Contains path' "_config" = false
                     /\ Contains path' ".discussion" || HasSuffix path' ".json" = false
                     /\ Filesystem.unmarshal_paste data' = Some sd'
                     /\ ((ExpireDate (Filesystem.sd_Meta sd') >? 0)%Z
                         && (ExpireDate (Filesystem.sd_Meta sd') <? now)%Z) = true
                     /\ id = Base path').
  { intros H. apply in_app_iff in H as [H|[H|[]]]; [now left|]. right.
    exists path, data, sd. repeat split; try assumption; [now left | now symmetry]. }
  destruct (_ >=? _)%Z; [now apply Hnew | now apply (Hrest _ Hin)].
Qed.

(** The loop of [Purge] touches only the paste files and discussion
    directories of the ids it is given. *)
Lemma fs_purge_loop_frame (ids : list string) (count : Z) (f : Filesystem.t) (k : string) :
  (forall id, In id ids ->
              k <> Filesystem.pastePath f id
              /\ Filesystem.under (Filesystem.discussionDir f id) k = false) ->
  Filesystem.files (snd (Filesystem.purge_loop ids count f)) !! k = Filesystem.files f !! k
  /\ Filesystem.baseDir (snd (Filesystem.purge_loop ids count f)) = Filesystem.baseDir f.
Proof.
  revert count f. induction ids as [|id ids IH]; intros count f Hids;
    cbn [Filesystem.purge_loop]; [split; reflexivity|].
  destruct (Hids id (or_introl eq_refl)) as [Hk Hunder].
  destruct (fs_DeletePaste_frame f id k Hk Hunder) as [Hfiles Hbase].
  assert (Hids' : forall id', In id' ids ->
                    k <> Filesystem.pastePath (snd (Filesystem.DeletePaste id f)) id'
                    /\ Filesystem.under
                         (Filesystem.discussionDir (snd (Filesystem.DeletePaste id f)) id') k
                       = false).
  { intros id' Hin. unfold Filesystem.discussionDir, Filesystem.pastePath. rewrite Hbase.
    apply (Hids id'). now right. }
  destruct (Filesystem.DeletePaste id f) as [[e|] f'] eqn:Hdel; cbn [snd] in *.
  - destruct e; try (cbn [snd]; split; assumption);
      destruct (IH (count + 1)%Z f' Hids') as [H1 H2]; split; congruence.
  - destruct (IH (count + 1)%Z f' Hids') as [H1 H2]. split; congruence.
Qed.

End FsPurgeKeeps.

(** X20. Filesystem backend: on a store with the layout the backend
    itself produces, [Purge] leaves every paste in place that the expiry
    scan passes over (expiration 0, negative, or not before now), whatever
    the batch size is and whatever I/O faults occur. *)
Theorem X20_filesystem_purge_keeps_live (now N : Z) (f : Filesystem.t) (id : string)
  (p : Model.Paste)
  (Hlayout : fs_canonical f = true)
  (Hid : Util.ValidateID id = true)
  (Hp : fs_lookup f id = Some p)
  (Hlive : scan_live now p) :
  fs_lookup (snd (Filesystem.Purge now N f)) id = Some p.
Proof.
  rewrite <- Hp. apply fs_lookup_frame.
  unfold Filesystem.Purge, Filesystem.GetExpiredPastes.
  apply fs_purge_loop_frame. intros idw Hin.
  apply fs_walk_elems in Hin as [[]|(path & data & sd & Hin & Hc & Hd & Hsd & Hexp & ->)].
  unfold fs_canonical in Hlayout. rewrite forallb_forall in Hlayout.
  pose proof (Hlayout _ Hin) as Hcan. cbn [fst] in Hcan. rewrite Hc in Hcan.
  apply orb_false_iff in Hd as [Hd1 Hd2]. rewrite Hd1, Hd2 in Hcan. cbn [orb] in Hcan.
  apply andb_true_iff in Hcan as [Hvalid Hpath]. apply String.eqb_eq in Hpath.
  destruct (String.eqb_spec (GoStrings.Base path) id) as [Heq|Hne].
  - exfalso. rewrite Heq in Hpath.
    apply list_elem_of_In, elem_of_entries in Hin. unfold fs_lookup in Hp.
    rewrite <- Hpath, Hin, Hsd in Hp. injection Hp as <-.
    unfold scan_live in Hlive. cbn [Model.Meta fs_paste_of] in Hlive. congruence.
  - apply ValidateID_consume, consume_all in Hvalid, Hid.
    destruct (other_paste_path f (GoStrings.Base path) id "" "" Hvalid Hid Hne)
      as (H1 & _ & H3 & _).
    split; assumption.
Qed.

Lemma X20_filesystem_purge_keeps_live_witness :
  fst (Filesystem.Purge 100 10 fs_three) = (2%Z, None)
  /\ fs_lookup (snd (Filesystem.Purge 100 10 fs_three)) id_c
     = Some (stored_paste id_c (example_paste "ct3" 500 false false)).
Proof.
  split; [vm_compute; reflexivity|].
  assert (Hlayout : fs_canonical fs_three = true) by (vm_compute; reflexivity).
  assert (Hid : Util.ValidateID id_c = true) by (vm_compute; reflexivity).
  assert (Hp : fs_lookup fs_three id_c
               = Some (stored_paste id_c (example_paste "ct3" 500 false false)))
    by (vm_compute; reflexivity).
  assert (Hlive : scan_live 100 (stored_paste id_c (example_paste "ct3" 500 false false)))
    by (vm_compute; reflexivity).
  exact (X20_filesystem_purge_keeps_live 100 10 fs_three id_c _ Hlayout Hid Hp Hlive).
Defined.
(** ** The lifetime of a paste *)

(** X21. A paste whose expiration was set to a duration [d] at the
    instant [t] (expiring after the first second of the epoch) is not
    expired at any instant up to [t + d], and is expired from one second
    after [t + d] on; with the duration 0 it never expires.  In between, the
    whole-second timestamps decide. *)
Theorem X21_expiration_window (t d t' : Z) (p : Model.Paste)
  (Hepoch : (1000000000 <= t + d)%Z) :
  (d = 0%Z -> Model.IsExpired (Model.Unix t') (Model.SetExpiration t d p) = false)
  /\ ((t' <= t + d)%Z ->
      Model.IsExpired (Model.Unix t') (Model.SetExpiration t d p) = false)
  /\ (d <> 0%Z -> (t + d + 1000000000 <= t')%Z ->
      Model.IsExpired (Model.Unix t') (Model.SetExpiration t d p) = true)
  /\ Model.Data (Model.SetExpiration t d p) = Model.Data p
  /\ Model.PostDate (Model.Meta (Model.SetExpiration t d p)) = Model.PostDate (Model.Meta p).
Proof.
  unfold Model.IsExpired, Model.SetExpiration, Model.Unix.
  cbn [Model.Meta Model.ExpireDate Model.set_ExpireDate Model.Data Model.PostDate].
  split; [|split; [|split; [|split; reflexivity]]].
  - intros ->. reflexivity.
  - intros Hle. destruct (Z.eqb_spec d 0); [reflexivity|].
    destruct (Z.eqb_spec ((t + d) / 1000000000) 0); [reflexivity|].
    rewrite Z.gtb_ltb. apply Z.ltb_ge. apply Z.div_le_mono; lia.
  - intros Hd Hge. destruct (Z.eqb_spec d 0); [contradiction|].
    assert (H1 : (1 <= (t + d) / 1000000000)%Z) by (apply Z.div_le_lower_bound; lia).
    destruct (Z.eqb_spec ((t + d) / 1000000000) 0); [lia|].
    rewrite Z.gtb_ltb. apply Z.ltb_lt.
    assert (H2 : ((t + d) / 1000000000 + 1 <= t' / 1000000000)%Z).
    { replace ((t + d) / 1000000000 + 1)%Z with ((t + d + 1 * 1000000000) / 1000000000)%Z
        by (rewrite Z.div_add by lia; reflexivity).
      apply Z.div_le_mono; lia. }
    lia.
Qed.

Lemma X21_expiration_window_witness :
  Model.IsExpired (Model.Unix 1700000300000000000)
    (Model.SetExpiration 1700000000000000000 300000000000 (example_paste "ct1" 0 false false))
  = false
  /\ Model.IsExpired (Model.Unix 1700000301000000000)
       (Model.SetExpiration 1700000000000000000 300000000000
          (example_paste "ct1" 0 false false))
     = true.
Proof.
  assert (Hepoch : (1000000000 <= 1700000000000000000 + 300000000000)%Z) by lia.
  destruct (X21_expiration_window 1700000000000000000 300000000000 1700000300000000000
              (example_paste "ct1" 0 false false) Hepoch) as (_ & H1 & _).
  destruct (X21_expiration_window 1700000000000000000 300000000000 1700000301000000000
              (example_paste "ct1" 0 false false) Hepoch) as (_ & _ & H2 & _).
  split; [apply H1; lia | apply H2; lia].
Defined.
